(** * Cross-chain arbitrage engine: a shallow embedding and its properties

    The TypeScript sources are embedded function by function.

    - A [bigint] is a [Z]; bigint division truncates toward zero ([Z.quot])
      and raises a [RangeError] on a zero divisor.
    - A JavaScript [number] that the code does arithmetic on is a binary64
      float ([PrimFloat.float]): [Number(b)] rounds a bigint to the nearest
      double, [BigInt(Math.floor(x))] raises a [RangeError] on NaN and on the
      infinities.
    - An [async] method is a computation [M W A] over the state [W] of the
      outside world (chains, HTTP services, timers): it either returns a
      value or throws, and hands back the new state.  The collaborators a
      class receives (chain clients, venue adapters, bridge providers) are
      records of such operations, so every statement holds for every
      behaviour of the outside world.
    - [Logger] only prints (its serialisation is wrapped in its own
      try/catch); logging calls are left out. *)

From Stdlib Require Import ZArith List Bool Lia Lqa String HexString QArith Qround Floats.
From stdpp Require Import base option list gmap strings pretty.

Set Warnings "-inexact-float,-register-all".
Local Open Scope string_scope.
Local Open Scope Z_scope.

(** ** JavaScript values, exceptions and the [async] monad *)

Module Js.

(** The values the code throws.  [ArbitrageError], [SwapError] and
    [BridgeError] are the error classes of [types.ts]: each carries a
    message, [ArbitrageError] its machine-readable code; [SwapError] and
    [BridgeError] extend it with a fixed code (see [code] below) and a
    context object, of which the error they wrap (its [error] field) is
    kept.  [JsError] is the built-in [Error], [RangeError] the built-in
    one. *)
Inductive Exn : Type :=
| JsError (message : string)
| RangeError (message : string)
| ArbitrageError (message code : string)
| SwapError (message : string) (cause : option Exn)
| BridgeError (message : string) (cause : option Exn).

(** The [code] field: set by the constructor of [ArbitrageError], fixed in
    its two subclasses, absent from the built-in errors. *)
Definition code (e : Exn) : option string :=
  match e with
  | ArbitrageError _ c => Some c
  | SwapError _ _ => Some "SWAP_ERROR"
  | BridgeError _ _ => Some "BRIDGE_ERROR"
  | JsError _ | RangeError _ => None
  end.

Inductive Result (A : Type) : Type :=
| Ok (a : A)
| Throw (e : Exn).
Arguments Ok {A} a.
Arguments Throw {A} e.

(** An [async] computation over the world state [W]. *)
Definition M (W A : Type) : Type := W -> Result A * W.

Definition ret {W A} (a : A) : M W A := fun w => (Ok a, w).
Definition throw {W A} (e : Exn) : M W A := fun w => (Throw e, w).
Definition bind {W A B} (c : M W A) (k : A -> M W B) : M W B :=
  fun w => match c w with
           | (Ok a, w') => k a w'
           | (Throw e, w') => (Throw e, w')
           end.
(** [try { body } catch (error) { handler }] *)
Definition try_catch {W A} (body : M W A) (handler : Exn -> M W A) : M W A :=
  fun w => match body w with
           | (Ok a, w') => (Ok a, w')
           | (Throw e, w') => handler e w'
           end.
(** [try { body } finally { fin }]: [fin] runs on both exits and, when it
    returns normally, leaves the outcome of [body] in place. *)
Definition try_finally {W A} (body : M W A) (fin : M W unit) : M W A :=
  fun w => match body w with
           | (r, w') => match fin w' with
                        | (Ok _, w'') => (r, w'')
                        | (Throw e, w'') => (Throw e, w'')
                        end
           end.
(** A synchronous, possibly throwing computation used inside [async] code. *)
Definition lift_result {W A} (r : Result A) : M W A := fun w => (r, w).

(** [Number(b)] for a bigint [b]: the nearest double, ties to even;
    overflows to an infinity. *)
Definition Number (b : Z) : float :=
  SF2Prim (binary_normalize prec emax b 0 false).

(** [BigInt(Math.floor(x))]: the integer below a finite [x]; [BigInt]
    throws a [RangeError] on NaN and on the infinities. *)
Definition BigInt_floor (x : float) : Result Z :=
  match Prim2SF x with
  | S754_zero _ => Ok 0
  | S754_finite s m e =>
      let sm := if s then Z.neg m else Z.pos m in
      Ok (if 0 <=? e then sm * 2 ^ e else sm / 2 ^ (- e))
  | S754_infinity s =>
      Throw (RangeError ("The number " ++ (if s then "-Infinity" else "Infinity")
                         ++ " cannot be converted to a BigInt because it is not an integer"))
  | S754_nan =>
      Throw (RangeError "The number NaN cannot be converted to a BigInt because it is not an integer")
  end.

(** [a / b] on bigints. *)
Definition bigint_div (a b : Z) : Result Z :=
  if b =? 0 then Throw (RangeError "Division by zero") else Ok (Z.quot a b).

(** [Math.min(a, b)] and [Math.abs]: NaN is contagious, [-0 < +0]. *)
Definition Math_min (a b : float) : float :=
  if PrimFloat.is_nan a || PrimFloat.is_nan b then PrimFloat.nan
  else if PrimFloat.ltb a b then a
  else if PrimFloat.ltb b a then b
  else if PrimFloat.get_sign a then a else b.
Definition Math_abs (a : float) : float := PrimFloat.abs a.

(** [n.toString()] and [n.toString(16)] for an integer [n]. *)
Definition toString10 (n : Z) : string := pretty n.
Definition toString16 (n : Z) : string :=
  match n with
  | Z0 => "0"
  | Zpos p => HexString.Raw.of_pos p ""
  | Zneg p => "-" ++ HexString.Raw.of_pos p ""
  end.
(** [s.repeat(n)] *)
Fixpoint repeat_string (s : string) (n : nat) : string :=
  match n with
  | O => ""
  | S n' => s ++ repeat_string s n'
  end.

(** [s.includes(sub)] *)
Definition includes (s sub : string) : bool :=
  match String.index 0 sub s with Some _ => true | None => false end.

End Js.

Import Js.

Declare Scope js_scope.
Delimit Scope js_scope with js.
Notation "x <- c ;; k" := (bind c (fun x => k))
  (at level 100, c at next level, right associativity) : js_scope.
Notation "'do' c ;; k" := (bind c (fun _ => k))
  (at level 100, c at next level, right associativity) : js_scope.
Local Open Scope js_scope.

(** ** utils/calculations.ts *)

Module ArbitrageCalculator.

(** [10 ** decimals] as a number; the callers pass [TOKEN_DECIMALS.USDC]. *)
Definition pow10 (decimals : nat) : float := Number (10 ^ Z.of_nat decimals).

Definition calculatePriceDifference (price1 price2 : Z) (decimals : nat) : float :=
  let p1 := (Number price1 / pow10 decimals)%float in
  let p2 := (Number price2 / pow10 decimals)%float in
  (Math_abs (p1 - p2) / Math_min p1 p2)%float.

(** [BigInt(10 ** decimals)] is the power of ten itself up to 22 decimals,
    where the double is exact; the callers pass 6. *)
Definition calculateArbitrageProfit (buyPrice sellPrice amount : Z) (decimals : nat) : Z :=
  if sellPrice <=? buyPrice then 0
  else
    let priceDiff := sellPrice - buyPrice in
    Z.quot (amount * priceDiff) (10 ^ Z.of_nat decimals).

Definition calculateNetProfit (grossProfit gasCosts bridgeCosts slippageCosts : Z) : Z :=
  let totalCosts := gasCosts + bridgeCosts + slippageCosts in
  if grossProfit >? totalCosts then grossProfit - totalCosts else 0.


(** [BigInt(Math.floor(usdAmount * 10 ** decimals))] *)
Definition usdToTokenAmount (usdAmount : float) (decimals : nat) : Result Z :=
  BigInt_floor (usdAmount * pow10 decimals)%float.

Definition calculateProfitPercentage (netProfit investment : Z) : float :=
  if investment =? 0 then 0%float
  else
    let profitNum := Number netProfit in
    let investmentNum := Number investment in
    (profitNum / investmentNum * 100)%float.

End ArbitrageCalculator.

Definition TOKEN_DECIMALS_USDC : nat := 6.

(** [PriceData] of [types.ts]. *)
Module PriceData.
Record t : Type := mk {
  price0 : Z;
  price1 : Z;
  timestamp : Z;
  blockNumber : Z;
  pool : string;
  network : string;
  liquidity : Z;
  sqrtPriceX96 : option Z
}.
End PriceData.

(** ** PriceMonitor: conversion of a pool's square-root price *)

Module PriceMonitor.

Definition Q96 : Z := 2 ^ 96.

(** [Math.pow(10, d)] for an integer [d].  The two call sites pass equal
    decimals, so [d = 0] and the factor is exactly [1].  For [d < 0] the
    reciprocal of the power is taken, the correctly rounded value; the
    engine's [Math.pow] may return its neighbour there (one unit in the last
    place), so for unequal decimals with [decimals1 < decimals0] the price
    computed below may differ from the code's by one. *)
Definition Math_pow10 (d : Z) : float :=
  if 0 <=? d then Number (10 ^ d) else (1 / Number (10 ^ (- d)))%float.

(** Alternative V3 price calculation method using integer math; its
    [catch] turns a thrown error into [0]. *)
Definition alternativeV3PriceCalculation (sqrtPriceX96 : Z) : Z :=
  let body : Result Z :=
    let sqrtPriceSquared := sqrtPriceX96 * sqrtPriceX96 in
    let Q192 := Q96 * Q96 in
    match bigint_div sqrtPriceSquared Q192 with
    | Throw e => Throw e
    | Ok priceRatio =>
        if priceRatio =? 0 then
          match bigint_div Q192 sqrtPriceSquared with
          | Throw e => Throw e
          | Ok inversePriceRatio => Ok (inversePriceRatio * 1000000)
          end
        else Ok (priceRatio * 1000000)
    end in
  match body with
  | Ok price => price
  | Throw _ => 0
  end.

(** The primary formula, [price = (sqrtPriceX96 / 2^96)^2] in floating
    point, scaled to 6 decimals: the value of [priceBigInt]. *)
Definition primaryV3Price (sqrtPriceX96 decimals0 decimals1 : Z) : Result Z :=
  let sqrtPriceFloat := (Number sqrtPriceX96 / Number Q96)%float in
  let priceFloat := (sqrtPriceFloat * sqrtPriceFloat)%float in
  let decimalAdjustment := Math_pow10 (decimals1 - decimals0) in
  let adjustedPriceFloat := (priceFloat * decimalAdjustment)%float in
  let finalPrice := (adjustedPriceFloat * Math_pow10 6)%float in
  BigInt_floor finalPrice.

Definition sqrtPriceX96ToPrice (sqrtPriceX96 decimals0 decimals1 : Z) : Z :=
  let body : Result Z :=
    if sqrtPriceX96 =? 0 then Ok 1000000
    else
      match primaryV3Price sqrtPriceX96 decimals0 decimals1 with
      | Throw e => Throw e
      | Ok priceBigInt =>
          let rest :=
            if priceBigInt >? 0 then Ok priceBigInt else Ok 1000000 in
          if (priceBigInt <? 500000) || (priceBigInt >? 2000000) then
            let alternativePrice := alternativeV3PriceCalculation sqrtPriceX96 in
            if alternativePrice >? 0 then Ok alternativePrice else rest
          else rest
      end in
  match body with
  | Ok price => price
  | Throw _ => 1000000
  end.


(** *** The price history

    The two maps of the class, from a pool's key to its price points and to
    the time of its last update.  [now] is the value of [Date.now()] at
    the call. *)
Record State : Type := mkState {
  priceHistory : gmap string (list PriceData.t);
  lastPriceUpdate : gmap string Z
}.

(** A new monitor: both maps empty. *)
Definition initial : State := mkState ∅ ∅.

Definition storePriceData (poolKey : string) (priceData : PriceData.t) (now : Z)
    (s : State) : State :=
  let history := default [] (priceHistory s !! poolKey) in
  let history := (history ++ [priceData])%list in
  let history := if 100 <? Z.of_nat (length history) then drop 1 history else history in
  mkState (<[poolKey := history]> (priceHistory s)) (<[poolKey := now]> (lastPriceUpdate s)).

(** The staleness check only logs. *)
Definition getLatestPrice (poolKey : string) (s : State) : option PriceData.t :=
  match priceHistory s !! poolKey with
  | None => None
  | Some history => last history
  end.

(** [maxAge] is optional, and [0] counts as absent ([!maxAge]). *)
Definition getPriceHistory (poolKey : string) (maxAge : option Z) (now : Z) (s : State)
    : list PriceData.t :=
  let history := default [] (priceHistory s !! poolKey) in
  match maxAge with
  | None | Some 0 => history
  | Some maxAge =>
      let cutoff := now - maxAge in
      List.filter (fun p => cutoff <=? PriceData.timestamp p) history
  end.

End PriceMonitor.

(** ** Shared data types (types.ts)

    The interfaces keep their fields and the fields' names.  A field typed
    [string] that the code only ever fills with a network's name is given
    the type [Network]. *)

(** The string-literal unions ['USDC' | 'USDT'], ['avalanche' | 'sonic'],
    ['pharaoh' | 'shadow'] and
    ['avalanche-to-sonic' | 'sonic-to-avalanche']. *)
Inductive Token : Type := USDC | USDT.
Inductive Network : Type := avalanche | sonic.
Inductive DexName : Type := pharaoh | shadow.
Inductive Direction : Type := avalanche_to_sonic | sonic_to_avalanche.

#[global] Instance Token_eq_dec : EqDecision Token.
Proof. solve_decision. Defined.
#[global] Instance Network_eq_dec : EqDecision Network.
Proof. solve_decision. Defined.
#[global] Instance DexName_eq_dec : EqDecision DexName.
Proof. solve_decision. Defined.
#[global] Instance Direction_eq_dec : EqDecision Direction.
Proof. solve_decision. Defined.

Definition Address : Type := string.
Definition Hash : Type := string.

Definition DexName_key (dex : DexName) : string :=
  match dex with pharaoh => "pharaoh" | shadow => "shadow" end.

(** [SwapQuote]: the venue-reported quote. *)
Module SwapQuote.
Record t : Type := mk {
  tokenIn : Address;
  tokenOut : Address;
  amountIn : Z;
  amountOut : Z;
  impact : float;
  gasEstimate : Z;
  pool : Address;
  network : Network
}.
End SwapQuote.

(** What a venue's [executeSwapExactIn] resolves to. *)
Module SwapExecution.
Record t : Type := mk {
  txHash : Hash;
  amountOut : Z;
  actualGasUsed : Z
}.
End SwapExecution.

(** [DEXSwapResult]: the uniform result shape of the swap coordinator. *)
Module DEXSwapResult.
Record t : Type := mk {
  dex : DexName;
  network : Network;
  txHash : Hash;
  amountIn : Z;
  amountOut : Z;
  actualGasUsed : Z;
  priceImpact : float
}.
End DEXSwapResult.

(** The part of a transaction receipt the sources read. *)
Module Receipt.
Record t : Type := mk { gasUsed : Z }.
End Receipt.

(** The chain client capability of one network ([client.public] and
    [client.wallet]): every call may throw and may change the chain. *)
Module ChainClient.
Record t (W : Type) : Type := mk {
  accountAddress : Address;
  (** [public.readContract] of ERC20 [allowance(owner, spender)] on a token *)
  readAllowance : Address -> Address -> Address -> M W Z;
  (** [wallet.writeContract] of ERC20 [approve(spender, amount)] on a token *)
  writeApprove : Address -> Address -> Z -> M W Hash;
  (** [wallet.writeContract] of the router's [swapWithUserSignature(data)]
      with a gas limit *)
  writeSwapWithUserSignature : Address -> string -> Z -> M W Hash;
  (** [public.waitForTransactionReceipt] *)
  waitForTransactionReceipt : Hash -> M W Receipt.t;
  (** The signed and ABI-encoded swap authorisation for the router: the
      wallet's EIP-712 signature joined to the encoded parameters
      ([createMagpieSwapData]). *)
  createMagpieSwapData : Address -> Address -> Address -> Z -> M W string
}.
Arguments accountAddress {W}.
Arguments readAllowance {W}.
Arguments writeApprove {W}.
Arguments writeSwapWithUserSignature {W}.
Arguments waitForTransactionReceipt {W}.
Arguments createMagpieSwapData {W}.
End ChainClient.

(** ** PharaohDEXService (services/dex/pharaoh.ts) and ShadowDEXService

    The two adapter classes have the same code and differ in the constants
    gathered in [VenueConfig]; [PharaohDEXService] and [ShadowDEXService]
    below are that code at each class's constants. *)

Module VenueAdapter.

Record VenueConfig : Type := mkConfig {
  venueName : string;
  venueNetwork : Network;
  routerAddress : Address;
  usdcAddress : Address;
  usdtAddress : Address;
  poolAddress : Address;
  feeRate : float;
  quoteGasEstimate : Z;
  swapGasLimit : Z;
  approvalErrorMessage : string
}.

Definition calculatePriceImpact (amountIn amountOut : Z) : float :=
  let ratio := (Number amountOut / Number amountIn)%float in
  let deviation := Math_abs (1 - ratio)%float in
  Math_min (deviation * 100)%float 1%float.

(** The quote is a local computation: a fixed fee rate applied to the
    input amount in floating point. *)
Definition getSwapQuoteExactIn (cfg : VenueConfig) (tokenIn tokenOut : Token)
    (amountIn : Z) : Result SwapQuote.t :=
  let body : Result SwapQuote.t :=
    if bool_decide (tokenIn = tokenOut) then Throw (JsError "Cannot swap token for itself")
    else
      let tokenInAddress := if bool_decide (tokenIn = USDC) then usdcAddress cfg else usdtAddress cfg in
      let tokenOutAddress := if bool_decide (tokenOut = USDC) then usdcAddress cfg else usdtAddress cfg in
      let amountAfterFee := (Number amountIn * (1 - feeRate cfg))%float in
      match BigInt_floor amountAfterFee with
      | Throw e => Throw e
      | Ok amountOut =>
          let priceImpact := calculatePriceImpact amountIn amountOut in
          Ok (SwapQuote.mk tokenInAddress tokenOutAddress amountIn amountOut
                priceImpact (quoteGasEstimate cfg) (poolAddress cfg) (venueNetwork cfg))
      end in
  match body with
  | Ok quote => Ok quote
  | Throw error =>
      Throw (SwapError ("Failed to get " ++ venueName cfg ++ " swap quote") (Some error))
  end.

Section WithClient.
Context {W : Type} (cfg : VenueConfig) (client : ChainClient.t W).

Definition ensureTokenApproval (tokenAddress : Address) (amount : Z) : M W unit :=
  try_catch
    (let userAddress := ChainClient.accountAddress client in
     allowance <- ChainClient.readAllowance client tokenAddress userAddress (routerAddress cfg) ;;
     if allowance >=? amount then ret tt
     else
       approveTxHash <- ChainClient.writeApprove client tokenAddress (routerAddress cfg) (amount * 2) ;;
       do ChainClient.waitForTransactionReceipt client approveTxHash ;;
       ret tt)
    (fun error =>
       throw (SwapError (approvalErrorMessage cfg) (Some error))).

Definition executeSwapExactIn (tokenIn tokenOut : Token) (amountIn : Z)
    : M W SwapExecution.t :=
  try_catch
    (let tokenInAddress := if bool_decide (tokenIn = USDC) then usdcAddress cfg else usdtAddress cfg in
     let tokenOutAddress := if bool_decide (tokenOut = USDC) then usdcAddress cfg else usdtAddress cfg in
     do ensureTokenApproval tokenInAddress amountIn ;;
     quote <- lift_result (getSwapQuoteExactIn cfg tokenIn tokenOut amountIn) ;;
     swapData <- ChainClient.createMagpieSwapData client (routerAddress cfg)
                   tokenInAddress tokenOutAddress amountIn ;;
     txHash <- ChainClient.writeSwapWithUserSignature client (routerAddress cfg)
                 swapData (swapGasLimit cfg) ;;
     receipt <- ChainClient.waitForTransactionReceipt client txHash ;;
     ret (SwapExecution.mk txHash (SwapQuote.amountOut quote) (Receipt.gasUsed receipt)))
    (fun error =>
       throw (SwapError ("Failed to execute " ++ venueName cfg ++ " swap") (Some error))).

End WithClient.

End VenueAdapter.

(** The addresses a venue reads from the process environment. *)
Record VenueEnv : Type := mkVenueEnv {
  env_router : Address;
  env_usdc : Address;
  env_usdt : Address;
  env_pool : Address
}.

Module PharaohDEXService.
(** The pool address is optional for this venue: an unset (or empty)
    variable is reported as ['0x'] in its quotes. *)
Definition config (env : VenueEnv) : VenueAdapter.VenueConfig :=
  VenueAdapter.mkConfig "Pharaoh" avalanche (env_router env) (env_usdc env)
    (env_usdt env)
    (if bool_decide (env_pool env = String.EmptyString) then "0x" else env_pool env)
    0.0005%float 872000 900000
    "Failed to approve token for Pharaoh Magpie Router".
Definition getSwapQuoteExactIn (env : VenueEnv) :=
  VenueAdapter.getSwapQuoteExactIn (config env).
Definition executeSwapExactIn {W} (env : VenueEnv) (client : ChainClient.t W) :=
  VenueAdapter.executeSwapExactIn (config env) client.
End PharaohDEXService.

Module ShadowDEXService.
Definition config (env : VenueEnv) : VenueAdapter.VenueConfig :=
  VenueAdapter.mkConfig "Shadow" sonic (env_router env) (env_usdc env)
    (env_usdt env) (env_pool env) 0.0008%float 85000 100000
    "Failed to approve token for Magpie Router".
Definition getSwapQuoteExactIn (env : VenueEnv) :=
  VenueAdapter.getSwapQuoteExactIn (config env).
Definition executeSwapExactIn {W} (env : VenueEnv) (client : ChainClient.t W) :=
  VenueAdapter.executeSwapExactIn (config env) client.
End ShadowDEXService.

(** ** services/dex/dexManager.ts *)

(** What [DEXManager] uses of a venue adapter object. *)
Module VenueService.
Record t (W : Type) : Type := mk {
  getSwapQuoteExactIn : Token -> Token -> Z -> M W SwapQuote.t;
  executeSwapExactIn : Token -> Token -> Z -> M W SwapExecution.t
}.
Arguments getSwapQuoteExactIn {W}.
Arguments executeSwapExactIn {W}.

Definition Pharaoh {W} (env : VenueEnv) (client : ChainClient.t W) : t W :=
  mk W (fun tokenIn tokenOut amountIn =>
          lift_result (PharaohDEXService.getSwapQuoteExactIn env tokenIn tokenOut amountIn))
       (PharaohDEXService.executeSwapExactIn env client).
Definition Shadow {W} (env : VenueEnv) (client : ChainClient.t W) : t W :=
  mk W (fun tokenIn tokenOut amountIn =>
          lift_result (ShadowDEXService.getSwapQuoteExactIn env tokenIn tokenOut amountIn))
       (ShadowDEXService.executeSwapExactIn env client).
End VenueService.

(** [Math.max(a, b)]: NaN is contagious, [-0 < +0]. *)
Definition Math_max (a b : float) : float :=
  if PrimFloat.is_nan a || PrimFloat.is_nan b then PrimFloat.nan
  else if PrimFloat.ltb a b then b
  else if PrimFloat.ltb b a then a
  else if PrimFloat.get_sign a then b else a.

(** [array.sort(compare)] as the stable insertion sort: an element moves
    behind another one only where [compare] of the two is positive. *)
Fixpoint sort_insert {A} (compare : A -> A -> float) (x : A) (l : list A) : list A :=
  match l with
  | [] => [x]
  | y :: l' => if PrimFloat.ltb 0 (compare x y) then y :: sort_insert compare x l' else x :: l
  end.
Definition Array_sort {A} (compare : A -> A -> float) (l : list A) : list A :=
  foldr (sort_insert compare) [] l.

(** The argument and the result of [DEXManager.estimateSwapCosts]. *)
Module SwapRequest.
Record t : Type := mk {
  dex : DexName;
  tokenIn : Token;
  tokenOut : Token;
  amount : Z
}.
End SwapRequest.

Module SwapCostEntry.
Record t : Type := mk {
  dex : DexName;
  gasCost : Z;
  priceImpact : float
}.
End SwapCostEntry.

Module SwapCosts.
Record t : Type := mk {
  totalGasCost : Z;
  totalPriceImpact : float;
  breakdown : list SwapCostEntry.t
}.
End SwapCosts.

Module DEXManager.
Section WithVenues.
Context {W : Type} (pharaohService shadowService : VenueService.t W).

(** The result object [{ pharaoh?: SwapQuote; shadow?: SwapQuote }] is a
    finite map from the venue's key to its quote. *)
Definition getAllQuotes (tokenIn tokenOut : Token) (amountIn : Z)
    (networks : option (list Network)) : M W (gmap string SwapQuote.t) :=
  let quotes : gmap string SwapQuote.t := ∅ in
  let targetNetworks := default [avalanche; sonic] networks in
  try_catch
    (quotes <-
       (if bool_decide (avalanche ∈ targetNetworks) then
          try_catch
            (q <- VenueService.getSwapQuoteExactIn pharaohService tokenIn tokenOut amountIn ;;
             ret (<["pharaoh" := q]> quotes))
            (fun error => ret quotes)
        else ret quotes) ;;
     quotes <-
       (if bool_decide (sonic ∈ targetNetworks) then
          try_catch
            (q <- VenueService.getSwapQuoteExactIn shadowService tokenIn tokenOut amountIn ;;
             ret (<["shadow" := q]> quotes))
            (fun error => ret quotes)
        else ret quotes) ;;
     ret quotes)
    (fun error => throw (SwapError "Failed to get DEX quotes" (Some error))).

Definition executeSwap (dex : DexName) (tokenIn tokenOut : Token) (amountIn : Z)
    : M W DEXSwapResult.t :=
  try_catch
    (r <-
       (if bool_decide (dex = pharaoh) then
          quote <- VenueService.getSwapQuoteExactIn pharaohService tokenIn tokenOut amountIn ;;
          result <- VenueService.executeSwapExactIn pharaohService tokenIn tokenOut amountIn ;;
          ret (result, avalanche, SwapQuote.impact quote)
        else
          quote <- VenueService.getSwapQuoteExactIn shadowService tokenIn tokenOut amountIn ;;
          result <- VenueService.executeSwapExactIn shadowService tokenIn tokenOut amountIn ;;
          ret (result, sonic, SwapQuote.impact quote)) ;;
     let '(result, network, priceImpact) := r in
     ret (DEXSwapResult.mk dex network (SwapExecution.txHash result) amountIn
            (SwapExecution.amountOut result) (SwapExecution.actualGasUsed result)
            priceImpact))
    (fun error =>
       throw (SwapError ("Failed to execute " ++ DexName_key dex ++ " swap") (Some error))).


(** The [availableQuotes[0]!] after the length check is never undefined;
    the last branch stands for the [TypeError] of reading it if it were. *)
Definition getBestQuote (tokenIn tokenOut : Token) (amountIn : Z)
    (networks : option (list Network)) : M W (SwapQuote.t * DexName) :=
  quotes <- getAllQuotes tokenIn tokenOut amountIn networks ;;
  let availableQuotes : list (SwapQuote.t * DexName) := [] in
  let availableQuotes :=
    match quotes !! "pharaoh" with
    | Some quote => (availableQuotes ++ [(quote, pharaoh)])%list
    | None => availableQuotes
    end in
  let availableQuotes :=
    match quotes !! "shadow" with
    | Some quote => (availableQuotes ++ [(quote, shadow)])%list
    | None => availableQuotes
    end in
  if bool_decide (length availableQuotes = 0%nat) then
    throw (SwapError "No DEX quotes available" None)
  else
    let sorted :=
      Array_sort (fun a b => Number (SwapQuote.amountOut (fst b) - SwapQuote.amountOut (fst a)))
        availableQuotes in
    match sorted with
    | bestQuote :: _ => ret bestQuote
    | [] => throw (JsError "Cannot read properties of undefined (reading 'dex')")
    end.

Definition calculateHealthScore (quote : SwapQuote.t) : float :=
  let score := 100%float in
  let score :=
    if PrimFloat.ltb 2 (SwapQuote.impact quote) then (score - 30)%float
    else if PrimFloat.ltb 1 (SwapQuote.impact quote) then (score - 15)%float
    else if PrimFloat.ltb 0.5 (SwapQuote.impact quote) then (score - 5)%float
    else score in
  let gasUSD := (Number (SwapQuote.gasEstimate quote) * 0.000000001 * 2000)%float in
  let score :=
    if PrimFloat.ltb 10 gasUSD then (score - 20)%float
    else if PrimFloat.ltb 5 gasUSD then (score - 10)%float
    else score in
  Math_max 0 score.

(** The [for] loop of [estimateSwapCosts] over the swaps left, with the
    running totals and the breakdown so far. *)
Fixpoint estimateSwapCostsLoop (swaps : list SwapRequest.t) (acc : SwapCosts.t)
    : M W SwapCosts.t :=
  match swaps with
  | [] => ret acc
  | swap :: rest =>
      acc <-
        try_catch
          (quote <-
             (if bool_decide (SwapRequest.dex swap = pharaoh) then
                VenueService.getSwapQuoteExactIn pharaohService (SwapRequest.tokenIn swap)
                  (SwapRequest.tokenOut swap) (SwapRequest.amount swap)
              else
                VenueService.getSwapQuoteExactIn shadowService (SwapRequest.tokenIn swap)
                  (SwapRequest.tokenOut swap) (SwapRequest.amount swap)) ;;
           let gasCost := SwapQuote.gasEstimate quote * 20000000000 in
           ret (SwapCosts.mk
                  (SwapCosts.totalGasCost acc + gasCost)
                  (SwapCosts.totalPriceImpact acc + SwapQuote.impact quote)%float
                  (SwapCosts.breakdown acc
                   ++ [SwapCostEntry.mk (SwapRequest.dex swap) gasCost
                         (SwapQuote.impact quote)])%list))
          (fun error =>
             ret (SwapCosts.mk
                    (SwapCosts.totalGasCost acc + 4000000000000000)
                    (SwapCosts.totalPriceImpact acc + 1.0)%float
                    (SwapCosts.breakdown acc
                     ++ [SwapCostEntry.mk (SwapRequest.dex swap) 4000000000000000
                           1.0%float])%list)) ;;
      estimateSwapCostsLoop rest acc
  end.

Definition estimateSwapCosts (swaps : list SwapRequest.t) : M W SwapCosts.t :=
  estimateSwapCostsLoop swaps (SwapCosts.mk 0 0%float []).

End WithVenues.
End DEXManager.

(** ** The process's clock, timers and random source *)

Module Runtime.
(** [Date.now()] reads the clock (milliseconds); [setTimeout] awaited for a
    delay moves the world on; [Math.random()] draws a number, read as the
    rational it denotes. *)
Record t (W : Type) : Type := mk {
  dateNow : W -> Z;
  setTimeout : Q -> W -> W;
  mathRandom : W -> Q * W
}.
Arguments dateNow {W}.
Arguments setTimeout {W}.
Arguments mathRandom {W}.

(** [await new Promise(resolve => setTimeout(resolve, ms))] *)
Definition sleep {W} (rt : t W) (ms : Q) : M W unit :=
  fun w => (Ok tt, setTimeout rt ms w).
Definition now {W} (rt : t W) : M W Z := fun w => (Ok (dateNow rt w), w).
(** [Math.random()] as a computation. *)
Definition random {W} (rt : t W) : M W Q :=
  fun w => let '(r, w') := mathRandom rt w in (Ok r, w').
End Runtime.

(** ** utils/helper.ts *)

(** [generateId(prefix)] reads the clock and draws [Math.random()] to build
    an id in base 36; its caller only logs the id.  The two reads are kept,
    the draw moves the random source on, and the id is left out. *)
Definition generateId {W} (rt : Runtime.t W) (prefix : string) : M W unit :=
  do Runtime.now rt ;;
  do Runtime.random rt ;;
  ret tt.

(** [retryAsync(operation, maxRetries, baseDelay, exponentialBackoff)] for
    a whole number of retries: the [for] loop from [attempt] on, with
    [remaining = maxRetries - attempt].  The delay [baseDelay * 2^attempt]
    is exact in floating point as long as it does not overflow. *)
Fixpoint retryLoop {W A} (rt : Runtime.t W) (operation : M W A) (remaining attempt : nat)
    (baseDelay : Q) (exponentialBackoff : bool) : M W A :=
  try_catch operation
    (fun error =>
       match remaining with
       | O => throw error
       | S remaining' =>
           let delay :=
             if exponentialBackoff then (baseDelay * inject_Z (2 ^ Z.of_nat attempt))%Q
             else baseDelay in
           do Runtime.sleep rt delay ;;
           retryLoop rt operation remaining' (S attempt) baseDelay exponentialBackoff
       end).

Definition retryAsync {W A} (rt : Runtime.t W) (operation : M W A) (maxRetries : nat)
    (baseDelay : Q) (exponentialBackoff : bool) : M W A :=
  retryLoop rt operation maxRetries 0 baseDelay exponentialBackoff.

(** [RETRY_CONFIG] of [config/constants.ts]. *)
Definition MAX_RETRIES : nat := 3.
Definition RETRY_DELAY_MS : Q := 2000.

(** ** services/bridge/deBridge.ts: order monitoring *)

Module DeBridgeService.

Inductive Status : Type :=
| Created | Fulfilled | SentUnlock | OrderCompleted | ClaimCompleted | Cancelled.

Record DeBridgeOrderStatus : Type := mkOrderStatus {
  orderId : string;
  status : Status;
  srcChainId : Z;
  dstChainId : Z;
  srcTransactionHash : string;
  dstTransactionHash : option string;
  claimTransactionHash : option string
}.

(** What [fetch] resolves to: the [ok] flag and the outcome of
    [await statusResponse.json()]. *)
Record HttpResponse : Type := mkResponse {
  ok : bool;
  json : Result DeBridgeOrderStatus
}.

(** [{ status: 'completed', provider: 'debridge', srcTxHash, dstTxHash }] *)
Record MonitoringResult : Type := mkCompleted {
  srcTxHash : string;
  dstTxHash : option string
}.

Definition pollInterval : Q := 15000.
Definition BRIDGE_TIMEOUT : Z := 300000.

Section WithApi.
Context {W : Type} (rt : Runtime.t W).
(** [fetch(`${apiUrl}/dln/order/${orderId}`, { method: 'GET' })] *)
Context (fetchOrder : string -> M W HttpResponse).

(** One pass through the body of the [while] loop: [Some result] when the
    body returns from the function, [None] when the loop goes on. *)
Definition pollOnce (orderId : string) : M W (option MonitoringResult) :=
  try_catch
    (statusResponse <- fetchOrder orderId ;;
     returned <-
       (if ok statusResponse then
          orderStatus <- lift_result (json statusResponse) ;;
          match status orderStatus with
          | OrderCompleted | ClaimCompleted =>
              ret (Some (mkCompleted (srcTransactionHash orderStatus)
                           (dstTransactionHash orderStatus)))
          | Cancelled =>
              throw (JsError ("DeBridge order cancelled: " ++ orderId))
          | _ => ret None
          end
        else ret None) ;;
     match returned with
     | Some result => ret (Some result)
     | None => do Runtime.sleep rt pollInterval ;; ret None
     end)
    (fun error => do Runtime.sleep rt pollInterval ;; ret None).

(** The [while (Date.now() - startTime < timeoutMs)] loop and the
    [throw] after it; [fuel] bounds the number of polls, and [None] is
    returned only when it runs out. *)
Fixpoint monitorLoop (fuel : nat) (orderId : string) (timeoutMs startTime : Z)
    : M W (option MonitoringResult) :=
  match fuel with
  | O => ret None
  | S fuel' =>
      elapsed <- (fun w => (Ok (Runtime.dateNow rt w - startTime), w)) ;;
      if elapsed <? timeoutMs then
        returned <- pollOnce orderId ;;
        match returned with
        | Some result => ret (Some result)
        | None => monitorLoop fuel' orderId timeoutMs startTime
        end
      else throw (BridgeError "DeBridge order monitoring timeout" None)
  end.

Definition monitorBridgeTransaction (fuel : nat) (orderId : string) (timeoutMs : Z)
    : M W (option MonitoringResult) :=
  startTime <- Runtime.now rt ;;
  monitorLoop fuel orderId timeoutMs startTime.

End WithApi.

End DeBridgeService.

(** ** services/bridge/ccip.ts: message monitoring *)

Module CCIPService.

Definition pollInterval : Q := 30000.

Section WithClients.
Context {W : Type} (rt : Runtime.t W).
(** [client.public.getBlockNumber()] on a network's client *)
Context (getBlockNumber : Network -> M W Z).

(** One pass through the body of the [while] loop: [Some tt] when the body
    returns [{ status: 'completed' }], [None] when the loop goes on. *)
Definition pollOnce (toClient : Network) (startTime : Z) : M W (option unit) :=
  try_catch
    (currentBlock <- getBlockNumber toClient ;;
     now <- Runtime.now rt ;;
     if now - startTime >? 600000 then ret (Some tt)
     else do Runtime.sleep rt pollInterval ;; ret None)
    (fun error => do Runtime.sleep rt pollInterval ;; ret None).

(** The [while (Date.now() - startTime < timeoutMs)] loop and the [throw]
    after it; [fuel] bounds the number of polls, and [None] is returned
    only when it runs out. *)
Fixpoint monitorLoop (fuel : nat) (toClient : Network) (timeoutMs startTime : Z)
    : M W (option unit) :=
  match fuel with
  | O => ret None
  | S fuel' =>
      now <- Runtime.now rt ;;
      if now - startTime <? timeoutMs then
        returned <- pollOnce toClient startTime ;;
        match returned with
        | Some completed => ret (Some completed)
        | None => monitorLoop fuel' toClient timeoutMs startTime
        end
      else throw (BridgeError "CCIP message monitoring timeout" None)
  end.

Definition monitorBridgeTransaction (fuel : nat) (messageId : string) (toChainId : Z)
    (timeoutMs : Z) : M W (option unit) :=
  startTime <- Runtime.now rt ;;
  let toClient := if toChainId =? 43114 then avalanche else sonic in
  monitorLoop fuel toClient timeoutMs startTime.

End WithClients.

End CCIPService.

(** ** services/bridge/bridgeManager.ts *)

Inductive BridgeProviderName : Type := debridge | ccip | simulation.
#[global] Instance BridgeProviderName_eq_dec : EqDecision BridgeProviderName.
Proof. solve_decision. Defined.

(** What a monitoring promise resolves to. *)
Inductive MonitoringOutcome : Type :=
| DeBridgeCompleted (srcTxHash : string) (dstTxHash : option string)
| CcipCompleted
| SimulationCompleted (simulatedOutput : Z).

Module BridgeExecutionResult.
(** [monitoringPromise] is the computation the caller awaits. *)
Record t (W : Type) : Type := mk {
  provider : BridgeProviderName;
  txHash : Hash;
  orderId : option string;
  messageId : option string;
  estimatedOutput : Z;
  monitoringPromise : M W MonitoringOutcome
}.
Arguments mk {W}.
Arguments provider {W}.
Arguments txHash {W}.
Arguments orderId {W}.
Arguments messageId {W}.
Arguments estimatedOutput {W}.
Arguments monitoringPromise {W}.
End BridgeExecutionResult.

(** What [BridgeManager] uses of its two provider objects. *)
Module BridgeProviders.
Record t (W : Type) : Type := mk {
  (** [debridge.executeBridge(from, to, amount, recipient, 0.01, token)]:
      transaction hash, order id, estimated output *)
  debridgeExecuteBridge : Z -> Z -> Z -> Token -> M W (Hash * string * Z);
  debridgeMonitorBridgeTransaction : string -> M W MonitoringOutcome;
  (** [ccip.executeBridge(from, to, amount, recipient)]: transaction hash,
      message id, estimated output *)
  ccipExecuteBridge : Z -> Z -> Z -> M W (Hash * string * Z);
  ccipMonitorBridgeTransaction : string -> Z -> M W MonitoringOutcome
}.
Arguments debridgeExecuteBridge {W}.
Arguments debridgeMonitorBridgeTransaction {W}.
Arguments ccipExecuteBridge {W}.
Arguments ccipMonitorBridgeTransaction {W}.
End BridgeProviders.

Module BridgeManager.

Definition supportedChains (provider : BridgeProviderName) : list Z :=
  match provider with
  | debridge => [43114; 146]
  | ccip => [43114; 146]
  | simulation => []
  end.

Record Strategy : Type := mkStrategy {
  strategyProvider : BridgeProviderName;
  available : bool;
  reason : string
}.

Definition getBestBridgeStrategy (token : Token) (fromChainId toChainId : Z) : Strategy :=
  let isFromSupported provider := bool_decide (fromChainId ∈ supportedChains provider) in
  let isToSupported provider := bool_decide (toChainId ∈ supportedChains provider) in
  let debridgeAvailable := isFromSupported debridge && isToSupported debridge in
  let ccipAvailable := isFromSupported ccip && isToSupported ccip in
  if bool_decide (token = USDC) && ccipAvailable then
    mkStrategy ccip true "CCIP required for USDC per project specifications"
  else if bool_decide (token = USDT) && debridgeAvailable then
    mkStrategy debridge true "DeBridge optimal for USDT - cheapest viable bridge"
  else if debridgeAvailable then mkStrategy debridge true "DeBridge fallback"
  else if ccipAvailable then mkStrategy ccip true "CCIP fallback"
  else mkStrategy simulation false
         ("No bridge supports " ++ toString10 fromChainId ++ " → " ++ toString10 toChainId).

Record BridgeCostEstimate : Type := mkEstimate {
  totalCost : Z;
  firstBridge : BridgeProviderName * Z * string;
  secondBridge : BridgeProviderName * Z * string
}.

(** The body of the [try] cannot throw, so its [catch] with the
    conservative fallback is never entered. *)
Definition estimateArbitrageBridgeCosts (direction : Direction) : BridgeCostEstimate :=
  let '(firstBridge, secondBridge) :=
    match direction with
    | avalanche_to_sonic =>
        let usdtStrategy := getBestBridgeStrategy USDT 43114 146 in
        let usdcStrategy := getBestBridgeStrategy USDC 146 43114 in
        ((strategyProvider usdtStrategy, 1 * 10 ^ 15, "USDT"),
         (strategyProvider usdcStrategy, 1 * 10 ^ 15, "USDC"))
    | sonic_to_avalanche =>
        let usdcStrategy := getBestBridgeStrategy USDC 43114 146 in
        let usdtStrategy := getBestBridgeStrategy USDT 146 43114 in
        ((strategyProvider usdcStrategy, 1 * 10 ^ 15, "USDC"),
         (strategyProvider usdtStrategy, 1 * 10 ^ 15, "USDT"))
    end in
  mkEstimate (snd (fst firstBridge) + snd (fst secondBridge)) firstBridge secondBridge.

Section WithProviders.
Context {W : Type} (rt : Runtime.t W) (providers : BridgeProviders.t W).
(** The two roundings of [60000 + Math.random() * 120000] to a double. *)
Context (rnd : Q -> Q).

(** The part of [simulateBridgeMonitoring] that runs when it is called:
    the dwell time is drawn. *)
Definition bridgeTime (random : Q) : Q := rnd (60000 + rnd (random * 120000)).

(** The rest of [simulateBridgeMonitoring], which the awaiting caller
    sees: the timer, then the completed status. *)
Definition simulateBridgeMonitoring (token : Token) (estimatedOutput : Z)
    (bridgeTime : Q) : M W MonitoringOutcome :=
  do Runtime.sleep rt bridgeTime ;;
  ret (SimulationCompleted estimatedOutput).

Definition executeSimulationBridge (token : Token) (fromChainId toChainId amount : Z)
    : M W (BridgeExecutionResult.t W) :=
  now1 <- Runtime.now rt ;;
  let simulatedTxHash :=
    "0x" ++ repeat_string "0" 56 ++ "simulation" ++ toString16 now1 in
  let slippageFee := Z.quot amount 1000 in
  let estimatedOutput := amount - slippageFee in
  random <- Runtime.random rt ;;
  let monitoringPromise :=
    simulateBridgeMonitoring token estimatedOutput (bridgeTime random) in
  now2 <- Runtime.now rt ;;
  ret (BridgeExecutionResult.mk simulation simulatedTxHash
         (Some ("sim_" ++ toString10 now2)) None estimatedOutput monitoringPromise).

Definition executeBridge (simulationMode : bool) (token : Token)
    (fromChainId toChainId amount : Z) (forceProvider : option BridgeProviderName)
    : M W (BridgeExecutionResult.t W) :=
  let strategy :=
    match forceProvider with
    | Some forced => mkStrategy forced true "Forced provider"
    | None => getBestBridgeStrategy token fromChainId toChainId
    end in
  try_catch
    (if bool_decide (strategyProvider strategy = simulation) || simulationMode then
       executeSimulationBridge token fromChainId toChainId amount
     else if bool_decide (strategyProvider strategy = debridge) then
       result <- BridgeProviders.debridgeExecuteBridge providers
                   fromChainId toChainId amount token ;;
       let '(txHash, orderId, estimatedOutput) := result in
       ret (BridgeExecutionResult.mk debridge txHash (Some orderId) None estimatedOutput
              (BridgeProviders.debridgeMonitorBridgeTransaction providers orderId))
     else if bool_decide (strategyProvider strategy = ccip) then
       result <- BridgeProviders.ccipExecuteBridge providers
                   fromChainId toChainId amount ;;
       let '(txHash, messageId, estimatedOutput) := result in
       ret (BridgeExecutionResult.mk ccip txHash None (Some messageId) estimatedOutput
              (BridgeProviders.ccipMonitorBridgeTransaction providers messageId toChainId))
     else throw (JsError "No valid bridge provider"))
    (fun error => executeSimulationBridge token fromChainId toChainId amount).

End WithProviders.

End BridgeManager.

(** ** ArbitrageEngine *)

(** The step kinds and statuses of [ExecutionStep]. *)
Inductive StepType : Type := swap | bridge | wait.
Inductive StepStatus : Type := pending | executing | completed | failed.
#[global] Instance StepType_eq_dec : EqDecision StepType.
Proof. solve_decision. Defined.

(** [ExecutionStep]; [txHash], [estimatedGas], [actualGas] and [timestamp]
    are optional. *)
Module ExecutionStep.
Record t : Type := mk {
  type : StepType;
  network : Network;
  description : string;
  txHash : option Hash;
  status : StepStatus;
  estimatedGas : option Z;
  actualGas : option Z;
  timestamp : option Z
}.
(** [step.status = s] and the other assignments to a step's fields. *)
Definition set_status (s : StepStatus) (step : t) : t :=
  mk (type step) (network step) (description step) (txHash step) s
     (estimatedGas step) (actualGas step) (timestamp step).
Definition set_timestamp (ts : Z) (step : t) : t :=
  mk (type step) (network step) (description step) (txHash step) (status step)
     (estimatedGas step) (actualGas step) (Some ts).
Definition set_txHash (h : Hash) (step : t) : t :=
  mk (type step) (network step) (description step) (Some h) (status step)
     (estimatedGas step) (actualGas step) (timestamp step).
Definition set_actualGas (g : Z) (step : t) : t :=
  mk (type step) (network step) (description step) (txHash step) (status step)
     (estimatedGas step) (Some g) (timestamp step).
End ExecutionStep.

(** [ExecutionPlan]. *)
Module ExecutionPlan.
Record t : Type := mk {
  steps : list ExecutionStep.t;
  totalGasCost : Z;
  totalBridgeCost : Z;
  estimatedDuration : Z;
  expectedProfit : Z
}.
Definition set_steps (l : list ExecutionStep.t) (plan : t) : t :=
  mk l (totalGasCost plan) (totalBridgeCost plan) (estimatedDuration plan)
     (expectedProfit plan).
End ExecutionPlan.

(** A leg ([buyPool], [sellPool]) of [ArbitrageOpportunity]. *)
Module PoolLeg.
Record t : Type := mk {
  network : Network;
  pool : Address;
  price : Z;
  token : Token
}.
End PoolLeg.

(** [ArbitrageOpportunity]. *)
Module ArbitrageOpportunity.
Record t : Type := mk {
  id : string;
  direction : Direction;
  buyPool : PoolLeg.t;
  sellPool : PoolLeg.t;
  amount : Z;
  estimatedGasCost : Z;
  estimatedBridgeCost : Z;
  grossProfit : Z;
  netProfit : Z;
  profitPercentage : float;
  profitable : bool;
  timestamp : Z
}.
End ArbitrageOpportunity.

(** [ArbitrageExecutionResult]; [failedStep] and [error] are optional. *)
Module ArbitrageExecutionResult.
Record t : Type := mk {
  opportunityId : string;
  success : bool;
  executionPlan : ExecutionPlan.t;
  completedSteps : list ExecutionStep.t;
  failedStep : option ExecutionStep.t;
  netProfit : Z;
  totalGasCost : Z;
  totalBridgeCost : Z;
  executionTime : Z;
  transactions : list Hash;
  error : option Exn
}.
Definition set_executionTime (ms : Z) (r : t) : t :=
  mk (opportunityId r) (success r) (executionPlan r) (completedSteps r) (failedStep r)
     (netProfit r) (totalGasCost r) (totalBridgeCost r) ms (transactions r) (error r).
End ArbitrageExecutionResult.

Module ArbitrageEngine.

(** The engine's own fields. *)
Record State : Type := mkState {
  isExecuting : bool;
  executionHistory : list ArbitrageExecutionResult.t
}.

(** The local variables of [executePlan] that its loop updates; [plan]
    holds the step objects, which the loop mutates in place. *)
Record PlanRun : Type := mkRun {
  plan : ExecutionPlan.t;
  completedSteps : list ExecutionStep.t;
  transactions : list Hash;
  actualGasCost : Z;
  currentAmount : Z
}.

(** A computation on the world, run where more state is in scope. *)
Definition liftW {S W A} (c : M W A) : M (S * W) A :=
  fun '(s, w) => let '(r, w') := c w in (r, (s, w')).
Definition getLocal {S W} : M (S * W) S := fun '(s, w) => (Ok s, (s, w)).
Definition modifyLocal {S W} (f : S -> S) : M (S * W) unit :=
  fun '(s, w) => (Ok tt, (f s, w)).

Definition mkStep (type : StepType) (network : Network) (description : string)
    : ExecutionStep.t :=
  ExecutionStep.mk type network description None pending None None None.

Definition createExecutionPlan (opportunity : ArbitrageOpportunity.t) : ExecutionPlan.t :=
  let steps :=
    if bool_decide (ArbitrageOpportunity.direction opportunity = avalanche_to_sonic) then
      [ mkStep swap avalanche "Swap USDC → USDT on Pharaoh";
        mkStep bridge avalanche "Bridge USDT from Avalanche to Sonic via DeBridge";
        mkStep wait sonic "Wait for USDT bridge completion on Sonic";
        mkStep swap sonic "Swap USDT → USDC on Shadow";
        mkStep bridge sonic "Bridge USDC from Sonic to Avalanche via DeBridge";
        mkStep wait avalanche "Wait for USDC bridge completion on Avalanche" ]
    else
      [ mkStep bridge avalanche "Bridge USDC from Avalanche to Sonic via DeBridge";
        mkStep wait sonic "Wait for USDC bridge completion on Sonic";
        mkStep swap sonic "Swap USDC → USDT on Shadow";
        mkStep bridge sonic "Bridge USDT from Sonic to Avalanche via DeBridge";
        mkStep wait avalanche "Wait for USDT bridge completion on Avalanche";
        mkStep swap avalanche "Swap USDT → USDC on Pharaoh" ] in
  let bridgeCosts :=
    BridgeManager.estimateArbitrageBridgeCosts (ArbitrageOpportunity.direction opportunity) in
  let totalBridgeCost := BridgeManager.totalCost bridgeCosts in
  let totalGasCost := ArbitrageOpportunity.estimatedGasCost opportunity in
  let estimatedDuration := 360 in
  ExecutionPlan.mk steps totalGasCost totalBridgeCost estimatedDuration
    (ArbitrageOpportunity.netProfit opportunity).

Section WithServices.
Context {W : Type} (rt : Runtime.t W).
Context (pharaohService shadowService : VenueService.t W).
Context (providers : BridgeProviders.t W) (rnd : Q -> Q).
(** The bridge manager's simulation flag, set when the engine is built. *)
Context (simulationMode : bool).

Definition executeBridgeStep (step : ExecutionStep.t) (amount : Z)
    : M W (BridgeExecutionResult.t W) :=
  let fromChainId :=
    if bool_decide (ExecutionStep.network step = avalanche) then 43114 else 146 in
  let toChainId :=
    if bool_decide (ExecutionStep.network step = avalanche) then 146 else 43114 in
  let token := if includes (ExecutionStep.description step) "USDT" then USDT else USDC in
  BridgeManager.executeBridge rt providers rnd simulationMode token
    fromChainId toChainId amount None.

Definition executeSwapStep (step : ExecutionStep.t)
    (opportunity : ArbitrageOpportunity.t) (amount : Z) : M W DEXSwapResult.t :=
  let isAvalanche := bool_decide (ExecutionStep.network step = avalanche) in
  let dex := if isAvalanche then pharaoh else shadow in
  let executeSwap := DEXManager.executeSwap pharaohService shadowService in
  if bool_decide (ArbitrageOpportunity.direction opportunity = avalanche_to_sonic) then
    if isAvalanche then executeSwap dex USDC USDT amount
    else executeSwap dex USDT USDC amount
  else
    if isAvalanche then executeSwap dex USDT USDC amount
    else executeSwap dex USDC USDT amount.

Definition validateOpportunity (opportunity : ArbitrageOpportunity.t) : M W unit :=
  currentQuotes <- DEXManager.getAllQuotes pharaohService shadowService USDC USDT
                     (ArbitrageOpportunity.amount opportunity) None ;;
  match currentQuotes !! "pharaoh", currentQuotes !! "shadow" with
  | Some pharaohQuote, Some shadowQuote =>
      let currentPriceDiff :=
        ArbitrageCalculator.calculatePriceDifference
          (SwapQuote.amountOut pharaohQuote) (SwapQuote.amountOut shadowQuote)
          TOKEN_DECIMALS_USDC in
      let originalPriceDiff :=
        ArbitrageCalculator.calculatePriceDifference
          (PoolLeg.price (ArbitrageOpportunity.buyPool opportunity))
          (PoolLeg.price (ArbitrageOpportunity.sellPool opportunity))
          TOKEN_DECIMALS_USDC in
      if PrimFloat.ltb currentPriceDiff (originalPriceDiff * 0.5)%float then
        throw (ArbitrageError "Price difference has decreased significantly"
                 "PRICE_MOVED_AGAINST_US")
      else ret tt
  | _, _ => throw (ArbitrageError "Current quotes not available" "QUOTES_UNAVAILABLE")
  end.

(** [plan.steps[i]] updated in place. *)
Definition updateStep (i : nat) (f : ExecutionStep.t -> ExecutionStep.t)
    : M (PlanRun * W) unit :=
  modifyLocal (fun l =>
    mkRun (ExecutionPlan.set_steps (alter f i (ExecutionPlan.steps (plan l))) (plan l))
          (completedSteps l) (transactions l) (actualGasCost l) (currentAmount l)).

(** The [if / else if] on the step's type inside the inner [try]. *)
Definition runStep (i : nat) (step : ExecutionStep.t)
    (opportunity : ArbitrageOpportunity.t) : M (PlanRun * W) unit :=
  match ExecutionStep.type step with
  | swap =>
      l <- getLocal ;;
      swapResult <- liftW (executeSwapStep step opportunity (currentAmount l)) ;;
      do updateStep i (ExecutionStep.set_txHash (DEXSwapResult.txHash swapResult)) ;;
      do updateStep i (ExecutionStep.set_actualGas (DEXSwapResult.actualGasUsed swapResult)) ;;
      modifyLocal (fun l =>
        mkRun (plan l) (completedSteps l)
              (transactions l ++ [DEXSwapResult.txHash swapResult])
              (actualGasCost l + DEXSwapResult.actualGasUsed swapResult * 20000000000)
              (DEXSwapResult.amountOut swapResult))
  | bridge =>
      l <- getLocal ;;
      bridgeResult <- liftW (executeBridgeStep step (currentAmount l)) ;;
      do updateStep i (ExecutionStep.set_txHash (BridgeExecutionResult.txHash bridgeResult)) ;;
      do modifyLocal (fun l =>
        mkRun (plan l) (completedSteps l)
              (transactions l ++ [BridgeExecutionResult.txHash bridgeResult])
              (actualGasCost l)
              (BridgeExecutionResult.estimatedOutput bridgeResult)) ;;
      do liftW (BridgeExecutionResult.monitoringPromise bridgeResult) ;;
      ret tt
  | wait => liftW (Runtime.sleep rt 1000)
  end.

Definition failureResult (opportunity : ArbitrageOpportunity.t) (l : PlanRun)
    (failedStep : option ExecutionStep.t) (error : Exn) : ArbitrageExecutionResult.t :=
  ArbitrageExecutionResult.mk (ArbitrageOpportunity.id opportunity) false (plan l)
    (completedSteps l) failedStep 0 (actualGasCost l) 0 0 (transactions l) (Some error).

(** The [for] loop of [executePlan] from index [i] on, with [remaining]
    iterations left, and the code after the loop. *)
Fixpoint executeSteps (remaining : nat) (i : nat)
    (opportunity : ArbitrageOpportunity.t)
    : M (PlanRun * W) ArbitrageExecutionResult.t :=
  match remaining with
  | O =>
      l <- getLocal ;;
      let netProfit :=
        currentAmount l - ArbitrageOpportunity.amount opportunity - actualGasCost l in
      ret (ArbitrageExecutionResult.mk (ArbitrageOpportunity.id opportunity) true
             (plan l) (completedSteps l) None netProfit (actualGasCost l) 0 0
             (transactions l) None)
  | S remaining' =>
      l <- getLocal ;;
      match ExecutionPlan.steps (plan l) !! i with
      | None => executeSteps remaining' (S i) opportunity
      | Some step =>
          now <- liftW (Runtime.now rt) ;;
          do updateStep i (ExecutionStep.set_status executing) ;;
          do updateStep i (ExecutionStep.set_timestamp now) ;;
          returned <-
            try_catch
              (do runStep i step opportunity ;;
               do updateStep i (ExecutionStep.set_status completed) ;;
               do modifyLocal (fun l =>
                 mkRun (plan l)
                       (completedSteps l
                        ++ option_list (ExecutionPlan.steps (plan l) !! i))
                       (transactions l) (actualGasCost l) (currentAmount l)) ;;
               ret None)
              (fun stepError =>
                 do updateStep i (ExecutionStep.set_status failed) ;;
                 l <- getLocal ;;
                 ret (Some (failureResult opportunity l
                              (ExecutionPlan.steps (plan l) !! i) stepError))) ;;
          match returned with
          | Some result => ret result
          | None => executeSteps remaining' (S i) opportunity
          end
      end
  end.

Definition executePlan (plan : ExecutionPlan.t) (opportunity : ArbitrageOpportunity.t)
    : M W ArbitrageExecutionResult.t :=
  fun w =>
    let run :=
      try_catch
        (executeSteps (length (ExecutionPlan.steps plan)) 0 opportunity)
        (fun error =>
           l <- getLocal ;;
           ret (failureResult opportunity l None error)) in
    let '(r, (_, w')) :=
      run (mkRun plan [] [] 0 (ArbitrageOpportunity.amount opportunity), w) in
    (r, w').

Definition setExecuting (b : bool) : M (State * W) unit :=
  modifyLocal (fun e => mkState b (executionHistory e)).
Definition pushHistory (result : ArbitrageExecutionResult.t) : M (State * W) unit :=
  modifyLocal (fun e => mkState (isExecuting e) (executionHistory e ++ [result])).

Definition executeArbitrage (opportunity : ArbitrageOpportunity.t)
    : M (State * W) ArbitrageExecutionResult.t :=
  e <- getLocal ;;
  if isExecuting e then
    throw (ArbitrageError "Arbitrage execution already in progress" "EXECUTION_IN_PROGRESS")
  else
    do setExecuting true ;;
    startTime <- liftW (Runtime.now rt) ;;
    do liftW (generateId rt "arb") ;;
    try_finally
      (try_catch
         (let executionPlan := createExecutionPlan opportunity in
          do liftW (validateOpportunity opportunity) ;;
          result <- liftW (executePlan executionPlan opportunity) ;;
          now <- liftW (Runtime.now rt) ;;
          let result := ArbitrageExecutionResult.set_executionTime (now - startTime) result in
          do pushHistory result ;;
          ret result)
         (fun error =>
            let executionPlan := createExecutionPlan opportunity in
            now <- liftW (Runtime.now rt) ;;
            let result :=
              ArbitrageExecutionResult.mk (ArbitrageOpportunity.id opportunity) false
                executionPlan [] None 0 0 0 (now - startTime) [] (Some error) in
            do pushHistory result ;;
            ret result))
      (setExecuting false).

Definition isCurrentlyExecuting : M (State * W) bool :=
  e <- getLocal ;; ret (isExecuting e).

End WithServices.


(** [emergencyStop(reason)] clears the flag, whatever is running. *)
Definition emergencyStop {W} (reason : string) : M (State * W) unit :=
  setExecuting false.

(** [array.slice(0, end)] for an integer [end]: a negative [end] counts
    from the end of the array. *)
Definition slice_to {A} (l : list A) (end_ : Z) : list A :=
  if end_ <? 0 then take (Z.to_nat (Z.of_nat (length l) + end_)) l
  else take (Z.to_nat end_) l.

(** [limit] is optional and a whole number here; [0] counts as absent. *)
Definition getExecutionHistory (limit : option Z) (e : State)
    : list ArbitrageExecutionResult.t :=
  let history := reverse (executionHistory e) in
  match limit with
  | None | Some 0 => history
  | Some limit => slice_to history limit
  end.

Record ExecutionStats : Type := mkStats {
  totalExecutions : nat;
  successfulExecutions : nat;
  failedExecutions : nat;
  successRate : float;
  totalProfit : Z;
  totalGasCost : Z;
  averageExecutionTime : float
}.

Definition getExecutionStats (e : State) : ExecutionStats :=
  let history := executionHistory e in
  let successful := List.filter ArbitrageExecutionResult.success history in
  let failed := List.filter (fun r => negb (ArbitrageExecutionResult.success r)) history in
  let totalProfit :=
    fold_left (fun sum r => sum + ArbitrageExecutionResult.netProfit r) successful 0 in
  let totalGasCost :=
    fold_left (fun sum r => sum + ArbitrageExecutionResult.totalGasCost r) history 0 in
  let averageExecutionTime :=
    if (0 <? length history)%nat then
      (fold_left (fun sum r => sum + Number (ArbitrageExecutionResult.executionTime r))
         history 0 / Number (Z.of_nat (length history)))%float
    else 0%float in
  mkStats (length history) (length successful) (length failed)
    (if (0 <? length history)%nat then
       (Number (Z.of_nat (length successful)) / Number (Z.of_nat (length history)) * 100)%float
     else 0%float)
    totalProfit totalGasCost averageExecutionTime.

End ArbitrageEngine.

(** ** utils/calculations.ts: validation of an opportunity

    [ArbitrageCalculator.validateOpportunity], placed after the type it
    reads.  Its argument is a [Partial<ArbitrageOpportunity>]; the caller
    passes a complete one, so a field is falsy only by its value: [0n],
    [0], [-0] or [NaN]. *)
Module OpportunityValidation.

Definition validateOpportunity (opportunity : ArbitrageOpportunity.t) : bool :=
  if (ArbitrageOpportunity.netProfit opportunity =? 0)
     || (ArbitrageOpportunity.netProfit opportunity <=? 0) then false
  else if PrimFloat.eqb (ArbitrageOpportunity.profitPercentage opportunity) 0
          || PrimFloat.is_nan (ArbitrageOpportunity.profitPercentage opportunity)
          || PrimFloat.ltb (ArbitrageOpportunity.profitPercentage opportunity) 0.1 then false
  else if (ArbitrageOpportunity.amount opportunity =? 0)
          || (ArbitrageOpportunity.amount opportunity <=? 0) then false
  else true.

End OpportunityValidation.

(** ** main.ts: CrossChainArbitrage *)

(** [ArbitrageMetrics] of [types.ts]; the counters are whole numbers. *)
Module ArbitrageMetrics.
Record t : Type := mk {
  totalTrades : Z;
  successfulTrades : Z;
  failedTrades : Z;
  totalProfit : Z;
  totalLoss : Z;
  netProfit : Z;
  averageProfit : Z;
  largestProfit : Z;
  largestLoss : Z;
  uptime : Z;
  lastUpdate : Z
}.
End ArbitrageMetrics.

Module CrossChainArbitrage.

Definition Direction_key (direction : Direction) : string :=
  match direction with
  | avalanche_to_sonic => "avalanche-to-sonic"
  | sonic_to_avalanche => "sonic-to-avalanche"
  end.

(** The metrics the constructor sets. *)
Definition initialMetrics (now : Z) : ArbitrageMetrics.t :=
  ArbitrageMetrics.mk 0 0 0 0 0 0 0 0 0 100 now.

(** The bookkeeping of a success: of a simulated trade, with the
    opportunity's net profit, and of a successful result. *)
Definition recordSuccess (netProfit : Z) (m : ArbitrageMetrics.t) : ArbitrageMetrics.t :=
  ArbitrageMetrics.mk
    (ArbitrageMetrics.totalTrades m + 1)
    (ArbitrageMetrics.successfulTrades m + 1)
    (ArbitrageMetrics.failedTrades m)
    (ArbitrageMetrics.totalProfit m + netProfit)
    (ArbitrageMetrics.totalLoss m)
    (ArbitrageMetrics.netProfit m + netProfit)
    (ArbitrageMetrics.averageProfit m)
    (if netProfit >? ArbitrageMetrics.largestProfit m then netProfit
     else ArbitrageMetrics.largestProfit m)
    (ArbitrageMetrics.largestLoss m)
    (ArbitrageMetrics.uptime m)
    (ArbitrageMetrics.lastUpdate m).

(** The bookkeeping of a result that reports failure. *)
Definition recordFailure (netProfit : Z) (m : ArbitrageMetrics.t) : ArbitrageMetrics.t :=
  ArbitrageMetrics.mk
    (ArbitrageMetrics.totalTrades m + 1)
    (ArbitrageMetrics.successfulTrades m)
    (ArbitrageMetrics.failedTrades m + 1)
    (ArbitrageMetrics.totalProfit m)
    (if netProfit <? 0 then ArbitrageMetrics.totalLoss m + - netProfit
     else ArbitrageMetrics.totalLoss m)
    (if netProfit <? 0 then ArbitrageMetrics.netProfit m + netProfit
     else ArbitrageMetrics.netProfit m)
    (ArbitrageMetrics.averageProfit m)
    (ArbitrageMetrics.largestProfit m)
    (if netProfit <? 0 then
       if - netProfit >? ArbitrageMetrics.largestLoss m then - netProfit
       else ArbitrageMetrics.largestLoss m
     else ArbitrageMetrics.largestLoss m)
    (ArbitrageMetrics.uptime m)
    (ArbitrageMetrics.lastUpdate m).

(** The bookkeeping of the [catch]: the engine threw. *)
Definition recordThrow (m : ArbitrageMetrics.t) : ArbitrageMetrics.t :=
  ArbitrageMetrics.mk
    (ArbitrageMetrics.totalTrades m + 1)
    (ArbitrageMetrics.successfulTrades m)
    (ArbitrageMetrics.failedTrades m + 1)
    (ArbitrageMetrics.totalProfit m)
    (ArbitrageMetrics.totalLoss m)
    (ArbitrageMetrics.netProfit m)
    (ArbitrageMetrics.averageProfit m)
    (ArbitrageMetrics.largestProfit m)
    (ArbitrageMetrics.largestLoss m)
    (ArbitrageMetrics.uptime m)
    (ArbitrageMetrics.lastUpdate m).

(** [updateMetrics()]; the divisor [BigInt(successfulTrades || 1)] is
    never zero. *)
Definition updateMetrics (now : Z) (m : ArbitrageMetrics.t) : ArbitrageMetrics.t :=
  ArbitrageMetrics.mk
    (ArbitrageMetrics.totalTrades m)
    (ArbitrageMetrics.successfulTrades m)
    (ArbitrageMetrics.failedTrades m)
    (ArbitrageMetrics.totalProfit m)
    (ArbitrageMetrics.totalLoss m)
    (ArbitrageMetrics.netProfit m)
    (if ArbitrageMetrics.totalTrades m >? 0 then
       Z.quot (ArbitrageMetrics.totalProfit m)
         (if ArbitrageMetrics.successfulTrades m =? 0 then 1
          else ArbitrageMetrics.successfulTrades m)
     else ArbitrageMetrics.averageProfit m)
    (ArbitrageMetrics.largestProfit m)
    (ArbitrageMetrics.largestLoss m)
    (ArbitrageMetrics.uptime m)
    now.

Section WithEngine.
Context {W : Type} (rt : Runtime.t W).
Context (pharaohService shadowService : VenueService.t W).
Context (providers : BridgeProviders.t W) (rnd : Q -> Q).
(** The two flags of the constructor; [simulationMode] is also the bridge
    manager's. *)
Context (simulationMode testingMode : bool).

(** [prices.pharaoh] and [prices.shadow] are the two latest price points,
    [null] when a pool has none. *)
Definition analyzeOpportunityWithDeBridge (direction : Direction)
    (prices_pharaoh prices_shadow : option PriceData.t) : M W (option ArbitrageOpportunity.t) :=
  try_catch
    (match prices_pharaoh, prices_shadow with
     | Some pharaohData, Some shadowData =>
         let pools : option (PriceData.t * Network * (PriceData.t * Network)) :=
           if testingMode then
             if bool_decide (direction = avalanche_to_sonic) then
               Some (pharaohData, avalanche, (shadowData, sonic))
             else Some (shadowData, sonic, (pharaohData, avalanche))
           else
             if bool_decide (direction = avalanche_to_sonic) then
               if PriceData.price0 pharaohData >=? PriceData.price0 shadowData then None
               else Some (pharaohData, avalanche, (shadowData, sonic))
             else
               if PriceData.price0 shadowData >=? PriceData.price0 pharaohData then None
               else Some (shadowData, sonic, (pharaohData, avalanche)) in
         match pools with
         | None => ret None
         | Some (buyPool, buyNetwork, (sellPool, sellNetwork)) =>
             tradeAmount <-
               lift_result (ArbitrageCalculator.usdToTokenAmount 1 TOKEN_DECIMALS_USDC) ;;
             let bridgeCosts := BridgeManager.estimateArbitrageBridgeCosts direction in
             let estimatedGasCost := 4000000000000000 in
             let grossProfit :=
               ArbitrageCalculator.calculateArbitrageProfit (PriceData.price0 buyPool)
                 (PriceData.price0 sellPool) tradeAmount TOKEN_DECIMALS_USDC in
             let grossProfit :=
               if testingMode && (grossProfit <=? 0) then 50000 else grossProfit in
             let netProfit :=
               ArbitrageCalculator.calculateNetProfit grossProfit estimatedGasCost
                 (BridgeManager.totalCost bridgeCosts) 0 in
             let profitPercentage :=
               ArbitrageCalculator.calculateProfitPercentage netProfit tradeAmount in
             now1 <- Runtime.now rt ;;
             now2 <- Runtime.now rt ;;
             let opportunity :=
               ArbitrageOpportunity.mk
                 (Direction_key direction ++ "-" ++ toString10 now1) direction
                 (PoolLeg.mk buyNetwork (PriceData.pool buyPool)
                    (PriceData.price0 buyPool) USDC)
                 (PoolLeg.mk sellNetwork (PriceData.pool sellPool)
                    (PriceData.price0 sellPool) USDC)
                 tradeAmount estimatedGasCost (BridgeManager.totalCost bridgeCosts)
                 grossProfit netProfit profitPercentage
                 (if testingMode then true else netProfit >? 100000) now2 in
             if testingMode then ret (Some opportunity)
             else if OpportunityValidation.validateOpportunity opportunity then
               ret (Some opportunity)
             else ret None
         end
     | _, _ => ret None
     end)
    (fun error => ret None).

(** The state of the application: its metrics and its engine's fields. *)
Definition simulateExecutionWithDeBridge (opportunity : ArbitrageOpportunity.t)
    : M (ArbitrageMetrics.t * (ArbitrageEngine.State * W)) unit :=
  do ArbitrageEngine.liftW (ArbitrageEngine.liftW (Runtime.sleep rt 3000)) ;;
  ArbitrageEngine.modifyLocal
    (recordSuccess (ArbitrageOpportunity.netProfit opportunity)).

Definition executeRealArbitrageWithDeBridge (opportunity : ArbitrageOpportunity.t)
    : M (ArbitrageMetrics.t * (ArbitrageEngine.State * W)) unit :=
  try_catch
    (result <-
       ArbitrageEngine.liftW
         (ArbitrageEngine.executeArbitrage rt pharaohService shadowService providers rnd
            simulationMode opportunity) ;;
     ArbitrageEngine.modifyLocal
       (if ArbitrageExecutionResult.success result then
          recordSuccess (ArbitrageExecutionResult.netProfit result)
        else recordFailure (ArbitrageExecutionResult.netProfit result)))
    (fun error => ArbitrageEngine.modifyLocal recordThrow).

End WithEngine.

End CrossChainArbitrage.

(** ** Test doubles

    A world without state, whose chain client confirms every transaction,
    and a venue whose quote call throws; used to run the definitions on
    concrete inputs. *)

Module Mock.

Definition env : VenueEnv := mkVenueEnv "0xrouter" "0xusdc" "0xusdt" "0xpool".

Definition client (gasUsed : Z) : ChainClient.t unit :=
  ChainClient.mk unit "0xaccount"
    (fun _ _ _ => ret 0)
    (fun _ _ _ => ret "0xapprove")
    (fun _ _ _ => ret "0xswap")
    (fun _ => ret (Receipt.mk gasUsed))
    (fun _ _ _ _ => ret "0xsigned").

(** A frozen clock, timers that fire at once and a constant random draw. *)
Definition runtime : Runtime.t unit :=
  Runtime.mk unit (fun _ => 1700000000000) (fun _ w => w) (fun w => ((1 # 2)%Q, w)).

(** Bridge providers whose transfers go through and complete. *)
Definition providers : BridgeProviders.t unit :=
  BridgeProviders.mk unit
    (fun _ _ amount _ => ret ("0xdebridge", "order-1", amount))
    (fun _ => ret (DeBridgeCompleted "0xsrc" (Some "0xdst")))
    (fun _ _ amount => ret ("0xccip", "0xmessage", amount))
    (fun _ _ => ret CcipCompleted).

(** A bridge provider whose transfers are submitted but never confirmed. *)
Definition stuckProviders : BridgeProviders.t unit :=
  BridgeProviders.mk unit
    (fun _ _ amount _ => ret ("0xdebridge", "order-1", amount))
    (fun _ => throw (BridgeError "DeBridge order monitoring timeout" None))
    (fun _ _ amount => ret ("0xccip", "0xmessage", amount))
    (fun _ _ => throw (BridgeError "CCIP message monitoring timeout" None)).

Definition opportunity (direction : Direction) (buyPrice sellPrice amount : Z)
    : ArbitrageOpportunity.t :=
  ArbitrageOpportunity.mk "opp-1" direction
    (PoolLeg.mk avalanche "0xpool-a" buyPrice USDC)
    (PoolLeg.mk sonic "0xpool-s" sellPrice USDC)
    amount 0 0 0 0 0%float true 0.

Definition failingVenue : VenueService.t unit :=
  VenueService.mk unit
    (fun _ _ _ => throw (SwapError "quote service down" None))
    (fun _ _ _ => throw (SwapError "swap service down" None)).

End Mock.

(** A world with a clock that timers advance and a script of the responses
    the order-status endpoint will give, one per request; the request throws
    once the script is used up. *)
Module Script.

Record World : Type := mkWorld {
  clock : Z;
  responses : list DeBridgeService.HttpResponse
}.

Definition runtime : Runtime.t World :=
  Runtime.mk World clock
    (fun ms w => mkWorld (clock w + Qfloor ms) (responses w))
    (fun w => (0%Q, w)).

Definition fetchOrder (orderId : string) : M World DeBridgeService.HttpResponse :=
  fun w =>
    match responses w with
    | [] => (Throw (JsError "fetch failed"), w)
    | r :: rest => (Ok r, mkWorld (clock w) rest)
    end.

Definition respond (orderId : string) (status : DeBridgeService.Status)
    : DeBridgeService.HttpResponse :=
  DeBridgeService.mkResponse true
    (Ok (DeBridgeService.mkOrderStatus orderId status 43114 146 "0xsrc" (Some "0xdst") None)).

End Script.

(** The engine with the two venue adapters over a chain that confirms every
    transaction, bridges in simulation mode, exact rounding and a frozen
    clock; and the quotes the two adapters give. *)
Module Demo.

Definition engine (opportunity : ArbitrageOpportunity.t) (e : ArbitrageEngine.State)
    : Result ArbitrageExecutionResult.t * (ArbitrageEngine.State * unit) :=
  ArbitrageEngine.executeArbitrage Mock.runtime
    (VenueService.Pharaoh Mock.env (Mock.client 800000))
    (VenueService.Shadow Mock.env (Mock.client 80000))
    Mock.providers (fun x => x) true opportunity (e, tt).

(** The same engine in live mode over bridge providers whose transfers are
    never confirmed. *)
Definition stuckEngine (opportunity : ArbitrageOpportunity.t) (e : ArbitrageEngine.State)
    : Result ArbitrageExecutionResult.t * (ArbitrageEngine.State * unit) :=
  ArbitrageEngine.executeArbitrage Mock.runtime
    (VenueService.Pharaoh Mock.env (Mock.client 800000))
    (VenueService.Shadow Mock.env (Mock.client 80000))
    Mock.stuckProviders (fun x => x) false opportunity (e, tt).

Definition pharaohQuoteFor (amountIn amountOut : Z) : SwapQuote.t :=
  SwapQuote.mk "0xusdc" "0xusdt" amountIn amountOut
    (VenueAdapter.calculatePriceImpact amountIn amountOut) 872000 "0xpool" avalanche.
Definition shadowQuoteFor (amountIn amountOut : Z) : SwapQuote.t :=
  SwapQuote.mk "0xusdc" "0xusdt" amountIn amountOut
    (VenueAdapter.calculatePriceImpact amountIn amountOut) 85000 "0xpool" sonic.

End Demo.


(** ** Vocabulary of the further statements *)

(** What one step's body may change in the variables of [executePlan]'s
    loop: the step object at its own index (never its type), the
    transaction list, the gas total and the amount. *)
Definition step_frame (i : nat) (l l' : ArbitrageEngine.PlanRun) : Prop :=
  ArbitrageEngine.completedSteps l' = ArbitrageEngine.completedSteps l
  /\ take i (ExecutionPlan.steps (ArbitrageEngine.plan l'))
     = take i (ExecutionPlan.steps (ArbitrageEngine.plan l))
  /\ drop (S i) (ExecutionPlan.steps (ArbitrageEngine.plan l'))
     = drop (S i) (ExecutionPlan.steps (ArbitrageEngine.plan l))
  /\ length (ExecutionPlan.steps (ArbitrageEngine.plan l'))
     = length (ExecutionPlan.steps (ArbitrageEngine.plan l))
  /\ map ExecutionStep.type (ExecutionPlan.steps (ArbitrageEngine.plan l'))
     = map ExecutionStep.type (ExecutionPlan.steps (ArbitrageEngine.plan l)).

(** A chain client whose wallet rejects approvals: the allowance read
    succeeds and reports none, the approval transaction cannot be sent. *)
Module MockRejecting.

Definition client : ChainClient.t unit :=
  ChainClient.mk unit "0xaccount"
    (fun _ _ _ => ret 0)
    (fun _ _ _ => throw (JsError "User rejected the request"))
    (fun _ _ _ => ret "0xswap")
    (fun _ => ret (Receipt.mk 21000))
    (fun _ _ _ _ => ret "0xsigned").

End MockRejecting.

(** Bridge providers that are down: every submission throws. *)
Module MockDown.

Definition providers : BridgeProviders.t unit :=
  BridgeProviders.mk unit
    (fun _ _ _ _ => throw (BridgeError "Failed to execute DeBridge bridge" None))
    (fun _ => throw (BridgeError "DeBridge order monitoring timeout" None))
    (fun _ _ _ => throw (BridgeError "Failed to execute CCIP bridge" None))
    (fun _ _ => throw (BridgeError "CCIP message monitoring timeout" None)).

End MockDown.

(** The state of a price monitor after a sequence of calls of
    [storePriceData], each with its pool key, its price point and the time
    of the call; and the price points among them stored under one key, in
    order. *)
Definition storeAll (events : list (string * PriceData.t * Z)) : PriceMonitor.State :=
  fold_left (fun s '(poolKey, priceData, now) =>
               PriceMonitor.storePriceData poolKey priceData now s)
    events PriceMonitor.initial.

Definition storedUnder (poolKey : string) (events : list (string * PriceData.t * Z))
    : list PriceData.t :=
  omap (fun '(key, priceData, _) =>
          if decide (key = poolKey) then Some priceData else None) events.

(** The world after the waits of [count] failed attempts of [retryAsync],
    the first of them numbered [attempt]. *)
Fixpoint backoffWaits {W} (rt : Runtime.t W) (baseDelay : Q) (exponentialBackoff : bool)
    (count attempt : nat) (w : W) : W :=
  match count with
  | O => w
  | S count' =>
      let delay :=
        if exponentialBackoff then (baseDelay * inject_Z (2 ^ Z.of_nat attempt))%Q
        else baseDelay in
      backoffWaits rt baseDelay exponentialBackoff count' (S attempt)
        (Runtime.setTimeout rt delay w)
  end.

(** The bookkeeping invariant of the application's metrics: every trade is
    counted once, the net profit is the profit less the loss, and no loss
    has been booked. *)
Definition metrics_consistent (m : ArbitrageMetrics.t) : Prop :=
  ArbitrageMetrics.totalTrades m
    = ArbitrageMetrics.successfulTrades m + ArbitrageMetrics.failedTrades m
  /\ ArbitrageMetrics.netProfit m
     = ArbitrageMetrics.totalProfit m - ArbitrageMetrics.totalLoss m
  /\ ArbitrageMetrics.totalLoss m = 0
  /\ ArbitrageMetrics.largestLoss m = 0.

(** Two price points one spread apart, as the price monitor stores them. *)
Module DemoPrices.

Definition pharaoh : PriceData.t :=
  PriceData.mk 999200 1000800 1700000000000 1 "0xpool-a" "avalanche" 1000000 None.
Definition shadow : PriceData.t :=
  PriceData.mk 999800 1000200 1700000000000 1 "0xpool-s" "sonic" 1000000 None.

End DemoPrices.

(** * Properties *)

(** ** Profit calculator *)

(** C6: for all integers (non-negative or not) the net profit is
    [max(0, gross - (gas + bridge + slippage))], hence never negative; gross
    100 against costs of 150 gives 0 and gross 150 against costs of 100
    gives 50. *)
Theorem calculateNetProfit_clamped :
  forall gross gasCosts bridgeCosts slippageCosts : Z,
    ArbitrageCalculator.calculateNetProfit gross gasCosts bridgeCosts slippageCosts
      = Z.max 0 (gross - (gasCosts + bridgeCosts + slippageCosts))
    /\ 0 <= ArbitrageCalculator.calculateNetProfit gross gasCosts bridgeCosts slippageCosts
    /\ ArbitrageCalculator.calculateNetProfit 100 100 50 0 = 0
    /\ ArbitrageCalculator.calculateNetProfit 150 60 30 10 = 50.
Proof.
  intros gross gas bridge slip.
  unfold ArbitrageCalculator.calculateNetProfit.
  repeat split; try reflexivity.
  - destruct (Z.gtb_spec gross (gas + bridge + slip)); lia.
  - destruct (Z.gtb_spec gross (gas + bridge + slip)); lia.
Qed.

(** ** Price conversion *)

Lemma Q192_pos : 0 < PriceMonitor.Q96 * PriceMonitor.Q96.
Proof. reflexivity. Qed.

(** The integer fallback never yields zero on a non-zero square-root price:
    either the ratio is at least one, or its inverse is. *)
Lemma alternativeV3PriceCalculation_pos (sqrtPriceX96 : Z) :
  sqrtPriceX96 <> 0 -> 0 < PriceMonitor.alternativeV3PriceCalculation sqrtPriceX96.
Proof.
  intros Hs. unfold PriceMonitor.alternativeV3PriceCalculation, bigint_div.
  pose proof Q192_pos as HQ.
  set (Q192 := PriceMonitor.Q96 * PriceMonitor.Q96) in *.
  assert (Hsq : 0 < sqrtPriceX96 * sqrtPriceX96) by nia.
  destruct (Z.eqb_spec Q192 0) as [HQ0 | _]; [lia |].
  rewrite Z.quot_div_nonneg by lia.
  destruct (Z.eqb_spec (sqrtPriceX96 * sqrtPriceX96 / Q192) 0) as [Hr | Hr].
  - destruct (Z.eqb_spec (sqrtPriceX96 * sqrtPriceX96) 0) as [H0 | _]; [lia |].
    rewrite Z.quot_div_nonneg by lia.
    apply Z.div_small_iff in Hr; [| lia].
    assert (1 <= Q192 / (sqrtPriceX96 * sqrtPriceX96)).
    { apply Z.div_le_lower_bound; lia. }
    lia.
  - assert (0 <= sqrtPriceX96 * sqrtPriceX96 / Q192) by (apply Z.div_pos; lia).
    lia.
Qed.

(** C9: the conversion is a total function and its result is positive for
    every input and every outcome of the floating-point formula (a thrown
    [RangeError] included); on a non-zero input whose primary result is
    outside the band 500000..2000000 the result is the one of the integer
    fallback; and when the primary and the fallback formulas both yield zero
    the result is parity, 1000000. *)
Theorem sqrtPriceX96ToPrice_positive :
  forall sqrtPriceX96 decimals0 decimals1 : Z,
    0 < PriceMonitor.sqrtPriceX96ToPrice sqrtPriceX96 decimals0 decimals1
    /\ (forall priceBigInt,
          sqrtPriceX96 <> 0 ->
          PriceMonitor.primaryV3Price sqrtPriceX96 decimals0 decimals1 = Ok priceBigInt ->
          priceBigInt < 500000 \/ 2000000 < priceBigInt ->
          PriceMonitor.sqrtPriceX96ToPrice sqrtPriceX96 decimals0 decimals1
            = PriceMonitor.alternativeV3PriceCalculation sqrtPriceX96)
    /\ (PriceMonitor.primaryV3Price sqrtPriceX96 decimals0 decimals1 = Ok 0 ->
        PriceMonitor.alternativeV3PriceCalculation sqrtPriceX96 = 0 ->
        PriceMonitor.sqrtPriceX96ToPrice sqrtPriceX96 decimals0 decimals1 = 1000000).
Proof.
  intros s d0 d1. unfold PriceMonitor.sqrtPriceX96ToPrice.
  destruct (Z.eqb_spec s 0) as [-> | Hs].
  - repeat split; try reflexivity. intros p Hp; congruence.
  - pose proof (alternativeV3PriceCalculation_pos s Hs) as Halt.
    assert (Hgt : (PriceMonitor.alternativeV3PriceCalculation s >? 0) = true)
      by (apply Z.gtb_lt; lia).
    destruct (PriceMonitor.primaryV3Price s d0 d1) as [p | e]; rewrite ?Hgt.
    + split; [| split].
      * destruct ((p <? 500000) || (p >? 2000000)); [lia |].
        destruct (Z.gtb_spec p 0); lia.
      * intros q _ [= <-] Hband.
        destruct (Z.ltb_spec p 500000); destruct (Z.gtb_spec p 2000000);
          cbn [orb]; first [reflexivity | lia].
      * intros _ H0. lia.
    + split; [lia | split]; [intros q _ [=] | intros [=]].
Qed.

(** The two guarded cases of C9 are met: a square-root price of [2^97]
    (price 4.0) is outside the band and takes the fallback's 4000000; at
    zero both formulas yield zero and the result is parity. *)
Lemma sqrtPriceX96ToPrice_positive_witness :
  PriceMonitor.primaryV3Price (2 ^ 97) 6 6 = Ok 4000000
  /\ PriceMonitor.sqrtPriceX96ToPrice (2 ^ 97) 6 6
       = PriceMonitor.alternativeV3PriceCalculation (2 ^ 97)
  /\ PriceMonitor.primaryV3Price 0 6 6 = Ok 0
  /\ PriceMonitor.alternativeV3PriceCalculation 0 = 0
  /\ PriceMonitor.sqrtPriceX96ToPrice 0 6 6 = 1000000.
Proof.
  assert (Hp : PriceMonitor.primaryV3Price (2 ^ 97) 6 6 = Ok 4000000)
    by (vm_compute; reflexivity).
  assert (H0 : PriceMonitor.primaryV3Price 0 6 6 = Ok 0) by (vm_compute; reflexivity).
  assert (Ha : PriceMonitor.alternativeV3PriceCalculation 0 = 0) by reflexivity.
  destruct (sqrtPriceX96ToPrice_positive (2 ^ 97) 6 6) as (_ & Hband & _).
  destruct (sqrtPriceX96ToPrice_positive 0 6 6) as (_ & _ & Hzero).
  refine (conj Hp (conj _ (conj H0 (conj Ha _)))).
  - apply (Hband 4000000); [discriminate | exact Hp | right; reflexivity].
  - exact (Hzero H0 Ha).
Defined.

(** ** Swap venues and their coordinator *)

(** Case analysis on the outcome of the next call of a monadic hypothesis. *)
Ltac run_in H :=
  unfold try_catch, try_finally, bind, ret, throw, lift_result in H;
  repeat (case_match; simplify_eq; try discriminate).

(** A venue's quote is its fee rate applied to the input amount:
    [BigInt(Math.floor(Number(amountIn) * (1 - feeRate)))]. *)
Lemma getSwapQuoteExactIn_amountOut (cfg : VenueAdapter.VenueConfig)
    (tokenIn tokenOut : Token) (amountIn : Z) (quote : SwapQuote.t) :
  VenueAdapter.getSwapQuoteExactIn cfg tokenIn tokenOut amountIn = Ok quote ->
  BigInt_floor (Number amountIn * (1 - VenueAdapter.feeRate cfg))%float
    = Ok (SwapQuote.amountOut quote).
Proof.
  unfold VenueAdapter.getSwapQuoteExactIn. intros H.
  repeat (case_match; simplify_eq; try discriminate); reflexivity.
Qed.

Lemma executeSwapExactIn_reports_quote {W : Type} (cfg : VenueAdapter.VenueConfig)
    (client : ChainClient.t W) (tokenIn tokenOut : Token) (amountIn : Z)
    (w w' : W) (r : SwapExecution.t) :
  VenueAdapter.executeSwapExactIn cfg client tokenIn tokenOut amountIn w = (Ok r, w') ->
  BigInt_floor (Number amountIn * (1 - VenueAdapter.feeRate cfg))%float
    = Ok (SwapExecution.amountOut r)
  /\ (exists quote,
        VenueAdapter.getSwapQuoteExactIn cfg tokenIn tokenOut amountIn = Ok quote
        /\ SwapExecution.amountOut r = SwapQuote.amountOut quote)
  /\ (exists w0 receipt,
        ChainClient.waitForTransactionReceipt client (SwapExecution.txHash r) w0
          = (Ok receipt, w')
        /\ SwapExecution.actualGasUsed r = Receipt.gasUsed receipt).
Proof.
  intros H. unfold VenueAdapter.executeSwapExactIn in H. run_in H.
  all: cbn [SwapExecution.amountOut SwapExecution.txHash SwapExecution.actualGasUsed].
  all: split; [eapply getSwapQuoteExactIn_amountOut; eassumption |].
  all: split; [eexists; split; reflexivity |].
  all: do 2 eexists; split; [eassumption | reflexivity].
Qed.

(** C10: whenever a venue's swap execution succeeds, the reported
    [amountOut] is the venue's own quote for the input amount,
    [BigInt(Math.floor(Number(amountIn) * (1 - feeRate)))] with fee rate
    0.0005 on Pharaoh and 0.0008 on Shadow, whatever the chain did; the
    reported gas is the [gasUsed] of the receipt of the swap transaction. *)
Theorem executeSwapExactIn_amountOut_is_quote :
  forall (W : Type) (dex : DexName) (env : VenueEnv) (client : ChainClient.t W)
         (tokenIn tokenOut : Token) (amountIn : Z) (w w' : W) (r : SwapExecution.t),
    match dex with
    | pharaoh => PharaohDEXService.executeSwapExactIn env client tokenIn tokenOut amountIn w
    | shadow => ShadowDEXService.executeSwapExactIn env client tokenIn tokenOut amountIn w
    end = (Ok r, w') ->
    BigInt_floor
      (Number amountIn
       * (1 - match dex with pharaoh => 0.0005 | shadow => 0.0008 end))%float
      = Ok (SwapExecution.amountOut r)
    /\ (exists quote,
          match dex with
          | pharaoh => PharaohDEXService.getSwapQuoteExactIn env tokenIn tokenOut amountIn
          | shadow => ShadowDEXService.getSwapQuoteExactIn env tokenIn tokenOut amountIn
          end = Ok quote
          /\ SwapExecution.amountOut r = SwapQuote.amountOut quote)
    /\ (exists w0 receipt,
          ChainClient.waitForTransactionReceipt client (SwapExecution.txHash r) w0
            = (Ok receipt, w')
          /\ SwapExecution.actualGasUsed r = Receipt.gasUsed receipt).
Proof.
  intros W dex env client tokenIn tokenOut amountIn w w' r H.
  destruct dex;
    apply (executeSwapExactIn_reports_quote _ client tokenIn tokenOut amountIn w w' r H).
Qed.

(** One USDC swapped on Pharaoh over a chain that confirms everything and
    charges 654321 gas: the result carries the quote, 999500. *)
Lemma executeSwapExactIn_amountOut_is_quote_witness :
  PharaohDEXService.executeSwapExactIn Mock.env (Mock.client 654321) USDC USDT 1000000 tt
    = (Ok (SwapExecution.mk "0xswap" 999500 654321), tt)
  /\ BigInt_floor (Number 1000000 * (1 - 0.0005))%float = Ok 999500.
Proof.
  assert (H : PharaohDEXService.executeSwapExactIn Mock.env (Mock.client 654321)
                USDC USDT 1000000 tt
              = (Ok (SwapExecution.mk "0xswap" 999500 654321), tt))
    by (vm_compute; reflexivity).
  split; [exact H |].
  exact (proj1 (executeSwapExactIn_amountOut_is_quote unit pharaoh Mock.env
                  (Mock.client 654321) USDC USDT 1000000 tt tt _ H)).
Defined.

(** The quote is computed in double precision.  On amounts of everyday
    size it is the exact [amountIn * 9995 / 10000]; far above them (here
    about 45 million USDC in base units) the rounded product can come out
    one above it. *)
Remark getSwapQuoteExactIn_double_precision :
  BigInt_floor (Number 1000000 * (1 - 0.0005))%float = Ok (1000000 * 9995 / 10000)
  /\ BigInt_floor (Number 44974665852002 * (1 - 0.0005))%float
     = Ok (44974665852002 * 9995 / 10000 + 1).
Proof. split; vm_compute; reflexivity. Qed.

(** The coordinator hands the venue's figures on unchanged. *)
Lemma executeSwap_amountOut {W : Type} (pharaohService shadowService : VenueService.t W)
    (dex : DexName) (tokenIn tokenOut : Token) (amountIn : Z) (w w' : W)
    (r : DEXSwapResult.t) :
  DEXManager.executeSwap pharaohService shadowService dex tokenIn tokenOut amountIn w
    = (Ok r, w') ->
  exists w0 result,
    VenueService.executeSwapExactIn
      (match dex with pharaoh => pharaohService | shadow => shadowService end)
      tokenIn tokenOut amountIn w0 = (Ok result, w')
    /\ DEXSwapResult.amountOut r = SwapExecution.amountOut result
    /\ DEXSwapResult.actualGasUsed r = SwapExecution.actualGasUsed result
    /\ DEXSwapResult.amountIn r = amountIn.
Proof.
  intros H. unfold DEXManager.executeSwap in H. destruct dex; cbn in H; run_in H.
  all: do 2 eexists; split; [eassumption |]; cbn; auto.
Qed.

(** C8: when both networks are targeted and exactly one venue's quote call
    throws, [getAllQuotes] does not throw and returns the map holding the
    other venue's quote and nothing else. *)
Theorem getAllQuotes_partial_on_failure :
  forall (W : Type) (pharaohService shadowService : VenueService.t W)
         (tokenIn tokenOut : Token) (amountIn : Z) (networks : option (list Network))
         (w : W),
    avalanche ∈ default [avalanche; sonic] networks ->
    sonic ∈ default [avalanche; sonic] networks ->
    (forall error quote w1 w2,
        VenueService.getSwapQuoteExactIn pharaohService tokenIn tokenOut amountIn w
          = (Throw error, w1) ->
        VenueService.getSwapQuoteExactIn shadowService tokenIn tokenOut amountIn w1
          = (Ok quote, w2) ->
        DEXManager.getAllQuotes pharaohService shadowService tokenIn tokenOut amountIn
          networks w = (Ok {[ "shadow" := quote ]}, w2))
    /\ (forall quote error w1 w2,
          VenueService.getSwapQuoteExactIn pharaohService tokenIn tokenOut amountIn w
            = (Ok quote, w1) ->
          VenueService.getSwapQuoteExactIn shadowService tokenIn tokenOut amountIn w1
            = (Throw error, w2) ->
          DEXManager.getAllQuotes pharaohService shadowService tokenIn tokenOut amountIn
            networks w = (Ok {[ "pharaoh" := quote ]}, w2)).
Proof.
  intros W pharaohService shadowService tokenIn tokenOut amountIn networks w Ha Hs.
  unfold DEXManager.getAllQuotes.
  rewrite (bool_decide_eq_true_2 _ Ha), (bool_decide_eq_true_2 _ Hs).
  split; intros ? ? w1 w2 HP HS;
    unfold try_catch, bind, ret; rewrite HP, HS; rewrite ?insert_empty; reflexivity.
Qed.

(** ** Bridges *)

(** A poll that reads [Cancelled] throws inside the loop's own [try]: the
    loop's [catch] takes the error, waits one interval and lets the loop go
    on. *)
Lemma pollOnce_cancelled_continues {W : Type} (rt : Runtime.t W)
    (fetchOrder : string -> M W DeBridgeService.HttpResponse) (orderId : string)
    (w w1 : W) (response : DeBridgeService.HttpResponse)
    (orderStatus : DeBridgeService.DeBridgeOrderStatus) :
  fetchOrder orderId w = (Ok response, w1) ->
  DeBridgeService.ok response = true ->
  DeBridgeService.json response = Ok orderStatus ->
  DeBridgeService.status orderStatus = DeBridgeService.Cancelled ->
  DeBridgeService.pollOnce rt fetchOrder orderId w
    = (Ok None, Runtime.setTimeout rt DeBridgeService.pollInterval w1).
Proof.
  intros Hf Hok Hj Hs. unfold DeBridgeService.pollOnce, try_catch, bind, lift_result.
  rewrite Hf, Hok, Hj, Hs. reflexivity.
Qed.

Lemma pollOnce_completed_returns {W : Type} (rt : Runtime.t W)
    (fetchOrder : string -> M W DeBridgeService.HttpResponse) (orderId : string)
    (w w1 : W) (response : DeBridgeService.HttpResponse)
    (orderStatus : DeBridgeService.DeBridgeOrderStatus) :
  fetchOrder orderId w = (Ok response, w1) ->
  DeBridgeService.ok response = true ->
  DeBridgeService.json response = Ok orderStatus ->
  DeBridgeService.status orderStatus = DeBridgeService.OrderCompleted
  \/ DeBridgeService.status orderStatus = DeBridgeService.ClaimCompleted ->
  DeBridgeService.pollOnce rt fetchOrder orderId w
    = (Ok (Some (DeBridgeService.mkCompleted
                   (DeBridgeService.srcTransactionHash orderStatus)
                   (DeBridgeService.dstTransactionHash orderStatus))), w1).
Proof.
  intros Hf Hok Hj Hs. unfold DeBridgeService.pollOnce, try_catch, bind, lift_result.
  rewrite Hf, Hok, Hj. destruct Hs as [-> | ->]; reflexivity.
Qed.

(** A poll makes the function return exactly when the endpoint answered
    [ok] with a status of [OrderCompleted] or [ClaimCompleted]. *)
Lemma pollOnce_returns_iff {W : Type} (rt : Runtime.t W)
    (fetchOrder : string -> M W DeBridgeService.HttpResponse) (orderId : string)
    (w w' : W) (result : DeBridgeService.MonitoringResult) :
  DeBridgeService.pollOnce rt fetchOrder orderId w = (Ok (Some result), w')
  <-> exists response orderStatus,
        fetchOrder orderId w = (Ok response, w')
        /\ DeBridgeService.ok response = true
        /\ DeBridgeService.json response = Ok orderStatus
        /\ (DeBridgeService.status orderStatus = DeBridgeService.OrderCompleted
            \/ DeBridgeService.status orderStatus = DeBridgeService.ClaimCompleted)
        /\ result = DeBridgeService.mkCompleted
                      (DeBridgeService.srcTransactionHash orderStatus)
                      (DeBridgeService.dstTransactionHash orderStatus).
Proof.
  split.
  - intros H. unfold DeBridgeService.pollOnce, Runtime.sleep in H. run_in H.
    all: eexists _, _; repeat split; eauto.
  - intros (response & orderStatus & Hf & Hok & Hj & Hs & ->).
    apply pollOnce_completed_returns with (response := response); assumption.
Qed.

(** A poll never throws: whatever fails inside it is caught. *)
Lemma pollOnce_never_throws {W : Type} (rt : Runtime.t W)
    (fetchOrder : string -> M W DeBridgeService.HttpResponse) (orderId : string)
    (w w' : W) (error : Exn) :
  DeBridgeService.pollOnce rt fetchOrder orderId w <> (Throw error, w').
Proof.
  intros H. unfold DeBridgeService.pollOnce, Runtime.sleep in H. run_in H.
Qed.

(** The only error the monitoring loop throws is the timeout, and it throws
    it only once the timeout has elapsed. *)
Lemma monitorLoop_throws_timeout {W : Type} (rt : Runtime.t W)
    (fetchOrder : string -> M W DeBridgeService.HttpResponse) (orderId : string)
    (timeoutMs startTime : Z) (fuel : nat) (w w' : W) (error : Exn) :
  DeBridgeService.monitorLoop rt fetchOrder fuel orderId timeoutMs startTime w
    = (Throw error, w') ->
  error = BridgeError "DeBridge order monitoring timeout" None
  /\ timeoutMs <= Runtime.dateNow rt w' - startTime.
Proof.
  revert w. induction fuel as [| fuel IH]; intros w H; cbn in H.
  - discriminate.
  - unfold bind in H. cbn in H.
    destruct (Z.ltb_spec (Runtime.dateNow rt w - startTime) timeoutMs) as [Hlt | Hge].
    + destruct (DeBridgeService.pollOnce rt fetchOrder orderId w)
        as [[[result |] | e] w1] eqn:Hpoll.
      * discriminate.
      * now apply (IH w1).
      * exfalso. exact (pollOnce_never_throws rt fetchOrder orderId w w1 e Hpoll).
    + unfold throw in H. injection H as <- <-. split; [reflexivity | lia].
Qed.

(** Termination of the monitoring loop: when a request never sets the clock
    back and a timer advances it by at least its delay, a loop given more
    polls than fit in the time left always ends (with a result or with the
    timeout), so it never runs out of fuel. *)
Section MonitorTerminates.
Context {W : Type} (rt : Runtime.t W).
Context (fetchOrder : string -> M W DeBridgeService.HttpResponse).
Hypothesis fetch_clock :
  forall orderId w r w1, fetchOrder orderId w = (r, w1) ->
                         Runtime.dateNow rt w <= Runtime.dateNow rt w1.
Hypothesis timer_clock :
  forall ms w, Runtime.dateNow rt w + Qfloor ms <= Runtime.dateNow rt (Runtime.setTimeout rt ms w).

Lemma pollOnce_none_advances (orderId : string) (w w1 : W) :
  DeBridgeService.pollOnce rt fetchOrder orderId w = (Ok None, w1) ->
  Runtime.dateNow rt w + 15000 <= Runtime.dateNow rt w1.
Proof.
  intros H. unfold DeBridgeService.pollOnce, Runtime.sleep in H.
  destruct (fetchOrder orderId w) as [r w0] eqn:Hf.
  pose proof (fetch_clock orderId w r w0 Hf) as Hc.
  pose proof (timer_clock DeBridgeService.pollInterval w0) as Ht.
  change (Qfloor DeBridgeService.pollInterval) with 15000 in Ht.
  unfold try_catch, bind, ret, throw, lift_result in H. rewrite Hf in H.
  repeat (case_match; simplify_eq; try discriminate). all: lia.
Qed.

Lemma monitorLoop_enough_fuel (orderId : string) (timeoutMs startTime : Z) (fuel : nat) :
  forall w,
    timeoutMs - (Runtime.dateNow rt w - startTime) <= 15000 * Z.of_nat fuel ->
    fst (DeBridgeService.monitorLoop rt fetchOrder (S fuel) orderId timeoutMs startTime w)
      <> Ok None.
Proof.
  induction fuel as [| fuel IH]; intros w Hfuel.
  - cbn. unfold bind. cbn.
    destruct (Z.ltb_spec (Runtime.dateNow rt w - startTime) timeoutMs); [lia |].
    cbn. discriminate.
  - change (DeBridgeService.monitorLoop rt fetchOrder (S (S fuel)) orderId timeoutMs startTime w)
      with (bind (fun w0 => (Ok (Runtime.dateNow rt w0 - startTime), w0))
              (fun elapsed =>
                 if elapsed <? timeoutMs then
                   bind (DeBridgeService.pollOnce rt fetchOrder orderId)
                     (fun returned =>
                        match returned with
                        | Some result => ret (Some result)
                        | None => DeBridgeService.monitorLoop rt fetchOrder (S fuel)
                                    orderId timeoutMs startTime
                        end)
                 else throw (BridgeError "DeBridge order monitoring timeout" None)) w).
    unfold bind at 1. cbn beta iota.
    destruct (Z.ltb_spec (Runtime.dateNow rt w - startTime) timeoutMs); [| cbn; discriminate].
    unfold bind.
    destruct (DeBridgeService.pollOnce rt fetchOrder orderId w)
      as [[[result |] | e] w1] eqn:Hpoll.
    + cbn. discriminate.
    + apply IH. pose proof (pollOnce_none_advances orderId w w1 Hpoll). lia.
    + cbn. discriminate.
Qed.

End MonitorTerminates.

Lemma script_monitor_terminates (orderId : string) (w : Script.World) :
  fst (DeBridgeService.monitorBridgeTransaction Script.runtime Script.fetchOrder 21
         orderId DeBridgeService.BRIDGE_TIMEOUT w) <> Ok None.
Proof.
  unfold DeBridgeService.monitorBridgeTransaction, bind, Runtime.now.
  apply monitorLoop_enough_fuel.
  - intros id w0 r w1 H. unfold Script.fetchOrder in H.
    destruct (Script.responses w0); injection H as <- <-; cbn; lia.
  - intros ms w0. cbn. lia.
  - unfold DeBridgeService.BRIDGE_TIMEOUT. lia.
Qed.

(** C4, on the code: an order whose first polled status is [Cancelled] and
    whose second is [OrderCompleted] is reported as completed, 15 seconds
    in; and an order that stays [Cancelled] is polled twenty times, every 15
    seconds, until the 300 second timeout, and fails with the timeout
    error, not with the cancellation. *)
Theorem monitorBridgeTransaction_cancelled_is_swallowed :
  DeBridgeService.monitorBridgeTransaction Script.runtime Script.fetchOrder 100
      "order-1" DeBridgeService.BRIDGE_TIMEOUT
      (Script.mkWorld 0 [Script.respond "order-1" DeBridgeService.Cancelled;
                         Script.respond "order-1" DeBridgeService.OrderCompleted])
    = (Ok (Some (DeBridgeService.mkCompleted "0xsrc" (Some "0xdst"))),
       Script.mkWorld 15000 [])
  /\ DeBridgeService.monitorBridgeTransaction Script.runtime Script.fetchOrder 100
        "order-1" DeBridgeService.BRIDGE_TIMEOUT
        (Script.mkWorld 0
           (repeat (Script.respond "order-1" DeBridgeService.Cancelled) 25))
      = (Throw (BridgeError "DeBridge order monitoring timeout" None),
         Script.mkWorld 300000
           (repeat (Script.respond "order-1" DeBridgeService.Cancelled) 5)).
Proof. split; vm_compute; reflexivity. Qed.

(** The dwell time of the simulated bridge, for a draw in [0, 1) and any
    rounding that is monotone and leaves 0, 60000, 120000 and 180000 in
    place (as rounding to the nearest double does). *)
Lemma bridgeTime_bounds (rnd : Q -> Q) (random : Q) :
  (forall x y, x <= y -> rnd x <= rnd y)%Q ->
  (rnd 0 == 0 /\ rnd 60000 == 60000 /\ rnd 120000 == 120000 /\ rnd 180000 == 180000)%Q ->
  (0 <= random < 1)%Q ->
  (60000 <= BridgeManager.bridgeTime rnd random <= 180000)%Q.
Proof.
  intros Hmono (H0 & H60 & H120 & H180) [Hlo Hhi]. unfold BridgeManager.bridgeTime.
  assert (Hinner : (0 <= rnd (random * 120000) <= 120000)%Q).
  { split.
    - apply Qle_trans with (rnd 0%Q); [lra | apply Hmono; lra].
    - apply Qle_trans with (rnd 120000%Q); [apply Hmono; lra | lra]. }
  split.
  - apply Qle_trans with (rnd 60000%Q); [lra | apply Hmono; lra].
  - apply Qle_trans with (rnd 180000%Q); [apply Hmono; lra | lra].
Qed.

(** C7: the simulation bridge always returns; its [estimatedOutput] is
    [amount - amount / 1000] in bigint arithmetic; and its monitoring
    promise, whenever awaited, completes with that output after one timer
    whose delay is [60000 + Math.random() * 120000] for the number drawn
    during the call (each of the two operations rounded), which lies
    between 60000 and 180000 milliseconds.  The call changes the world by
    that one draw only. *)
Theorem executeSimulationBridge_output_and_delay :
  forall (W : Type) (rt : Runtime.t W) (rnd : Q -> Q) (token : Token)
         (fromChainId toChainId amount : Z) (w : W),
    (forall x y, x <= y -> rnd x <= rnd y)%Q ->
    (rnd 0 == 0 /\ rnd 60000 == 60000 /\ rnd 120000 == 120000 /\ rnd 180000 == 180000)%Q ->
    (forall w0, 0 <= fst (Runtime.mathRandom rt w0) < 1)%Q ->
    exists (result : BridgeExecutionResult.t W) (w' : W) (delay : Q),
      BridgeManager.executeSimulationBridge rt rnd token fromChainId toChainId amount w
        = (Ok result, w')
      /\ w' = snd (Runtime.mathRandom rt w)
      /\ BridgeExecutionResult.provider result = simulation
      /\ BridgeExecutionResult.estimatedOutput result = amount - Z.quot amount 1000
      /\ (0 <= amount ->
          BridgeExecutionResult.estimatedOutput result = amount - amount / 1000)
      /\ delay = rnd (60000 + rnd (fst (Runtime.mathRandom rt w) * 120000))%Q
      /\ (60000 <= delay <= 180000)%Q
      /\ forall w1,
          BridgeExecutionResult.monitoringPromise result w1
            = (Ok (SimulationCompleted (amount - Z.quot amount 1000)),
               Runtime.setTimeout rt delay w1).
Proof.
  intros W rt rnd token fromChainId toChainId amount w Hmono Hfix Hrandom.
  unfold BridgeManager.executeSimulationBridge, bind, ret, Runtime.now, Runtime.random.
  specialize (Hrandom w).
  destruct (Runtime.mathRandom rt w) as [random w'] eqn:Hdraw. cbn [fst snd] in *.
  eexists _, w', (rnd (60000 + rnd (random * 120000)))%Q.
  split; [reflexivity |]. cbn.
  split; [reflexivity |]. split; [reflexivity |]. split; [reflexivity |].
  split; [intros Hamount; rewrite Z.quot_div_nonneg by lia; reflexivity |].
  split; [reflexivity |].
  split; [apply bridgeTime_bounds; assumption |].
  intros w1. reflexivity.
Qed.

(** One USDC through the simulation bridge, with exact arithmetic and a draw
    of one half: the output is 999000 and the timer runs for 120000 ms, the
    middle of the window. *)
Lemma executeSimulationBridge_output_and_delay_witness :
  exists (result : BridgeExecutionResult.t unit) (delay : Q),
    BridgeManager.executeSimulationBridge Mock.runtime (fun x => x) USDT 43114 146 1000000 tt
      = (Ok result, tt)
    /\ BridgeExecutionResult.estimatedOutput result = 999000
    /\ (delay == 120000)%Q
    /\ (60000 <= delay <= 180000)%Q
    /\ BridgeExecutionResult.monitoringPromise result tt
        = (Ok (SimulationCompleted 999000), Runtime.setTimeout Mock.runtime delay tt).
Proof.
  destruct (executeSimulationBridge_output_and_delay unit Mock.runtime (fun x => x)
              USDT 43114 146 1000000 tt)
    as (result & w' & delay & Hrun & _ & _ & Hout & _ & Hdraw & Hdelay & Hmon).
  - intros x y Hxy; exact Hxy.
  - repeat split; reflexivity.
  - intros w0; cbn; split; [discriminate | reflexivity].
  - destruct w'. exists result, delay.
    refine (conj Hrun (conj Hout (conj _ (conj Hdelay (Hmon tt))))).
    rewrite Hdraw. reflexivity.
Defined.

(** ** Opportunity engine *)

(** Every step of a freshly built plan is pending. *)
Lemma createExecutionPlan_pending (opportunity : ArbitrageOpportunity.t) :
  Forall (fun step => ExecutionStep.status step = pending)
    (ExecutionPlan.steps (ArbitrageEngine.createExecutionPlan opportunity)).
Proof.
  unfold ArbitrageEngine.createExecutionPlan.
  destruct (ArbitrageOpportunity.direction opportunity); cbn; repeat constructor.
Qed.

(** C5: the plan has exactly six steps, all pending; their kinds are swap,
    bridge, wait, swap, bridge, wait for avalanche-to-sonic and bridge,
    wait, swap, bridge, wait, swap for sonic-to-avalanche. *)
Theorem createExecutionPlan_steps :
  forall opportunity : ArbitrageOpportunity.t,
    let steps := ExecutionPlan.steps (ArbitrageEngine.createExecutionPlan opportunity) in
    length steps = 6%nat
    /\ map ExecutionStep.type steps
       = match ArbitrageOpportunity.direction opportunity with
         | avalanche_to_sonic => [swap; bridge; wait; swap; bridge; wait]
         | sonic_to_avalanche => [bridge; wait; swap; bridge; wait; swap]
         end
    /\ Forall (fun step => ExecutionStep.status step = pending) steps.
Proof.
  intros opportunity. unfold ArbitrageEngine.createExecutionPlan.
  split; [| split; [| apply createExecutionPlan_pending]];
    destruct (ArbitrageOpportunity.direction opportunity); reflexivity.
Qed.

(** C1: a call made while the in-progress flag is set throws
    [ArbitrageError] with code EXECUTION_IN_PROGRESS at once: the engine's
    fields (flag and history) and the outside world are left as they were,
    so no plan was built for it and no step ran.  Hence the rest [k] of the
    execution in progress (which holds its plan) runs, after a caller has
    caught the rejection, exactly as it would have run without the call. *)
Theorem executeArbitrage_rejects_while_executing :
  forall (W : Type) (rt : Runtime.t W) (pharaohService shadowService : VenueService.t W)
         (providers : BridgeProviders.t W) (rnd : Q -> Q) (simulationMode : bool)
         (opportunity : ArbitrageOpportunity.t) (e : ArbitrageEngine.State) (w : W),
    ArbitrageEngine.isExecuting e = true ->
    ArbitrageEngine.executeArbitrage rt pharaohService shadowService providers rnd
      simulationMode opportunity (e, w)
    = (Throw (ArbitrageError "Arbitrage execution already in progress"
                "EXECUTION_IN_PROGRESS"),
       (e, w))
    /\ forall (A : Type) (k : M (ArbitrageEngine.State * W) A),
        bind (try_catch
                (bind (ArbitrageEngine.executeArbitrage rt pharaohService shadowService
                         providers rnd simulationMode opportunity)
                      (fun _ => ret tt))
                (fun _ => ret tt))
             (fun _ => k) (e, w)
        = k (e, w).
Proof.
  intros W rt pharaohService shadowService providers rnd simulationMode opportunity e w He.
  assert (Hrun :
    ArbitrageEngine.executeArbitrage rt pharaohService shadowService providers rnd
      simulationMode opportunity (e, w)
    = (Throw (ArbitrageError "Arbitrage execution already in progress"
                "EXECUTION_IN_PROGRESS"), (e, w))).
  { unfold ArbitrageEngine.executeArbitrage, bind, ArbitrageEngine.getLocal.
    rewrite He. reflexivity. }
  split; [exact Hrun |].
  intros A k. unfold bind at 1. unfold try_catch. unfold bind at 1.
  rewrite Hrun. reflexivity.
Qed.

(** C2: a call made while the flag is clear always returns a result (it
    does not throw), with the flag clear again and exactly that result
    appended to the history. *)
Theorem executeArbitrage_releases_and_records :
  forall (W : Type) (rt : Runtime.t W) (pharaohService shadowService : VenueService.t W)
         (providers : BridgeProviders.t W) (rnd : Q -> Q) (simulationMode : bool)
         (opportunity : ArbitrageOpportunity.t) (e : ArbitrageEngine.State) (w : W),
    ArbitrageEngine.isExecuting e = false ->
    exists (result : ArbitrageExecutionResult.t) (e' : ArbitrageEngine.State) (w' : W),
      ArbitrageEngine.executeArbitrage rt pharaohService shadowService providers rnd
        simulationMode opportunity (e, w)
      = (Ok result, (e', w'))
      /\ ArbitrageEngine.isExecuting e' = false
      /\ ArbitrageEngine.executionHistory e'
         = (ArbitrageEngine.executionHistory e ++ [result])%list.
Proof.
  intros W rt pharaohService shadowService providers rnd simulationMode opportunity e w He.
  unfold ArbitrageEngine.executeArbitrage, bind, ArbitrageEngine.getLocal.
  rewrite He.
  unfold try_finally, try_catch, generateId, bind, ret, ArbitrageEngine.setExecuting,
    ArbitrageEngine.pushHistory, ArbitrageEngine.modifyLocal, ArbitrageEngine.liftW,
    Runtime.now, Runtime.random.
  cbn. destruct (Runtime.mathRandom rt w) as [draw w0]. cbn.
  destruct (ArbitrageEngine.validateOpportunity pharaohService shadowService opportunity w0)
    as [[[] | error] w1]; cbn.
  - destruct (ArbitrageEngine.executePlan rt pharaohService shadowService providers rnd
                simulationMode (ArbitrageEngine.createExecutionPlan opportunity)
                opportunity w1) as [[result | error] w2]; cbn;
      eexists _, _, _; repeat split; reflexivity.
  - eexists _, _, _; repeat split; reflexivity.
Qed.

(** Re-validation throws the price-moved error exactly when the re-quoted
    difference is strictly below half of the original one. *)
Lemma validateOpportunity_price_moved {W : Type}
    (pharaohService shadowService : VenueService.t W)
    (opportunity : ArbitrageOpportunity.t) (w w1 : W)
    (quotes : gmap string SwapQuote.t) (pharaohQuote shadowQuote : SwapQuote.t) :
  DEXManager.getAllQuotes pharaohService shadowService USDC USDT
    (ArbitrageOpportunity.amount opportunity) None w = (Ok quotes, w1) ->
  quotes !! "pharaoh" = Some pharaohQuote ->
  quotes !! "shadow" = Some shadowQuote ->
  ArbitrageEngine.validateOpportunity pharaohService shadowService opportunity w
  = if PrimFloat.ltb
         (ArbitrageCalculator.calculatePriceDifference
            (SwapQuote.amountOut pharaohQuote) (SwapQuote.amountOut shadowQuote)
            TOKEN_DECIMALS_USDC)
         (ArbitrageCalculator.calculatePriceDifference
            (PoolLeg.price (ArbitrageOpportunity.buyPool opportunity))
            (PoolLeg.price (ArbitrageOpportunity.sellPool opportunity))
            TOKEN_DECIMALS_USDC * 0.5)%float
    then (Throw (ArbitrageError "Price difference has decreased significantly"
                   "PRICE_MOVED_AGAINST_US"), w1)
    else (Ok tt, w1).
Proof.
  intros Hq Hp Hs. unfold ArbitrageEngine.validateOpportunity, bind.
  rewrite Hq, Hp, Hs. case_match; reflexivity.
Qed.

(** C3, as the code has it: when both venues are re-quoted and the current
    price difference is strictly less than half of the originally observed
    one, an admitted execution ends with the PRICE_MOVED_AGAINST_US error
    in a failure result: no step completed, no transaction was sent, every
    step of the reported plan is still pending, and the outside world is as
    the two quote requests left it.  The quotes are requested right after
    the execution id is generated, that is in the world after its random
    draw. *)
Theorem executeArbitrage_aborts_below_half_spread :
  forall (W : Type) (rt : Runtime.t W) (pharaohService shadowService : VenueService.t W)
         (providers : BridgeProviders.t W) (rnd : Q -> Q) (simulationMode : bool)
         (opportunity : ArbitrageOpportunity.t) (e : ArbitrageEngine.State) (w w1 : W)
         (quotes : gmap string SwapQuote.t) (pharaohQuote shadowQuote : SwapQuote.t),
    ArbitrageEngine.isExecuting e = false ->
    DEXManager.getAllQuotes pharaohService shadowService USDC USDT
      (ArbitrageOpportunity.amount opportunity) None (snd (Runtime.mathRandom rt w))
      = (Ok quotes, w1) ->
    quotes !! "pharaoh" = Some pharaohQuote ->
    quotes !! "shadow" = Some shadowQuote ->
    PrimFloat.ltb
      (ArbitrageCalculator.calculatePriceDifference
         (SwapQuote.amountOut pharaohQuote) (SwapQuote.amountOut shadowQuote)
         TOKEN_DECIMALS_USDC)
      (ArbitrageCalculator.calculatePriceDifference
         (PoolLeg.price (ArbitrageOpportunity.buyPool opportunity))
         (PoolLeg.price (ArbitrageOpportunity.sellPool opportunity))
         TOKEN_DECIMALS_USDC * 0.5)%float = true ->
    exists result : ArbitrageExecutionResult.t,
      ArbitrageEngine.executeArbitrage rt pharaohService shadowService providers rnd
        simulationMode opportunity (e, w)
      = (Ok result,
         (ArbitrageEngine.mkState false
            (ArbitrageEngine.executionHistory e ++ [result])%list, w1))
      /\ ArbitrageExecutionResult.success result = false
      /\ ArbitrageExecutionResult.error result
         = Some (ArbitrageError "Price difference has decreased significantly"
                   "PRICE_MOVED_AGAINST_US")
      /\ ArbitrageExecutionResult.completedSteps result = []
      /\ ArbitrageExecutionResult.failedStep result = None
      /\ ArbitrageExecutionResult.transactions result = []
      /\ Forall (fun step => ExecutionStep.status step = pending)
           (ExecutionPlan.steps (ArbitrageExecutionResult.executionPlan result)).
Proof.
  intros W rt pharaohService shadowService providers rnd simulationMode opportunity
    e w w1 quotes pharaohQuote shadowQuote He Hq Hp Hs Hlt.
  pose proof (validateOpportunity_price_moved pharaohService shadowService opportunity
                _ w1 quotes pharaohQuote shadowQuote Hq Hp Hs) as Hv.
  rewrite Hlt in Hv.
  unfold ArbitrageEngine.executeArbitrage, bind, ArbitrageEngine.getLocal.
  rewrite He.
  unfold try_finally, try_catch, generateId, bind, ret, ArbitrageEngine.setExecuting,
    ArbitrageEngine.pushHistory, ArbitrageEngine.modifyLocal, ArbitrageEngine.liftW,
    Runtime.now, Runtime.random.
  cbn. destruct (Runtime.mathRandom rt w) as [draw w0]. cbn in Hv |- *.
  rewrite Hv. cbn.
  eexists. split; [reflexivity |]. cbn.
  repeat split.
  apply createExecutionPlan_pending.
Qed.

(** ** The engine at concrete inputs *)

Lemma executeArbitrage_rejects_while_executing_witness :
  Demo.engine (Mock.opportunity avalanche_to_sonic 990000 1000000 1000000)
    (ArbitrageEngine.mkState true [])
  = (Throw (ArbitrageError "Arbitrage execution already in progress"
              "EXECUTION_IN_PROGRESS"),
     (ArbitrageEngine.mkState true [], tt)).
Proof.
  exact (proj1 (executeArbitrage_rejects_while_executing unit Mock.runtime
                  (VenueService.Pharaoh Mock.env (Mock.client 800000))
                  (VenueService.Shadow Mock.env (Mock.client 80000))
                  Mock.providers (fun x => x) true
                  (Mock.opportunity avalanche_to_sonic 990000 1000000 1000000)
                  (ArbitrageEngine.mkState true []) tt eq_refl)).
Defined.

Lemma executeArbitrage_releases_and_records_witness :
  exists (result : ArbitrageExecutionResult.t) (e' : ArbitrageEngine.State) (w' : unit),
    Demo.engine (Mock.opportunity avalanche_to_sonic 999200 999800 100000)
      (ArbitrageEngine.mkState false [])
    = (Ok result, (e', w'))
    /\ ArbitrageEngine.isExecuting e' = false
    /\ ArbitrageEngine.executionHistory e' = [result].
Proof.
  exact (executeArbitrage_releases_and_records unit Mock.runtime
           (VenueService.Pharaoh Mock.env (Mock.client 800000))
           (VenueService.Shadow Mock.env (Mock.client 80000))
           Mock.providers (fun x => x) true
           (Mock.opportunity avalanche_to_sonic 999200 999800 100000)
           (ArbitrageEngine.mkState false []) tt eq_refl).
Defined.

Lemma demo_getAllQuotes_1000000 :
  DEXManager.getAllQuotes (VenueService.Pharaoh Mock.env (Mock.client 800000))
    (VenueService.Shadow Mock.env (Mock.client 80000)) USDC USDT 1000000 None tt
  = (Ok (<["shadow" := Demo.shadowQuoteFor 1000000 999200]>
           {["pharaoh" := Demo.pharaohQuoteFor 1000000 999500]}), tt).
Proof. vm_compute. reflexivity. Qed.

Lemma demo_getAllQuotes_100000 :
  DEXManager.getAllQuotes (VenueService.Pharaoh Mock.env (Mock.client 800000))
    (VenueService.Shadow Mock.env (Mock.client 80000)) USDC USDT 100000 None tt
  = (Ok (<["shadow" := Demo.shadowQuoteFor 100000 99920]>
           {["pharaoh" := Demo.pharaohQuoteFor 100000 99950]}), tt).
Proof. vm_compute. reflexivity. Qed.

(** An opportunity seen at a 1.01% spread (prices 0.990000 and 1.000000),
    one USDC: the venues now quote 999500 and 999200, a 0.03% difference,
    and the execution is aborted. *)
Lemma executeArbitrage_aborts_below_half_spread_witness :
  exists result : ArbitrageExecutionResult.t,
    Demo.engine (Mock.opportunity avalanche_to_sonic 990000 1000000 1000000)
      (ArbitrageEngine.mkState false [])
    = (Ok result, (ArbitrageEngine.mkState false [result], tt))
    /\ ArbitrageExecutionResult.error result
       = Some (ArbitrageError "Price difference has decreased significantly"
                 "PRICE_MOVED_AGAINST_US")
    /\ ArbitrageExecutionResult.completedSteps result = [].
Proof.
  destruct (executeArbitrage_aborts_below_half_spread unit Mock.runtime
              (VenueService.Pharaoh Mock.env (Mock.client 800000))
              (VenueService.Shadow Mock.env (Mock.client 80000))
              Mock.providers (fun x => x) true
              (Mock.opportunity avalanche_to_sonic 990000 1000000 1000000)
              (ArbitrageEngine.mkState false []) tt tt _
              (Demo.pharaohQuoteFor 1000000 999500) (Demo.shadowQuoteFor 1000000 999200)
              eq_refl demo_getAllQuotes_1000000)
    as (result & Hrun & _ & Herr & Hdone & _).
  - vm_compute. reflexivity.
  - vm_compute. reflexivity.
  - vm_compute. reflexivity.
  - exists result. exact (conj Hrun (conj Herr Hdone)).
Defined.

(** C3 as stated fails where the current difference is exactly half of the
    original one.  An opportunity seen at prices 0.999200 and 0.999800 (a
    difference of 0.00060048...), 0.1 USDC: the venues quote 99950 and
    99920, a difference of 0.00030024..., equal as doubles to half of the
    original; the comparison [current < original * 0.5] is false, and the
    whole plan runs. *)
Lemma executeArbitrage_at_half_spread_not_aborted :
  exists (quotes : gmap string SwapQuote.t) (pharaohQuote shadowQuote : SwapQuote.t)
         (result : ArbitrageExecutionResult.t),
    DEXManager.getAllQuotes (VenueService.Pharaoh Mock.env (Mock.client 800000))
      (VenueService.Shadow Mock.env (Mock.client 80000)) USDC USDT 100000 None tt
    = (Ok quotes, tt)
    /\ quotes !! "pharaoh" = Some pharaohQuote
    /\ quotes !! "shadow" = Some shadowQuote
    /\ PrimFloat.ltb 0 (ArbitrageCalculator.calculatePriceDifference 999200 999800 6) = true
    /\ PrimFloat.leb
         (ArbitrageCalculator.calculatePriceDifference
            (SwapQuote.amountOut pharaohQuote) (SwapQuote.amountOut shadowQuote) 6)
         (ArbitrageCalculator.calculatePriceDifference 999200 999800 6 * 0.5)%float = true
    /\ Demo.engine (Mock.opportunity avalanche_to_sonic 999200 999800 100000)
         (ArbitrageEngine.mkState false [])
       = (Ok result, (ArbitrageEngine.mkState false [result], tt))
    /\ ArbitrageExecutionResult.success result = true
    /\ ArbitrageExecutionResult.error result = None
    /\ map ExecutionStep.status (ArbitrageExecutionResult.completedSteps result)
       = [completed; completed; completed; completed; completed; completed]
    /\ length (ArbitrageExecutionResult.transactions result) = 4%nat.
Proof.
  eexists _, (Demo.pharaohQuoteFor 100000 99950), (Demo.shadowQuoteFor 100000 99920), _.
  split; [exact demo_getAllQuotes_100000 |].
  split; [vm_compute; reflexivity |].
  split; [vm_compute; reflexivity |].
  split; [vm_compute; reflexivity |].
  split; [vm_compute; reflexivity |].
  split; [vm_compute; reflexivity |].
  repeat split; vm_compute; reflexivity.
Qed.

(** Quote aggregation with one venue down, in both directions. *)
Lemma getAllQuotes_partial_on_failure_witness :
  DEXManager.getAllQuotes Mock.failingVenue
    (VenueService.Shadow Mock.env (Mock.client 80000)) USDC USDT 1000000 None tt
  = (Ok {[ "shadow" := Demo.shadowQuoteFor 1000000 999200 ]}, tt)
  /\ DEXManager.getAllQuotes (VenueService.Pharaoh Mock.env (Mock.client 800000))
       Mock.failingVenue USDC USDT 1000000 None tt
     = (Ok {[ "pharaoh" := Demo.pharaohQuoteFor 1000000 999500 ]}, tt).
Proof.
  split.
  - refine (proj1 (getAllQuotes_partial_on_failure unit Mock.failingVenue
                     (VenueService.Shadow Mock.env (Mock.client 80000))
                     USDC USDT 1000000 None tt _ _)
                  (SwapError "quote service down" None) _ tt tt eq_refl _).
    + apply list_elem_of_here.
    + apply list_elem_of_further, list_elem_of_here.
    + vm_compute. reflexivity.
  - refine (proj2 (getAllQuotes_partial_on_failure unit
                     (VenueService.Pharaoh Mock.env (Mock.client 800000))
                     Mock.failingVenue USDC USDT 1000000 None tt _ _)
                  _ (SwapError "quote service down" None) tt tt _ eq_refl).
    + apply list_elem_of_here.
    + apply list_elem_of_further, list_elem_of_here.
    + vm_compute. reflexivity.
Defined.

(** A structured step failure: the first bridge is submitted and its
    monitoring times out.  The result reports the failed bridge step after
    the one completed swap, both transactions sent so far, and the engine is
    released with the result recorded. *)
Example executeArbitrage_bridge_timeout :
  exists (result : ArbitrageExecutionResult.t) (failedStep : ExecutionStep.t),
    Demo.stuckEngine (Mock.opportunity avalanche_to_sonic 999200 999800 100000)
      (ArbitrageEngine.mkState false [])
    = (Ok result, (ArbitrageEngine.mkState false [result], tt))
    /\ ArbitrageExecutionResult.success result = false
    /\ ArbitrageExecutionResult.failedStep result = Some failedStep
    /\ ExecutionStep.type failedStep = bridge
    /\ ExecutionStep.status failedStep = failed
    /\ map ExecutionStep.type (ArbitrageExecutionResult.completedSteps result) = [swap]
    /\ ArbitrageExecutionResult.transactions result = ["0xswap"; "0xdebridge"]
    /\ ArbitrageExecutionResult.error result
       = Some (BridgeError "DeBridge order monitoring timeout" None)
    /\ map ExecutionStep.status
         (ExecutionPlan.steps (ArbitrageExecutionResult.executionPlan result))
       = [completed; failed; pending; pending; pending; pending].
Proof.
  eexists _, _. split; [vm_compute; reflexivity |].
  repeat split; reflexivity.
Qed.

(** * Further properties of the code *)

(** ** Plan execution *)

Lemma fmap_alter_same {A B : Type} (f : A -> B) (g : A -> A) (l : list A) (i : nat) :
  (forall x, f (g x) = f x) -> map f (alter g i l) = map f l.
Proof.
  intros H. revert i. induction l as [| x l IH]; intros [| i]; cbn; try reflexivity.
  - now rewrite H.
  - f_equal. apply IH.
Qed.

Ltac frame_solve :=
  cbn; unfold step_frame; cbn;
  rewrite ?take_alter_ge, ?drop_alter_lt, ?length_alter by lia;
  rewrite ?fmap_alter_same by (intros []; reflexivity);
  auto.

Section PlanExecution.
Context {W : Type} (rt : Runtime.t W).
Context (pharaohService shadowService : VenueService.t W).
Context (providers : BridgeProviders.t W) (rnd : Q -> Q) (simulationMode : bool).
Context (opportunity : ArbitrageOpportunity.t).

Lemma runStep_frame (i : nat) (step : ExecutionStep.t) (l l' : ArbitrageEngine.PlanRun)
    (w w' : W) (r : Result unit) :
  ArbitrageEngine.runStep rt pharaohService shadowService providers rnd simulationMode
    i step opportunity (l, w) = (r, (l', w')) ->
  step_frame i l l'.
Proof.
  unfold ArbitrageEngine.runStep. intros H.
  destruct (ExecutionStep.type step).
  - unfold bind, ArbitrageEngine.getLocal, ArbitrageEngine.liftW,
      ArbitrageEngine.updateStep, ArbitrageEngine.modifyLocal in H.
    destruct (ArbitrageEngine.executeSwapStep pharaohService shadowService step
                opportunity (ArbitrageEngine.currentAmount l) w) as [[swapResult | e] w1];
      injection H as <- <- <-; frame_solve.
  - unfold bind, ret, ArbitrageEngine.getLocal, ArbitrageEngine.liftW,
      ArbitrageEngine.updateStep, ArbitrageEngine.modifyLocal in H.
    destruct (ArbitrageEngine.executeBridgeStep rt providers rnd simulationMode step
                (ArbitrageEngine.currentAmount l) w) as [[bridgeResult | e] w1].
    + destruct (BridgeExecutionResult.monitoringPromise bridgeResult w1) as [[m | e] w2];
        injection H as <- <- <-; frame_solve.
    + injection H as <- <- <-; frame_solve.
  - unfold ArbitrageEngine.liftW, Runtime.sleep in H.
    injection H as <- <- <-; frame_solve.
Qed.


Lemma drop_eq_le {A : Type} (a b : list A) (n m : nat) :
  drop n a = drop n b -> (n <= m)%nat -> drop m a = drop m b.
Proof.
  intros H Hle. replace m with (n + (m - n))%nat by lia.
  rewrite <- !drop_drop. now rewrite H.
Qed.

Lemma executeSteps_spec (remaining : nat) :
  forall (i : nat) (l l' : ArbitrageEngine.PlanRun) (w w' : W)
         (r : Result ArbitrageExecutionResult.t),
    (remaining + i)%nat = length (ExecutionPlan.steps (ArbitrageEngine.plan l)) ->
    ArbitrageEngine.completedSteps l
      = take i (ExecutionPlan.steps (ArbitrageEngine.plan l)) ->
    Forall (fun s => ExecutionStep.status s = completed) (ArbitrageEngine.completedSteps l) ->
    ArbitrageEngine.executeSteps rt pharaohService shadowService providers rnd
      simulationMode remaining i opportunity (l, w) = (r, (l', w')) ->
    exists res,
      r = Ok res
      /\ map ExecutionStep.type (ExecutionPlan.steps (ArbitrageExecutionResult.executionPlan res))
         = map ExecutionStep.type (ExecutionPlan.steps (ArbitrageEngine.plan l))
      /\ Forall (fun s => ExecutionStep.status s = completed)
           (ArbitrageExecutionResult.completedSteps res)
      /\ if ArbitrageExecutionResult.success res then
           ArbitrageExecutionResult.completedSteps res
             = ExecutionPlan.steps (ArbitrageExecutionResult.executionPlan res)
           /\ ArbitrageExecutionResult.failedStep res = None
           /\ ArbitrageExecutionResult.error res = None
         else
           exists (k : nat) (step : ExecutionStep.t) (e : Exn),
             (i <= k)%nat
             /\ ArbitrageExecutionResult.completedSteps res
                = take k (ExecutionPlan.steps (ArbitrageExecutionResult.executionPlan res))
             /\ ExecutionPlan.steps (ArbitrageExecutionResult.executionPlan res) !! k
                = Some step
             /\ ArbitrageExecutionResult.failedStep res = Some step
             /\ ExecutionStep.status step = failed
             /\ drop (S k) (ExecutionPlan.steps (ArbitrageExecutionResult.executionPlan res))
                = drop (S k) (ExecutionPlan.steps (ArbitrageEngine.plan l))
             /\ ArbitrageExecutionResult.netProfit res = 0
             /\ ArbitrageExecutionResult.error res = Some e.
Proof.
  induction remaining as [| remaining IH]; intros i l l' w w' r Hlen Hc Hall H.
  - cbn in H. injection H as <- <- <-. eexists; split; [reflexivity |]. cbn.
    split; [reflexivity |]. split; [assumption |].
    rewrite Hc, take_ge by lia. auto.
  - cbn [ArbitrageEngine.executeSteps] in H.
    unfold bind at 1 in H. unfold ArbitrageEngine.getLocal at 1 in H.
    destruct (ExecutionPlan.steps (ArbitrageEngine.plan l) !! i) as [step |] eqn:Hi.
    2: { apply lookup_ge_None in Hi. lia. }
    unfold bind, try_catch, ret, ArbitrageEngine.liftW, Runtime.now,
      ArbitrageEngine.updateStep, ArbitrageEngine.modifyLocal, ArbitrageEngine.getLocal in H.
    cbn -[ArbitrageEngine.runStep ArbitrageEngine.executeSteps alter] in H.
    match type of H with
    | context [ArbitrageEngine.runStep _ _ _ _ _ _ _ _ _ ?st] =>
        destruct (ArbitrageEngine.runStep rt pharaohService shadowService providers rnd
                    simulationMode i step opportunity st) as [r2 [l2 w2]] eqn:Hrun
    end.
    apply runStep_frame in Hrun. destruct Hrun as (Fc & Ft & Fd & Fl & Fm).
    cbn -[alter] in Fc, Ft, Fd, Fl, Fm.
    rewrite ?take_alter_ge, ?drop_alter_lt, ?length_alter in * by lia.
    rewrite !fmap_alter_same in Fm by (intros []; reflexivity).
    destruct r2 as [[] | e].
    + cbn -[alter ArbitrageEngine.executeSteps] in H.
      destruct (lookup_lt_is_Some_2 (ExecutionPlan.steps (ArbitrageEngine.plan l2)) i)
        as [s2 Hs2]; [lia |].
      apply IH in H; cbn -[alter].
      * destruct H as (res & -> & Hm & Hf & Hs). exists res.
        cbn -[alter] in Hm, Hs.
        rewrite fmap_alter_same in Hm by (intros []; reflexivity).
        split; [reflexivity |]. split; [congruence |]. split; [assumption |].
        destruct (ArbitrageExecutionResult.success res); [assumption |].
        destruct Hs as (k & fs & e & Hk & Hck & Hlk & Hfs & Hst & Hd & Hn & He).
        exists k, fs, e. repeat (split; [first [assumption | lia] |]).
        split; [| auto].
        rewrite Hd, drop_alter_lt by lia. apply drop_eq_le with (S i); [assumption | lia].
      * rewrite length_alter. lia.
      * rewrite list_lookup_alter_eq, Hs2. cbn -[alter].
        rewrite (take_S_r _ _ (ExecutionStep.set_status completed s2))
          by (now rewrite list_lookup_alter_eq, Hs2).
        rewrite take_alter_ge by lia. congruence.
      * rewrite list_lookup_alter_eq, Hs2. cbn -[alter].
        apply Forall_app. split; [congruence |]. repeat constructor.
    + cbn -[alter] in H. injection H as <- <- <-.
      destruct (lookup_lt_is_Some_2 (ExecutionPlan.steps (ArbitrageEngine.plan l2)) i)
        as [s2 Hs2]; [lia |].
      eexists; split; [reflexivity |]. cbn -[alter].
      rewrite fmap_alter_same by (intros []; reflexivity).
      split; [assumption |]. split; [congruence |].
      exists i, (ExecutionStep.set_status failed s2), e.
      rewrite list_lookup_alter_eq, Hs2, take_alter_ge, drop_alter_lt by lia.
      cbn. repeat split; try congruence. lia.
Qed.

(** What [executePlan] returns, from the loop's invariant started at the
    first step with nothing completed. *)
Lemma executePlan_spec (plan : ExecutionPlan.t) (w w' : W)
    (r : Result ArbitrageExecutionResult.t) :
  ArbitrageEngine.executePlan rt pharaohService shadowService providers rnd
    simulationMode plan opportunity w = (r, w') ->
  exists res,
    r = Ok res
    /\ map ExecutionStep.type (ExecutionPlan.steps (ArbitrageExecutionResult.executionPlan res))
       = map ExecutionStep.type (ExecutionPlan.steps plan)
    /\ Forall (fun s => ExecutionStep.status s = completed)
         (ArbitrageExecutionResult.completedSteps res)
    /\ if ArbitrageExecutionResult.success res then
         ArbitrageExecutionResult.completedSteps res
           = ExecutionPlan.steps (ArbitrageExecutionResult.executionPlan res)
         /\ ArbitrageExecutionResult.failedStep res = None
         /\ ArbitrageExecutionResult.error res = None
       else
         exists (k : nat) (step : ExecutionStep.t) (e : Exn),
           (0 <= k)%nat
           /\ ArbitrageExecutionResult.completedSteps res
              = take k (ExecutionPlan.steps (ArbitrageExecutionResult.executionPlan res))
           /\ ExecutionPlan.steps (ArbitrageExecutionResult.executionPlan res) !! k
              = Some step
           /\ ArbitrageExecutionResult.failedStep res = Some step
           /\ ExecutionStep.status step = failed
           /\ drop (S k) (ExecutionPlan.steps (ArbitrageExecutionResult.executionPlan res))
              = drop (S k) (ExecutionPlan.steps plan)
           /\ ArbitrageExecutionResult.netProfit res = 0
           /\ ArbitrageExecutionResult.error res = Some e.
Proof.
  unfold ArbitrageEngine.executePlan, try_catch. intros H.
  match type of H with
  | context [ArbitrageEngine.executeSteps _ _ _ _ _ _ ?n ?i _ ?st] =>
      destruct (ArbitrageEngine.executeSteps rt pharaohService shadowService providers
                  rnd simulationMode n i opportunity st) as [r1 [l1 w1]] eqn:Hrun
  end.
  apply executeSteps_spec in Hrun; cbn; [| lia | reflexivity | constructor].
  destruct Hrun as (res & -> & Hspec). cbn in Hspec. injection H as <- <-. eauto.
Qed.

(** X1: [executePlan] catches every error of its steps, whatever the venues,
    the bridges and the clock do: it always returns a result object and
    never throws. *)
Theorem executePlan_never_throws :
  forall (plan : ExecutionPlan.t) (w : W),
  exists (res : ArbitrageExecutionResult.t) (w' : W),
    ArbitrageEngine.executePlan rt pharaohService shadowService providers rnd
      simulationMode plan opportunity w = (Ok res, w').
Proof.
  intros plan w.
  destruct (ArbitrageEngine.executePlan rt pharaohService shadowService providers rnd
              simulationMode plan opportunity w) as [r w'] eqn:H.
  apply executePlan_spec in H. destruct H as (res & -> & _). eauto.
Qed.

(** X2: a result that reports success has no failed step and no error, and
    its completed steps are all the steps of the plan, in order, each with
    status [completed]; the plan's steps keep their types. *)
Theorem executePlan_success_structure :
  forall (plan : ExecutionPlan.t) (w w' : W) (res : ArbitrageExecutionResult.t),
    ArbitrageEngine.executePlan rt pharaohService shadowService providers rnd
      simulationMode plan opportunity w = (Ok res, w') ->
    ArbitrageExecutionResult.success res = true ->
    ArbitrageExecutionResult.completedSteps res
      = ExecutionPlan.steps (ArbitrageExecutionResult.executionPlan res)
    /\ Forall (fun s => ExecutionStep.status s = completed)
         (ExecutionPlan.steps (ArbitrageExecutionResult.executionPlan res))
    /\ map ExecutionStep.type (ExecutionPlan.steps (ArbitrageExecutionResult.executionPlan res))
       = map ExecutionStep.type (ExecutionPlan.steps plan)
    /\ ArbitrageExecutionResult.failedStep res = None
    /\ ArbitrageExecutionResult.error res = None.
Proof.
  intros plan w w' res H Hs. apply executePlan_spec in H.
  destruct H as (res' & [= <-] & Hm & Hf & Hif). rewrite Hs in Hif.
  destruct Hif as (Hc & Hfs & He).
  split; [exact Hc |]. split; [now rewrite <- Hc |]. auto.
Qed.

(** X3: a result that reports failure carries the error and the step that
    failed, marked [failed]; that step sits in the plan right after the
    completed ones, which are the plan's steps before it, all [completed];
    the steps after it are as they were in the plan (never started); and
    the net profit reported is zero. *)
Theorem executePlan_failure_structure :
  forall (plan : ExecutionPlan.t) (w w' : W) (res : ArbitrageExecutionResult.t),
    ArbitrageEngine.executePlan rt pharaohService shadowService providers rnd
      simulationMode plan opportunity w = (Ok res, w') ->
    ArbitrageExecutionResult.success res = false ->
    exists (step : ExecutionStep.t) (e : Exn),
      let k := length (ArbitrageExecutionResult.completedSteps res) in
      ArbitrageExecutionResult.failedStep res = Some step
      /\ ArbitrageExecutionResult.error res = Some e
      /\ ExecutionStep.status step = failed
      /\ ExecutionPlan.steps (ArbitrageExecutionResult.executionPlan res) !! k = Some step
      /\ ArbitrageExecutionResult.completedSteps res
         = take k (ExecutionPlan.steps (ArbitrageExecutionResult.executionPlan res))
      /\ Forall (fun s => ExecutionStep.status s = completed)
           (ArbitrageExecutionResult.completedSteps res)
      /\ drop (S k) (ExecutionPlan.steps (ArbitrageExecutionResult.executionPlan res))
         = drop (S k) (ExecutionPlan.steps plan)
      /\ ArbitrageExecutionResult.netProfit res = 0.
Proof.
  intros plan w w' res H Hs. apply executePlan_spec in H.
  destruct H as (res' & [= <-] & Hm & Hf & Hif). rewrite Hs in Hif.
  destruct Hif as (k & step & e & _ & Hc & Hk & Hfs & Hst & Hd & Hn & He).
  assert (Hlen : length (ArbitrageExecutionResult.completedSteps res) = k).
  { rewrite Hc. apply length_take_le. apply lookup_lt_Some in Hk. lia. }
  exists step, e. cbv zeta. rewrite Hlen. auto 10.
Qed.

End PlanExecution.


(** The plan of an opportunity whose prices leave the spread in place, run
    in simulation mode over a chain that confirms every transaction: all six
    steps complete. *)
Lemma executePlan_success_structure_witness :
  exists res : ArbitrageExecutionResult.t,
    ArbitrageEngine.executePlan Mock.runtime
      (VenueService.Pharaoh Mock.env (Mock.client 800000))
      (VenueService.Shadow Mock.env (Mock.client 80000))
      Mock.providers (fun x => x) true
      (ArbitrageEngine.createExecutionPlan
         (Mock.opportunity avalanche_to_sonic 999200 999800 100000))
      (Mock.opportunity avalanche_to_sonic 999200 999800 100000) tt = (Ok res, tt)
    /\ ArbitrageExecutionResult.success res = true
    /\ length (ArbitrageExecutionResult.completedSteps res) = 6%nat
    /\ ArbitrageExecutionResult.completedSteps res
       = ExecutionPlan.steps (ArbitrageExecutionResult.executionPlan res)
    /\ Forall (fun s => ExecutionStep.status s = completed)
         (ExecutionPlan.steps (ArbitrageExecutionResult.executionPlan res))
    /\ map ExecutionStep.type (ExecutionPlan.steps (ArbitrageExecutionResult.executionPlan res))
       = map ExecutionStep.type
           (ExecutionPlan.steps
              (ArbitrageEngine.createExecutionPlan
                 (Mock.opportunity avalanche_to_sonic 999200 999800 100000)))
    /\ ArbitrageExecutionResult.failedStep res = None
    /\ ArbitrageExecutionResult.error res = None.
Proof.
  eexists. split; [vm_compute; reflexivity |].
  split; [reflexivity |]. split; [reflexivity |].
  apply (executePlan_success_structure Mock.runtime
           (VenueService.Pharaoh Mock.env (Mock.client 800000))
           (VenueService.Shadow Mock.env (Mock.client 80000))
           Mock.providers (fun x => x) true
           (Mock.opportunity avalanche_to_sonic 999200 999800 100000)
           (ArbitrageEngine.createExecutionPlan
              (Mock.opportunity avalanche_to_sonic 999200 999800 100000))
           tt tt); [vm_compute; reflexivity | reflexivity].
Defined.

(** The same plan in live mode over bridge providers whose transfers are
    never confirmed: the first swap completes and the bridge step fails. *)
Lemma executePlan_failure_structure_witness :
  exists (res : ArbitrageExecutionResult.t) (step : ExecutionStep.t) (e : Exn),
    ArbitrageEngine.executePlan Mock.runtime
      (VenueService.Pharaoh Mock.env (Mock.client 800000))
      (VenueService.Shadow Mock.env (Mock.client 80000))
      Mock.stuckProviders (fun x => x) false
      (ArbitrageEngine.createExecutionPlan
         (Mock.opportunity avalanche_to_sonic 999200 999800 100000))
      (Mock.opportunity avalanche_to_sonic 999200 999800 100000) tt = (Ok res, tt)
    /\ ArbitrageExecutionResult.success res = false
    /\ length (ArbitrageExecutionResult.completedSteps res) = 1%nat
    /\ let k := length (ArbitrageExecutionResult.completedSteps res) in
       ArbitrageExecutionResult.failedStep res = Some step
       /\ ArbitrageExecutionResult.error res = Some e
       /\ ExecutionStep.status step = failed
       /\ ExecutionPlan.steps (ArbitrageExecutionResult.executionPlan res) !! k = Some step
       /\ ArbitrageExecutionResult.completedSteps res
          = take k (ExecutionPlan.steps (ArbitrageExecutionResult.executionPlan res))
       /\ Forall (fun s => ExecutionStep.status s = completed)
            (ArbitrageExecutionResult.completedSteps res)
       /\ drop (S k) (ExecutionPlan.steps (ArbitrageExecutionResult.executionPlan res))
          = drop (S k)
              (ExecutionPlan.steps
                 (ArbitrageEngine.createExecutionPlan
                    (Mock.opportunity avalanche_to_sonic 999200 999800 100000)))
       /\ ArbitrageExecutionResult.netProfit res = 0.
Proof.
  pose (run := ArbitrageEngine.executePlan Mock.runtime
      (VenueService.Pharaoh Mock.env (Mock.client 800000))
      (VenueService.Shadow Mock.env (Mock.client 80000))
      Mock.stuckProviders (fun x => x) false
      (ArbitrageEngine.createExecutionPlan
         (Mock.opportunity avalanche_to_sonic 999200 999800 100000))
      (Mock.opportunity avalanche_to_sonic 999200 999800 100000) tt).
  let r := eval vm_compute in run in
  match r with
  | (Ok ?res, _) =>
      assert (Hrun : run = (Ok res, tt)) by (vm_compute; reflexivity);
      destruct (executePlan_failure_structure Mock.runtime
                  (VenueService.Pharaoh Mock.env (Mock.client 800000))
                  (VenueService.Shadow Mock.env (Mock.client 80000))
                  Mock.stuckProviders (fun x => x) false
                  (Mock.opportunity avalanche_to_sonic 999200 999800 100000)
                  (ArbitrageEngine.createExecutionPlan
                     (Mock.opportunity avalanche_to_sonic 999200 999800 100000))
                  tt tt res Hrun eq_refl) as (step & e & Hk);
      exists res, step, e;
      exact (conj Hrun (conj eq_refl (conj eq_refl Hk)))
  end.
Defined.

(** ** Price conversion: the range of the result *)

(** On a non-zero square-root price the integer fallback is a whole number
    of units: a positive multiple of 1000000. *)
Lemma alternativeV3PriceCalculation_multiple (sqrtPriceX96 : Z) :
  sqrtPriceX96 <> 0 ->
  exists k : Z,
    1 <= k /\ PriceMonitor.alternativeV3PriceCalculation sqrtPriceX96 = k * 1000000.
Proof.
  intros Hs. unfold PriceMonitor.alternativeV3PriceCalculation, bigint_div.
  pose proof Q192_pos as HQ.
  set (Q192 := PriceMonitor.Q96 * PriceMonitor.Q96) in *.
  assert (Hsq : 0 < sqrtPriceX96 * sqrtPriceX96) by nia.
  destruct (Z.eqb_spec Q192 0) as [HQ0 | _]; [lia |].
  rewrite Z.quot_div_nonneg by lia.
  destruct (Z.eqb_spec (sqrtPriceX96 * sqrtPriceX96 / Q192) 0) as [Hr | Hr].
  - destruct (Z.eqb_spec (sqrtPriceX96 * sqrtPriceX96) 0) as [H0 | _]; [lia |].
    rewrite Z.quot_div_nonneg by lia.
    exists (Q192 / (sqrtPriceX96 * sqrtPriceX96)). split; [| reflexivity].
    apply Z.div_small_iff in Hr; [| lia].
    apply Z.div_le_lower_bound; lia.
  - exists (sqrtPriceX96 * sqrtPriceX96 / Q192). split; [| reflexivity].
    pose proof (Z.div_pos (sqrtPriceX96 * sqrtPriceX96) Q192). lia.
Qed.

(** X4: whatever the square-root price and the decimals, and whatever the
    floating-point formula yields, the converted price is at least 500000
    (0.5 in 6 decimals); it lies in the band from 500000 to 2000000 or is a
    whole number of units (a positive multiple of 1000000) from the integer
    fallback or the parity default. *)
Theorem sqrtPriceX96ToPrice_range :
  forall sqrtPriceX96 decimals0 decimals1 : Z,
    500000 <= PriceMonitor.sqrtPriceX96ToPrice sqrtPriceX96 decimals0 decimals1
    /\ (PriceMonitor.sqrtPriceX96ToPrice sqrtPriceX96 decimals0 decimals1 <= 2000000
        \/ exists k : Z,
             1 <= k
             /\ PriceMonitor.sqrtPriceX96ToPrice sqrtPriceX96 decimals0 decimals1
                = k * 1000000).
Proof.
  intros s d0 d1. unfold PriceMonitor.sqrtPriceX96ToPrice.
  destruct (Z.eqb_spec s 0) as [-> | Hs]; [split; [lia | left; lia] |].
  destruct (alternativeV3PriceCalculation_multiple s Hs) as (k & Hk & Halt).
  assert (Hgt : (PriceMonitor.alternativeV3PriceCalculation s >? 0) = true)
    by (apply Z.gtb_lt; lia).
  destruct (PriceMonitor.primaryV3Price s d0 d1) as [p | e]; [| split; [lia | left; lia]].
  destruct (Z.ltb_spec p 500000); destruct (Z.gtb_spec p 2000000); cbn [orb];
    rewrite ?Hgt.
  all: try (split; [lia | right; exists k; split; [lia | exact Halt]]).
  destruct (Z.gtb_spec p 0); split; try lia; left; lia.
Qed.

(** ** deBridge order monitoring: how it ends *)

(** X5: the only error [monitorBridgeTransaction] ever throws is the
    timeout [BridgeError], and it throws it only once the clock shows that
    at least [timeoutMs] have passed since the call started; no failure of
    a request, of the response's JSON or of the order itself reaches the
    caller. *)
Theorem monitorBridgeTransaction_only_timeout :
  forall (W : Type) (rt : Runtime.t W)
         (fetchOrder : string -> M W DeBridgeService.HttpResponse)
         (fuel : nat) (orderId : string) (timeoutMs : Z) (w w' : W) (error : Exn),
    DeBridgeService.monitorBridgeTransaction rt fetchOrder fuel orderId timeoutMs w
      = (Throw error, w') ->
    error = BridgeError "DeBridge order monitoring timeout" None
    /\ timeoutMs <= Runtime.dateNow rt w' - Runtime.dateNow rt w.
Proof.
  intros W rt fetchOrder fuel orderId timeoutMs w w' error H.
  unfold DeBridgeService.monitorBridgeTransaction, bind, Runtime.now in H.
  exact (monitorLoop_throws_timeout rt fetchOrder orderId timeoutMs _ fuel w w' error H).
Qed.

(** An endpoint that is down for every request: the monitor gives up with
    the timeout after 300 seconds. *)
Lemma monitorBridgeTransaction_only_timeout_witness :
  exists (error : Exn) (w' : Script.World),
    DeBridgeService.monitorBridgeTransaction Script.runtime Script.fetchOrder 100
      "order-1" DeBridgeService.BRIDGE_TIMEOUT (Script.mkWorld 0 [])
    = (Throw error, w')
    /\ error = BridgeError "DeBridge order monitoring timeout" None
    /\ DeBridgeService.BRIDGE_TIMEOUT
       <= Runtime.dateNow Script.runtime w'
          - Runtime.dateNow Script.runtime (Script.mkWorld 0 []).
Proof.
  eexists _, _. split; [vm_compute; reflexivity |].
  apply (monitorBridgeTransaction_only_timeout Script.World Script.runtime
           Script.fetchOrder 100 "order-1" DeBridgeService.BRIDGE_TIMEOUT
           (Script.mkWorld 0 [])).
  vm_compute; reflexivity.
Defined.

(** X6: the monitoring loop ends.  When no request sets the clock back and
    a timer advances it by at least its delay, a call with a timeout of at
    most [15000 * n] milliseconds ends, with a result or with the timeout
    error, after at most [n] polls: [n + 1] loop tests are always enough. *)
Theorem monitorBridgeTransaction_terminates :
  forall (W : Type) (rt : Runtime.t W)
         (fetchOrder : string -> M W DeBridgeService.HttpResponse)
         (orderId : string) (timeoutMs : Z) (n : nat) (w : W),
    (forall orderId w r w1, fetchOrder orderId w = (r, w1) ->
                            Runtime.dateNow rt w <= Runtime.dateNow rt w1) ->
    (forall ms w, Runtime.dateNow rt w + Qfloor ms
                  <= Runtime.dateNow rt (Runtime.setTimeout rt ms w)) ->
    timeoutMs <= 15000 * Z.of_nat n ->
    fst (DeBridgeService.monitorBridgeTransaction rt fetchOrder (S n) orderId timeoutMs w)
      <> Ok None.
Proof.
  intros W rt fetchOrder orderId timeoutMs n w Hfetch Htimer Hn.
  unfold DeBridgeService.monitorBridgeTransaction, bind, Runtime.now.
  apply monitorLoop_enough_fuel; [exact Hfetch | exact Htimer | lia].
Qed.

(** With the default timeout of 300 seconds, twenty polls are enough,
    here against an endpoint that is down. *)
Lemma monitorBridgeTransaction_terminates_witness :
  fst (DeBridgeService.monitorBridgeTransaction Script.runtime Script.fetchOrder 21
         "order-1" DeBridgeService.BRIDGE_TIMEOUT (Script.mkWorld 0 []))
    <> Ok None.
Proof.
  apply (monitorBridgeTransaction_terminates Script.World Script.runtime Script.fetchOrder
           "order-1" DeBridgeService.BRIDGE_TIMEOUT 20 (Script.mkWorld 0 [])).
  - intros id w0 r w1 H. unfold Script.fetchOrder in H.
    destruct (Script.responses w0); injection H as <- <-; cbn; lia.
  - intros ms w0. cbn. lia.
  - unfold DeBridgeService.BRIDGE_TIMEOUT. lia.
Defined.

(** ** Venue adapters: approvals and error wrapping *)

(** X7: when the router's allowance already covers the amount,
    [ensureTokenApproval] returns after the one read and writes nothing:
    the chain is as the read left it. *)
Theorem ensureTokenApproval_sufficient_allowance :
  forall (W : Type) (cfg : VenueAdapter.VenueConfig) (client : ChainClient.t W)
         (tokenAddress : Address) (amount allowance : Z) (w w1 : W),
    ChainClient.readAllowance client tokenAddress (ChainClient.accountAddress client)
      (VenueAdapter.routerAddress cfg) w = (Ok allowance, w1) ->
    amount <= allowance ->
    VenueAdapter.ensureTokenApproval cfg client tokenAddress amount w = (Ok tt, w1).
Proof.
  intros W cfg client tokenAddress amount allowance w w1 Hread Hle.
  unfold VenueAdapter.ensureTokenApproval, try_catch, bind. rewrite Hread.
  destruct (Z.geb_spec allowance amount); [reflexivity | lia].
Qed.

Lemma ensureTokenApproval_sufficient_allowance_witness :
  VenueAdapter.ensureTokenApproval (PharaohDEXService.config Mock.env)
    (Mock.client 800000) "0xusdc" 0 tt = (Ok tt, tt).
Proof.
  apply (ensureTokenApproval_sufficient_allowance unit (PharaohDEXService.config Mock.env)
           (Mock.client 800000) "0xusdc" 0 0 tt tt).
  - reflexivity.
  - lia.
Defined.

(** X8: when the allowance is short, the adapter approves exactly twice the
    amount for its router, waits for that transaction's receipt, and
    returns in the world the receipt left. *)
Theorem ensureTokenApproval_approves_double :
  forall (W : Type) (cfg : VenueAdapter.VenueConfig) (client : ChainClient.t W)
         (tokenAddress : Address) (amount allowance : Z) (w w1 w2 w3 : W)
         (approveTxHash : Hash) (receipt : Receipt.t),
    ChainClient.readAllowance client tokenAddress (ChainClient.accountAddress client)
      (VenueAdapter.routerAddress cfg) w = (Ok allowance, w1) ->
    allowance < amount ->
    ChainClient.writeApprove client tokenAddress (VenueAdapter.routerAddress cfg)
      (2 * amount) w1 = (Ok approveTxHash, w2) ->
    ChainClient.waitForTransactionReceipt client approveTxHash w2 = (Ok receipt, w3) ->
    VenueAdapter.ensureTokenApproval cfg client tokenAddress amount w = (Ok tt, w3).
Proof.
  intros W cfg client tokenAddress amount allowance w w1 w2 w3 approveTxHash receipt
    Hread Hlt Hwrite Hwait.
  unfold VenueAdapter.ensureTokenApproval, try_catch, bind. rewrite Hread.
  destruct (Z.geb_spec allowance amount); [lia |].
  replace (amount * 2) with (2 * amount) by lia.
  rewrite Hwrite, Hwait. reflexivity.
Qed.

Lemma ensureTokenApproval_approves_double_witness :
  VenueAdapter.ensureTokenApproval (PharaohDEXService.config Mock.env)
    (Mock.client 800000) "0xusdc" 1000000 tt = (Ok tt, tt).
Proof.
  apply (ensureTokenApproval_approves_double unit (PharaohDEXService.config Mock.env)
           (Mock.client 800000) "0xusdc" 1000000 0 tt tt tt tt "0xapprove"
           (Receipt.mk 800000)).
  - reflexivity.
  - lia.
  - reflexivity.
  - reflexivity.
Defined.

(** What the adapter's methods throw. *)
Lemma ensureTokenApproval_throws {W : Type} (cfg : VenueAdapter.VenueConfig)
    (client : ChainClient.t W) (tokenAddress : Address) (amount : Z) (w w' : W)
    (error : Exn) :
  VenueAdapter.ensureTokenApproval cfg client tokenAddress amount w = (Throw error, w') ->
  exists cause, error = SwapError (VenueAdapter.approvalErrorMessage cfg) (Some cause).
Proof.
  intros H. unfold VenueAdapter.ensureTokenApproval in H. run_in H; eauto.
Qed.

(** X9: a swap whose approval fails is never submitted.  The adapter throws
    its own [SwapError], which wraps the approval's [SwapError], which wraps
    the chain's error; and the chain is as the failed approval left it: no
    signature was requested and no swap transaction sent. *)
Theorem executeSwapExactIn_approval_failure_stops :
  forall (W : Type) (cfg : VenueAdapter.VenueConfig) (client : ChainClient.t W)
         (tokenIn tokenOut : Token) (amountIn : Z) (w w1 : W) (error : Exn),
    VenueAdapter.ensureTokenApproval cfg client
      (if bool_decide (tokenIn = USDC) then VenueAdapter.usdcAddress cfg
       else VenueAdapter.usdtAddress cfg) amountIn w = (Throw error, w1) ->
    exists cause : Exn,
      error = SwapError (VenueAdapter.approvalErrorMessage cfg) (Some cause)
      /\ VenueAdapter.executeSwapExactIn cfg client tokenIn tokenOut amountIn w
         = (Throw (SwapError ("Failed to execute " ++ VenueAdapter.venueName cfg ++ " swap")
                     (Some error)), w1).
Proof.
  intros W cfg client tokenIn tokenOut amountIn w w1 error H.
  destruct (ensureTokenApproval_throws cfg client _ amountIn w w1 error H) as [cause ->].
  exists cause. split; [reflexivity |].
  unfold VenueAdapter.executeSwapExactIn, try_catch, bind. rewrite H. reflexivity.
Qed.

Lemma executeSwapExactIn_approval_failure_stops_witness :
  VenueAdapter.executeSwapExactIn (PharaohDEXService.config Mock.env)
    MockRejecting.client USDC USDT 1000000 tt
  = (Throw (SwapError "Failed to execute Pharaoh swap"
              (Some (SwapError "Failed to approve token for Pharaoh Magpie Router"
                       (Some (JsError "User rejected the request"))))), tt).
Proof.
  destruct (executeSwapExactIn_approval_failure_stops unit
              (PharaohDEXService.config Mock.env) MockRejecting.client USDC USDT 1000000
              tt tt
              (SwapError "Failed to approve token for Pharaoh Magpie Router"
                 (Some (JsError "User rejected the request"))) eq_refl)
    as (cause & _ & Hrun).
  exact Hrun.
Defined.

(** X10: the errors of the swap layer.  Whatever the chain does, a venue's
    [executeSwapExactIn] throws nothing but its own [SwapError] around the
    cause, and the coordinator's [executeSwap] nothing but its own around
    that; and [getAllQuotes] never throws: it returns a map with no key
    other than the two venues'. *)
Theorem swap_layer_errors :
  forall (W : Type) (cfg : VenueAdapter.VenueConfig) (client : ChainClient.t W)
         (pharaohService shadowService : VenueService.t W) (dex : DexName)
         (tokenIn tokenOut : Token) (amountIn : Z) (networks : option (list Network))
         (w : W),
    match fst (VenueAdapter.executeSwapExactIn cfg client tokenIn tokenOut amountIn w) with
    | Ok _ => True
    | Throw error =>
        exists cause,
          error = SwapError ("Failed to execute " ++ VenueAdapter.venueName cfg ++ " swap")
                    (Some cause)
    end
    /\ match fst (DEXManager.executeSwap pharaohService shadowService dex
                    tokenIn tokenOut amountIn w) with
       | Ok _ => True
       | Throw error =>
           exists cause,
             error = SwapError ("Failed to execute " ++ DexName_key dex ++ " swap")
                       (Some cause)
       end
    /\ exists quotes : gmap string SwapQuote.t,
         fst (DEXManager.getAllQuotes pharaohService shadowService tokenIn tokenOut
                amountIn networks w) = Ok quotes
         /\ forall key, is_Some (quotes !! key) -> key = "pharaoh" \/ key = "shadow".
Proof.
  intros W cfg client pharaohService shadowService dex tokenIn tokenOut amountIn
    networks w.
  split; [| split].
  - destruct (VenueAdapter.executeSwapExactIn cfg client tokenIn tokenOut amountIn w)
      as [[r | error] w'] eqn:H; cbn; [exact I |].
    unfold VenueAdapter.executeSwapExactIn in H. run_in H; eauto.
  - destruct (DEXManager.executeSwap pharaohService shadowService dex
                tokenIn tokenOut amountIn w) as [[r | error] w'] eqn:H; cbn; [exact I |].
    unfold DEXManager.executeSwap in H. destruct dex; cbn in H; run_in H; eauto.
  - destruct (DEXManager.getAllQuotes pharaohService shadowService tokenIn tokenOut
                amountIn networks w) as [[quotes | error] w'] eqn:H; cbn.
    + exists quotes. split; [reflexivity |]. intros key [q Hq].
      unfold DEXManager.getAllQuotes in H. run_in H.
      all: repeat match goal with
             | Hq : <[_ := _]> _ !! _ = Some _ |- _ =>
                 apply lookup_insert_Some in Hq; destruct Hq as [[<- _] | [_ Hq]]
             | Hq : ∅ !! _ = Some _ |- _ => rewrite lookup_empty in Hq; discriminate
             end; auto.
    + exfalso. unfold DEXManager.getAllQuotes in H. run_in H.
Qed.

(** ** Bridge manager: strategy and fallback *)

(** X11: the bridge chosen for a transfer.  Between the two supported
    chains (43114 and 146, in either order or the same one) USDC always
    goes through CCIP and USDT through DeBridge, so the two fallback
    branches are never taken; as soon as one end is another chain, no
    bridge is available and the strategy is the simulation. *)
Theorem getBestBridgeStrategy_choice :
  forall (token : Token) (fromChainId toChainId : Z),
    let strategy := BridgeManager.getBestBridgeStrategy token fromChainId toChainId in
    ((fromChainId = 43114 \/ fromChainId = 146) /\ (toChainId = 43114 \/ toChainId = 146) ->
     BridgeManager.available strategy = true
     /\ BridgeManager.strategyProvider strategy
        = match token with USDC => ccip | USDT => debridge end)
    /\ (~ ((fromChainId = 43114 \/ fromChainId = 146)
           /\ (toChainId = 43114 \/ toChainId = 146)) ->
        BridgeManager.available strategy = false
        /\ BridgeManager.strategyProvider strategy = simulation)
    /\ BridgeManager.reason strategy <> "DeBridge fallback"
    /\ BridgeManager.reason strategy <> "CCIP fallback".
Proof.
  intros token fromChainId toChainId strategy. subst strategy.
  unfold BridgeManager.getBestBridgeStrategy, BridgeManager.supportedChains.
  assert (Hin : forall c : Z, bool_decide (c ∈ [43114; 146]) = true <-> (c = 43114 \/ c = 146)).
  { intros c. rewrite bool_decide_eq_true. rewrite !elem_of_cons, elem_of_nil. tauto. }
  destruct (bool_decide (fromChainId ∈ [43114; 146])) eqn:Hf;
    destruct (bool_decide (toChainId ∈ [43114; 146])) eqn:Ht.
  1: { apply Hin in Hf, Ht.
       destruct token; vm_compute;
         (split; [intros _; split; reflexivity |]);
         (split; [intros Hnot; exfalso; apply Hnot; split; assumption |]);
         split; discriminate. }
  all: assert (Hnot : ~ ((fromChainId = 43114 \/ fromChainId = 146)
                         /\ (toChainId = 43114 \/ toChainId = 146)))
         by (intros [Hfrom Hto]; apply Hin in Hfrom; apply Hin in Hto; congruence).
  all: destruct token; cbn.
  all: split; [intros Hyes; exfalso; exact (Hnot Hyes) |].
  all: split; [intros _; split; reflexivity |].
  all: split; intros Hr; cbn in Hr; discriminate Hr.
Qed.

(** The simulation bridge cannot fail. *)
Lemma executeSimulationBridge_returns {W : Type} (rt : Runtime.t W) (rnd : Q -> Q)
    (token : Token) (fromChainId toChainId amount : Z) (w : W) :
  exists result,
    BridgeManager.executeSimulationBridge rt rnd token fromChainId toChainId amount w
      = (Ok result, snd (Runtime.mathRandom rt w))
    /\ BridgeExecutionResult.provider result = simulation
    /\ BridgeExecutionResult.estimatedOutput result = amount - Z.quot amount 1000.
Proof.
  unfold BridgeManager.executeSimulationBridge, bind, ret, Runtime.now, Runtime.random.
  destruct (Runtime.mathRandom rt w) as [random w']. cbn.
  eexists. split; [reflexivity |]. split; reflexivity.
Qed.

(** X12: [executeBridge] never throws, in either mode and whatever the
    providers do: it returns a submission, and one that names the
    simulation as its provider promises [amount - amount / 1000]. *)
Theorem executeBridge_never_throws :
  forall (W : Type) (rt : Runtime.t W) (providers : BridgeProviders.t W) (rnd : Q -> Q)
         (simulationMode : bool) (token : Token) (fromChainId toChainId amount : Z)
         (forceProvider : option BridgeProviderName) (w : W),
  exists (result : BridgeExecutionResult.t W) (w' : W),
    BridgeManager.executeBridge rt providers rnd simulationMode token
      fromChainId toChainId amount forceProvider w = (Ok result, w')
    /\ (BridgeExecutionResult.provider result = simulation ->
        BridgeExecutionResult.estimatedOutput result = amount - Z.quot amount 1000).
Proof.
  intros W rt providers rnd simulationMode token fromChainId toChainId amount
    forceProvider w.
  unfold BridgeManager.executeBridge, try_catch.
  set (strategy := match forceProvider with
                   | Some forced => BridgeManager.mkStrategy forced true "Forced provider"
                   | None => BridgeManager.getBestBridgeStrategy token fromChainId toChainId
                   end).
  assert (Hfallback : forall w1 : W,
    exists (result : BridgeExecutionResult.t W) (w' : W),
      BridgeManager.executeSimulationBridge rt rnd token fromChainId toChainId amount w1
        = (Ok result, w')
      /\ (BridgeExecutionResult.provider result = simulation ->
          BridgeExecutionResult.estimatedOutput result = amount - Z.quot amount 1000)).
  { intros w1.
    destruct (executeSimulationBridge_returns rt rnd token fromChainId toChainId amount w1)
      as (r & Hr & _ & Hout). eauto. }
  destruct (bool_decide (BridgeManager.strategyProvider strategy = simulation)
            || simulationMode).
  { destruct (Hfallback w) as (r & w' & Hr & Hout). rewrite Hr. eauto. }
  destruct (bool_decide (BridgeManager.strategyProvider strategy = debridge)).
  { unfold bind.
    destruct (BridgeProviders.debridgeExecuteBridge providers fromChainId toChainId
                amount token w) as [[[[txHash orderId] estimatedOutput] | error] w1].
    - cbn. eexists _, _. split; [reflexivity |]. cbn. discriminate.
    - exact (Hfallback w1). }
  destruct (bool_decide (BridgeManager.strategyProvider strategy = ccip)).
  { unfold bind.
    destruct (BridgeProviders.ccipExecuteBridge providers fromChainId toChainId
                amount w) as [[[[txHash messageId] estimatedOutput] | error] w1].
    - cbn. eexists _, _. split; [reflexivity |]. cbn. discriminate.
    - exact (Hfallback w1). }
  exact (Hfallback w).
Qed.

(** X13: in simulation mode [executeBridge] is the simulation bridge,
    whatever the token, the chains and a forced provider: neither provider
    is called. *)
Theorem executeBridge_simulation_mode :
  forall (W : Type) (rt : Runtime.t W) (providers : BridgeProviders.t W) (rnd : Q -> Q)
         (token : Token) (fromChainId toChainId amount : Z)
         (forceProvider : option BridgeProviderName) (w : W),
    BridgeManager.executeBridge rt providers rnd true token
      fromChainId toChainId amount forceProvider w
    = BridgeManager.executeSimulationBridge rt rnd token fromChainId toChainId amount w.
Proof.
  intros W rt providers rnd token fromChainId toChainId amount forceProvider w.
  unfold BridgeManager.executeBridge, try_catch. rewrite orb_true_r.
  destruct (executeSimulationBridge_returns rt rnd token fromChainId toChainId amount w)
    as (r & Hr & _). rewrite Hr. reflexivity.
Qed.

(** X14: in live mode, a provider whose submission throws is replaced by
    the simulation bridge, run in the world the failed submission left; the
    caller gets a simulated transfer and no error. *)
Theorem executeBridge_falls_back_to_simulation :
  forall (W : Type) (rt : Runtime.t W) (providers : BridgeProviders.t W) (rnd : Q -> Q)
         (token : Token) (fromChainId toChainId amount : Z)
         (forceProvider : option BridgeProviderName) (w w1 : W) (error : Exn),
    let provider :=
      match forceProvider with
      | Some forced => forced
      | None =>
          BridgeManager.strategyProvider
            (BridgeManager.getBestBridgeStrategy token fromChainId toChainId)
      end in
    (provider = debridge
     /\ BridgeProviders.debridgeExecuteBridge providers fromChainId toChainId amount token w
        = (Throw error, w1))
    \/ (provider = ccip
        /\ BridgeProviders.ccipExecuteBridge providers fromChainId toChainId amount w
           = (Throw error, w1)) ->
    BridgeManager.executeBridge rt providers rnd false token
      fromChainId toChainId amount forceProvider w
    = BridgeManager.executeSimulationBridge rt rnd token fromChainId toChainId amount w1.
Proof.
  intros W rt providers rnd token fromChainId toChainId amount forceProvider w w1 error
    provider H.
  unfold BridgeManager.executeBridge, try_catch.
  assert (Hp : BridgeManager.strategyProvider
                 match forceProvider with
                 | Some forced => BridgeManager.mkStrategy forced true "Forced provider"
                 | None => BridgeManager.getBestBridgeStrategy token fromChainId toChainId
                 end = provider)
    by (subst provider; destruct forceProvider; reflexivity).
  rewrite Hp. destruct H as [[-> Hthrow] | [-> Hthrow]].
  - rewrite (bool_decide_eq_false_2 (debridge = simulation)) by discriminate.
    rewrite (bool_decide_eq_true_2 (debridge = debridge)) by reflexivity.
    cbn [orb]. unfold bind. rewrite Hthrow. reflexivity.
  - rewrite (bool_decide_eq_false_2 (ccip = simulation)) by discriminate.
    rewrite (bool_decide_eq_false_2 (ccip = debridge)) by discriminate.
    rewrite (bool_decide_eq_true_2 (ccip = ccip)) by reflexivity.
    cbn [orb]. unfold bind. rewrite Hthrow. reflexivity.
Qed.

(** One USDT from Avalanche to Sonic in live mode while DeBridge is down:
    the transfer is simulated. *)
Lemma executeBridge_falls_back_to_simulation_witness :
  BridgeManager.executeBridge Mock.runtime MockDown.providers (fun x => x) false USDT
    43114 146 1000000 None tt
  = BridgeManager.executeSimulationBridge Mock.runtime (fun x => x) USDT
      43114 146 1000000 tt.
Proof.
  apply (executeBridge_falls_back_to_simulation unit Mock.runtime MockDown.providers
           (fun x => x) USDT 43114 146 1000000 None tt tt
           (BridgeError "Failed to execute DeBridge bridge" None)).
  left. split; reflexivity.
Defined.

(** ** Opportunity engine: missing quotes *)

(** X15: when, at re-validation, either venue gives no quote, an admitted
    execution ends with the QUOTES_UNAVAILABLE error in a failure result:
    no step ran, no transaction was sent, the engine is released and the
    result recorded; the world is as the quote requests left it. *)
Theorem executeArbitrage_quotes_unavailable :
  forall (W : Type) (rt : Runtime.t W) (pharaohService shadowService : VenueService.t W)
         (providers : BridgeProviders.t W) (rnd : Q -> Q) (simulationMode : bool)
         (opportunity : ArbitrageOpportunity.t) (e : ArbitrageEngine.State) (w w1 : W)
         (quotes : gmap string SwapQuote.t),
    ArbitrageEngine.isExecuting e = false ->
    DEXManager.getAllQuotes pharaohService shadowService USDC USDT
      (ArbitrageOpportunity.amount opportunity) None (snd (Runtime.mathRandom rt w))
      = (Ok quotes, w1) ->
    quotes !! "pharaoh" = None \/ quotes !! "shadow" = None ->
    exists result : ArbitrageExecutionResult.t,
      ArbitrageEngine.executeArbitrage rt pharaohService shadowService providers rnd
        simulationMode opportunity (e, w)
      = (Ok result,
         (ArbitrageEngine.mkState false
            (ArbitrageEngine.executionHistory e ++ [result])%list, w1))
      /\ ArbitrageExecutionResult.success result = false
      /\ ArbitrageExecutionResult.error result
         = Some (ArbitrageError "Current quotes not available" "QUOTES_UNAVAILABLE")
      /\ ArbitrageExecutionResult.completedSteps result = []
      /\ ArbitrageExecutionResult.transactions result = []
      /\ ArbitrageExecutionResult.netProfit result = 0.
Proof.
  intros W rt pharaohService shadowService providers rnd simulationMode opportunity
    e w w1 quotes He Hq Hnone.
  assert (Hv : ArbitrageEngine.validateOpportunity pharaohService shadowService
                 opportunity (snd (Runtime.mathRandom rt w))
               = (Throw (ArbitrageError "Current quotes not available"
                           "QUOTES_UNAVAILABLE"), w1)).
  { unfold ArbitrageEngine.validateOpportunity, bind. rewrite Hq.
    destruct Hnone as [-> | Hs]; [reflexivity |].
    rewrite Hs. destruct (quotes !! "pharaoh"); reflexivity. }
  unfold ArbitrageEngine.executeArbitrage, bind, ArbitrageEngine.getLocal.
  rewrite He.
  unfold try_finally, try_catch, generateId, bind, ret, ArbitrageEngine.setExecuting,
    ArbitrageEngine.pushHistory, ArbitrageEngine.modifyLocal, ArbitrageEngine.liftW,
    Runtime.now, Runtime.random.
  cbn. destruct (Runtime.mathRandom rt w) as [draw w0]. cbn in Hv |- *.
  rewrite Hv. cbn.
  eexists. split; [reflexivity |]. cbn. repeat split.
Qed.

(** Pharaoh's quote service is down. *)
Lemma executeArbitrage_quotes_unavailable_witness :
  exists result : ArbitrageExecutionResult.t,
    ArbitrageEngine.executeArbitrage Mock.runtime Mock.failingVenue
      (VenueService.Shadow Mock.env (Mock.client 80000))
      Mock.providers (fun x => x) true
      (Mock.opportunity avalanche_to_sonic 999200 999800 100000)
      (ArbitrageEngine.mkState false [], tt)
    = (Ok result, (ArbitrageEngine.mkState false [result], tt))
    /\ ArbitrageExecutionResult.success result = false
    /\ ArbitrageExecutionResult.error result
       = Some (ArbitrageError "Current quotes not available" "QUOTES_UNAVAILABLE")
    /\ ArbitrageExecutionResult.completedSteps result = []
    /\ ArbitrageExecutionResult.transactions result = []
    /\ ArbitrageExecutionResult.netProfit result = 0.
Proof.
  refine (executeArbitrage_quotes_unavailable unit Mock.runtime Mock.failingVenue
            (VenueService.Shadow Mock.env (Mock.client 80000))
            Mock.providers (fun x => x) true
            (Mock.opportunity avalanche_to_sonic 999200 999800 100000)
            (ArbitrageEngine.mkState false []) tt tt _ eq_refl _ _).
  - vm_compute. reflexivity.
  - left. reflexivity.
Defined.

(** ** Profit calculator: the gross profit *)

(** X16: at the six decimals the callers use, the gross profit of a
    non-negative amount is the spread times the amount, in units of
    1000000, rounded down: never negative, never more than the exact
    value and less than one unit below it; and it is zero when the sell
    price does not exceed the buy price. *)
Theorem calculateArbitrageProfit_floor :
  forall buyPrice sellPrice amount : Z,
    0 <= amount ->
    let profit :=
      ArbitrageCalculator.calculateArbitrageProfit buyPrice sellPrice amount
        TOKEN_DECIMALS_USDC in
    0 <= profit
    /\ (sellPrice <= buyPrice -> profit = 0)
    /\ (buyPrice < sellPrice ->
        profit * 1000000 <= amount * (sellPrice - buyPrice) < (profit + 1) * 1000000).
Proof.
  intros buyPrice sellPrice amount Hamount profit. subst profit.
  unfold ArbitrageCalculator.calculateArbitrageProfit, TOKEN_DECIMALS_USDC.
  change (10 ^ Z.of_nat 6) with 1000000.
  destruct (Z.leb_spec sellPrice buyPrice) as [Hle | Hlt].
  - split; [lia |]. split; [reflexivity | lia].
  - assert (Hnn : 0 <= amount * (sellPrice - buyPrice)) by nia.
    rewrite Z.quot_div_nonneg by lia.
    pose proof (Z.div_mod (amount * (sellPrice - buyPrice)) 1000000 ltac:(lia)) as Hdm.
    pose proof (Z.mod_pos_bound (amount * (sellPrice - buyPrice)) 1000000 ltac:(lia)) as Hm.
    pose proof (Z.div_pos (amount * (sellPrice - buyPrice)) 1000000 Hnn ltac:(lia)).
    split; [lia |]. split; [lia |]. intros _. lia.
Qed.

(** One USDC bought at 0.9992 and sold at 0.9998: a gross profit of 600
    base units. *)
Lemma calculateArbitrageProfit_floor_witness :
  ArbitrageCalculator.calculateArbitrageProfit 999200 999800 1000000 TOKEN_DECIMALS_USDC
    = 600
  /\ 600 * 1000000 <= 1000000 * (999800 - 999200) < (600 + 1) * 1000000.
Proof.
  destruct (calculateArbitrageProfit_floor 999200 999800 1000000 ltac:(lia))
    as (_ & _ & Hfloor).
  split; [reflexivity |]. exact (Hfloor ltac:(lia)).
Defined.

(** ** Price monitor: the price history *)

Lemma storePriceData_history_eq (poolKey : string) (priceData : PriceData.t) (now : Z)
    (s : PriceMonitor.State) :
  PriceMonitor.priceHistory (PriceMonitor.storePriceData poolKey priceData now s) !! poolKey
  = Some (let history :=
            (default [] (PriceMonitor.priceHistory s !! poolKey) ++ [priceData])%list in
          if 100 <? Z.of_nat (length history) then drop 1 history else history).
Proof. unfold PriceMonitor.storePriceData. cbn. apply lookup_insert_eq. Qed.

Lemma storePriceData_history_ne (poolKey other : string) (priceData : PriceData.t) (now : Z)
    (s : PriceMonitor.State) :
  poolKey <> other ->
  PriceMonitor.priceHistory (PriceMonitor.storePriceData poolKey priceData now s) !! other
  = PriceMonitor.priceHistory s !! other.
Proof. intros Hne. unfold PriceMonitor.storePriceData. cbn. now apply lookup_insert_ne. Qed.

(** X17: the history kept for a pool is the last hundred of the price
    points stored under its key, oldest first: storing evicts the oldest
    point once a hundred are held, and never touches another pool's
    history.  In particular no history is ever longer than 100. *)
Theorem priceHistory_last_100 :
  forall (events : list (string * PriceData.t * Z)) (poolKey : string) (now : Z),
    PriceMonitor.getPriceHistory poolKey None now (storeAll events)
    = drop (length (storedUnder poolKey events) - 100) (storedUnder poolKey events)
    /\ (length (PriceMonitor.getPriceHistory poolKey None now (storeAll events)) <= 100)%nat.
Proof.
  intros events poolKey now.
  assert (Hhist :
    default [] (PriceMonitor.priceHistory (storeAll events) !! poolKey)
    = drop (length (storedUnder poolKey events) - 100) (storedUnder poolKey events)).
  { induction events as [| [[key priceData] t] events IH] using rev_ind.
    - reflexivity.
    - unfold storeAll, storedUnder in *. rewrite fold_left_app, omap_app.
      cbn -[PriceMonitor.storePriceData drop].
      destruct (decide (key = poolKey)) as [-> | Hne].
      + rewrite storePriceData_history_eq, IH. cbn -[drop].
        set (st := omap _ events) in *.
        rewrite !length_app, length_drop. cbn [length].
        destruct (Z.ltb_spec 100 (Z.of_nat (length st - (length st - 100) + 1))).
        * rewrite (drop_app_le (drop _ st)) by (rewrite length_drop; lia).
          rewrite drop_drop.
          rewrite (drop_app_le st) by lia. f_equal. f_equal. lia.
        * rewrite (drop_app_le st) by lia. f_equal. f_equal. lia.
      + rewrite storePriceData_history_ne by assumption. rewrite IH.
        now rewrite app_nil_r. }
  unfold PriceMonitor.getPriceHistory. rewrite Hhist. split; [reflexivity |].
  rewrite length_drop. lia.
Qed.

(** X18: a stored price point is the latest price of its pool right away,
    whatever the history held before, and the latest price of every other
    pool is as it was. *)
Theorem storePriceData_latest :
  forall (s : PriceMonitor.State) (poolKey : string) (priceData : PriceData.t) (now : Z),
    PriceMonitor.getLatestPrice poolKey (PriceMonitor.storePriceData poolKey priceData now s)
    = Some priceData
    /\ forall other : string,
         other <> poolKey ->
         PriceMonitor.getLatestPrice other
           (PriceMonitor.storePriceData poolKey priceData now s)
         = PriceMonitor.getLatestPrice other s.
Proof.
  intros s poolKey priceData now. split.
  - unfold PriceMonitor.getLatestPrice. rewrite storePriceData_history_eq. cbn.
    destruct (default [] (PriceMonitor.priceHistory s !! poolKey)) as [| p history].
    + reflexivity.
    + destruct (100 <? Z.of_nat (length ((p :: history) ++ [priceData]))).
      * cbn [app drop]. apply last_snoc.
      * apply last_snoc.
  - intros other Hne. unfold PriceMonitor.getLatestPrice.
    rewrite storePriceData_history_ne by congruence. reflexivity.
Qed.

(** ** Opportunity engine: history and statistics *)

(** X19: [getExecutionHistory] lists the most recent execution first.
    Without a limit, and with the limit 0, it returns the whole history;
    with a positive limit [n] the last [n] results recorded (all of them
    when there are fewer); with a negative limit all but the [-n] oldest. *)
Theorem getExecutionHistory_recent_first :
  forall (e : ArbitrageEngine.State),
    ArbitrageEngine.getExecutionHistory None e
      = reverse (ArbitrageEngine.executionHistory e)
    /\ ArbitrageEngine.getExecutionHistory (Some 0) e
       = reverse (ArbitrageEngine.executionHistory e)
    /\ (forall n : Z,
          0 < n ->
          ArbitrageEngine.getExecutionHistory (Some n) e
          = reverse (drop (length (ArbitrageEngine.executionHistory e) - Z.to_nat n)
                       (ArbitrageEngine.executionHistory e)))
    /\ (forall n : Z,
          n < 0 ->
          ArbitrageEngine.getExecutionHistory (Some n) e
          = reverse (drop (Z.to_nat (- n)) (ArbitrageEngine.executionHistory e))).
Proof.
  intros e. split; [reflexivity |]. split; [reflexivity |]. split.
  - intros n Hn. unfold ArbitrageEngine.getExecutionHistory, ArbitrageEngine.slice_to.
    destruct n as [| p | p]; try lia.
    destruct (Z.ltb_spec (Z.pos p) 0); [lia |].
    rewrite take_reverse. reflexivity.
  - intros n Hn. unfold ArbitrageEngine.getExecutionHistory, ArbitrageEngine.slice_to.
    destruct n as [| p | p]; try lia.
    destruct (Z.ltb_spec (Z.neg p) 0); [| lia].
    rewrite take_reverse, length_reverse.
    set (h := ArbitrageEngine.executionHistory e).
    destruct (decide (Z.to_nat (- Z.neg p) <= length h)%nat) as [Hle | Hgt].
    + f_equal. f_equal. lia.
    + rewrite !drop_ge by lia. reflexivity.
Qed.

Lemma length_filter_partition {A : Type} (f : A -> bool) (l : list A) :
  length l = (length (List.filter f l) + length (List.filter (fun x => negb (f x)) l))%nat.
Proof.
  induction l as [| x l IH]; cbn; [reflexivity |].
  destruct (f x); cbn; lia.
Qed.

(** X20: in the statistics every execution is counted once, as successful
    or as failed; and with no execution yet the rate and the average are
    zero, so nothing is divided by zero. *)
Theorem getExecutionStats_counts :
  forall (e : ArbitrageEngine.State),
    let stats := ArbitrageEngine.getExecutionStats e in
    ArbitrageEngine.totalExecutions stats = length (ArbitrageEngine.executionHistory e)
    /\ ArbitrageEngine.totalExecutions stats
       = (ArbitrageEngine.successfulExecutions stats
          + ArbitrageEngine.failedExecutions stats)%nat
    /\ (ArbitrageEngine.executionHistory e = [] ->
        stats = ArbitrageEngine.mkStats 0 0 0 0%float 0 0 0%float).
Proof.
  intros e stats. subst stats. unfold ArbitrageEngine.getExecutionStats. cbn.
  split; [reflexivity |]. split; [apply length_filter_partition |].
  intros ->. reflexivity.
Qed.

(** What an admitted call of [executeArbitrage] leaves: a result, the flag
    cleared, the result appended to the history; and a result that reports
    failure has a net profit of zero. *)
Lemma executeArbitrage_outcome {W : Type} (rt : Runtime.t W)
    (pharaohService shadowService : VenueService.t W) (providers : BridgeProviders.t W)
    (rnd : Q -> Q) (simulationMode : bool) (opportunity : ArbitrageOpportunity.t)
    (e e' : ArbitrageEngine.State) (w w' : W) (r : Result ArbitrageExecutionResult.t) :
  ArbitrageEngine.isExecuting e = false ->
  ArbitrageEngine.executeArbitrage rt pharaohService shadowService providers rnd
    simulationMode opportunity (e, w) = (r, (e', w')) ->
  exists result : ArbitrageExecutionResult.t,
    r = Ok result
    /\ e' = ArbitrageEngine.mkState false
              (ArbitrageEngine.executionHistory e ++ [result])%list
    /\ (ArbitrageExecutionResult.success result = false ->
        ArbitrageExecutionResult.netProfit result = 0).
Proof.
  intros He H.
  unfold ArbitrageEngine.executeArbitrage, bind, ArbitrageEngine.getLocal in H.
  rewrite He in H.
  unfold try_finally, try_catch, generateId, bind, ret, ArbitrageEngine.setExecuting,
    ArbitrageEngine.pushHistory, ArbitrageEngine.modifyLocal, ArbitrageEngine.liftW,
    Runtime.now, Runtime.random in H.
  cbn in H. destruct (Runtime.mathRandom rt w) as [draw w0]. cbn in H.
  destruct (ArbitrageEngine.validateOpportunity pharaohService shadowService opportunity w0)
    as [[[] | error] w1]; cbn in H.
  - destruct (ArbitrageEngine.executePlan rt pharaohService shadowService providers rnd
                simulationMode (ArbitrageEngine.createExecutionPlan opportunity)
                opportunity w1) as [r1 w2] eqn:Hplan.
    apply executePlan_spec in Hplan. destruct Hplan as (res & -> & _ & _ & Hif).
    cbn in H. injection H as <- <- <-.
    eexists. split; [reflexivity |]. split; [reflexivity |]. cbn.
    intros Hs. rewrite Hs in Hif.
    destruct Hif as (k & step & err & _ & _ & _ & _ & _ & _ & Hn & _). exact Hn.
  - injection H as <- <- <-.
    eexists. split; [reflexivity |]. split; reflexivity.
Qed.

(** X21: after an admitted execution, the first entry of the history is
    the result that was just returned, and the statistics count one more
    execution. *)
Theorem executeArbitrage_then_history :
  forall (W : Type) (rt : Runtime.t W) (pharaohService shadowService : VenueService.t W)
         (providers : BridgeProviders.t W) (rnd : Q -> Q) (simulationMode : bool)
         (opportunity : ArbitrageOpportunity.t) (e e' : ArbitrageEngine.State) (w w' : W)
         (result : ArbitrageExecutionResult.t),
    ArbitrageEngine.isExecuting e = false ->
    ArbitrageEngine.executeArbitrage rt pharaohService shadowService providers rnd
      simulationMode opportunity (e, w) = (Ok result, (e', w')) ->
    ArbitrageEngine.getExecutionHistory (Some 1) e' = [result]
    /\ head (ArbitrageEngine.getExecutionHistory None e') = Some result
    /\ ArbitrageEngine.totalExecutions (ArbitrageEngine.getExecutionStats e')
       = S (ArbitrageEngine.totalExecutions (ArbitrageEngine.getExecutionStats e)).
Proof.
  intros W rt pharaohService shadowService providers rnd simulationMode opportunity
    e e' w w' result He H.
  destruct (executeArbitrage_outcome rt pharaohService shadowService providers rnd
              simulationMode opportunity e e' w w' (Ok result) He H)
    as (result' & [= <-] & -> & _).
  unfold ArbitrageEngine.getExecutionHistory, ArbitrageEngine.slice_to,
    ArbitrageEngine.getExecutionStats.
  cbn [ArbitrageEngine.executionHistory ArbitrageEngine.totalExecutions].
  rewrite reverse_snoc. split; [reflexivity |]. split; [reflexivity |].
  rewrite length_app. cbn. lia.
Qed.

Lemma executeArbitrage_then_history_witness :
  exists result : ArbitrageExecutionResult.t,
    ArbitrageEngine.getExecutionHistory (Some 1) (ArbitrageEngine.mkState false [result])
      = [result]
    /\ ArbitrageExecutionResult.success result = true.
Proof.
  pose (run := Demo.engine (Mock.opportunity avalanche_to_sonic 999200 999800 100000)
                 (ArbitrageEngine.mkState false [])).
  let r := eval vm_compute in run in
  match r with
  | (Ok ?result, (?e', _)) =>
      assert (Hrun : run = (Ok result, (e', tt))) by (vm_compute; reflexivity);
      exists result;
      exact (conj (proj1 (executeArbitrage_then_history unit Mock.runtime
                            (VenueService.Pharaoh Mock.env (Mock.client 800000))
                            (VenueService.Shadow Mock.env (Mock.client 80000))
                            Mock.providers (fun x => x) true
                            (Mock.opportunity avalanche_to_sonic 999200 999800 100000)
                            (ArbitrageEngine.mkState false []) e' tt tt result
                            eq_refl Hrun))
                  eq_refl)
  end.
Defined.

(** ** Retry with backoff *)

Lemma retryLoop_provenance {W A : Type} (rt : Runtime.t W) (operation : M W A)
    (baseDelay : Q) (exponentialBackoff : bool) (remaining : nat) :
  forall (attempt : nat) (w w' : W) (r : Result A),
    retryLoop rt operation remaining attempt baseDelay exponentialBackoff w = (r, w') ->
    exists w0 : W, operation w0 = (r, w').
Proof.
  induction remaining as [| remaining IH]; intros attempt w w' r H; cbn in H;
    unfold try_catch in H; destruct (operation w) as [[a | error] w1] eqn:Hop.
  - injection H as <- <-. eauto.
  - unfold throw in H. injection H as <- <-. eauto.
  - injection H as <- <-. eauto.
  - unfold bind, Runtime.sleep in H. eapply IH. exact H.
Qed.

(** X22: whatever [retryAsync] returns or throws is what one call of the
    operation returned or threw, and the world is as that call left it:
    the helper adds no error of its own and does not wait after the last
    attempt. *)
Theorem retryAsync_provenance :
  forall (W A : Type) (rt : Runtime.t W) (operation : M W A) (maxRetries : nat)
         (baseDelay : Q) (exponentialBackoff : bool) (w w' : W) (r : Result A),
    retryAsync rt operation maxRetries baseDelay exponentialBackoff w = (r, w') ->
    exists w0 : W, operation w0 = (r, w').
Proof.
  intros W A rt operation maxRetries baseDelay exponentialBackoff w w' r H.
  exact (retryLoop_provenance rt operation baseDelay exponentialBackoff maxRetries 0 w w' r H).
Qed.

(** An endpoint that is down, retried with the default configuration. *)
Lemma retryAsync_provenance_witness :
  exists w0 : Script.World,
    Script.fetchOrder "order-1" w0
    = (Throw (JsError "fetch failed"), Script.mkWorld 14000 []).
Proof.
  apply (retryAsync_provenance Script.World DeBridgeService.HttpResponse Script.runtime
           (Script.fetchOrder "order-1") MAX_RETRIES RETRY_DELAY_MS true
           (Script.mkWorld 0 [])).
  vm_compute. reflexivity.
Defined.

Lemma retryLoop_exhausted {W A : Type} (rt : Runtime.t W) (operation : M W A)
    (error : Exn) (baseDelay : Q) (exponentialBackoff : bool) :
  (forall w, operation w = (Throw error, w)) ->
  forall (remaining attempt : nat) (w : W),
    retryLoop rt operation remaining attempt baseDelay exponentialBackoff w
    = (Throw error, backoffWaits rt baseDelay exponentialBackoff remaining attempt w).
Proof.
  intros Hop. induction remaining as [| remaining IH]; intros attempt w; cbn;
    unfold try_catch; rewrite Hop.
  - reflexivity.
  - unfold bind, Runtime.sleep. apply IH.
Qed.

(** X23: when every attempt fails, [retryAsync] waits [maxRetries] times,
    for [baseDelay], [2 * baseDelay], [4 * baseDelay] and so on with
    exponential backoff (for [baseDelay] each time without), and then
    throws the operation's error, with no wait after the last attempt.
    Stated for an operation that fails the same way in every world and
    leaves it unchanged. *)
Theorem retryAsync_exhausted :
  forall (W A : Type) (rt : Runtime.t W) (operation : M W A) (error : Exn)
         (maxRetries : nat) (baseDelay : Q) (exponentialBackoff : bool) (w : W),
    (forall w0, operation w0 = (Throw error, w0)) ->
    retryAsync rt operation maxRetries baseDelay exponentialBackoff w
    = (Throw error, backoffWaits rt baseDelay exponentialBackoff maxRetries 0 w).
Proof.
  intros W A rt operation error maxRetries baseDelay exponentialBackoff w Hop.
  apply retryLoop_exhausted. exact Hop.
Qed.

(** With the default configuration (3 retries from 2000 ms), the waits add
    up to 2000 + 4000 + 8000 = 14000 ms. *)
Lemma retryAsync_exhausted_witness :
  retryAsync Script.runtime (throw (JsError "fetch failed") : M Script.World unit)
    MAX_RETRIES RETRY_DELAY_MS true (Script.mkWorld 0 [])
  = (Throw (JsError "fetch failed"),
     backoffWaits Script.runtime RETRY_DELAY_MS true MAX_RETRIES 0 (Script.mkWorld 0 []))
  /\ backoffWaits Script.runtime RETRY_DELAY_MS true MAX_RETRIES 0 (Script.mkWorld 0 [])
     = Script.mkWorld 14000 [].
Proof.
  split.
  - apply (retryAsync_exhausted Script.World unit Script.runtime
             (throw (JsError "fetch failed")) (JsError "fetch failed") MAX_RETRIES
             RETRY_DELAY_MS true (Script.mkWorld 0 [])).
    intros w0. reflexivity.
  - vm_compute. reflexivity.
Defined.

(** ** CCIP message monitoring: how it ends *)

Lemma ccip_pollOnce_outcome {W : Type} (rt : Runtime.t W)
    (getBlockNumber : Network -> M W Z) (toClient : Network) (startTime : Z)
    (w w' : W) (r : Result (option unit)) :
  CCIPService.pollOnce rt getBlockNumber toClient startTime w = (r, w') ->
  exists returned : option unit,
    r = Ok returned
    /\ (returned = Some tt -> 600000 < Runtime.dateNow rt w' - startTime).
Proof.
  intros H. unfold CCIPService.pollOnce, Runtime.sleep, Runtime.now in H.
  unfold try_catch, bind, ret in H.
  destruct (getBlockNumber toClient w) as [[currentBlock | error] w1].
  - destruct (Z.gtb_spec (Runtime.dateNow rt w1 - startTime) 600000) as [Hgt | Hle];
      injection H as <- <-; eexists; split; try reflexivity.
    + intros _. lia.
    + discriminate.
  - injection H as <- <-. eexists; split; [reflexivity | discriminate].
Qed.

Lemma ccip_monitorLoop_outcome {W : Type} (rt : Runtime.t W)
    (getBlockNumber : Network -> M W Z) (toClient : Network) (timeoutMs startTime : Z)
    (fuel : nat) :
  forall (w w' : W) (r : Result (option unit)),
    CCIPService.monitorLoop rt getBlockNumber fuel toClient timeoutMs startTime w = (r, w') ->
    match r with
    | Ok (Some _) => 600000 < Runtime.dateNow rt w' - startTime
    | Ok None => True
    | Throw error =>
        error = BridgeError "CCIP message monitoring timeout" None
        /\ timeoutMs <= Runtime.dateNow rt w' - startTime
    end.
Proof.
  induction fuel as [| fuel IH]; intros w w' r H; cbn in H.
  - injection H as <- <-. exact I.
  - unfold bind, Runtime.now in H. cbn in H.
    destruct (Z.ltb_spec (Runtime.dateNow rt w - startTime) timeoutMs) as [Hlt | Hge].
    + destruct (CCIPService.pollOnce rt getBlockNumber toClient startTime w)
        as [r1 w1] eqn:Hpoll.
      apply ccip_pollOnce_outcome in Hpoll. destruct Hpoll as (returned & -> & Hret).
      destruct returned as [[] |].
      * injection H as <- <-. apply Hret. reflexivity.
      * exact (IH w1 w' r H).
    + unfold throw in H. injection H as <- <-. split; [reflexivity | lia].
Qed.

(** X24: the CCIP monitor reports completion only when more than 600000
    ms have passed on the clock since the call started, and the only error
    it throws is its timeout, once at least [timeoutMs] have passed; so
    whatever the chain answers, no call ends before the smaller of the two
    has elapsed. *)
Theorem ccip_monitorBridgeTransaction_timing :
  forall (W : Type) (rt : Runtime.t W) (getBlockNumber : Network -> M W Z)
         (fuel : nat) (messageId : string) (toChainId timeoutMs : Z) (w w' : W)
         (r : Result (option unit)),
    CCIPService.monitorBridgeTransaction rt getBlockNumber fuel messageId toChainId
      timeoutMs w = (r, w') ->
    match r with
    | Ok (Some _) => 600000 < Runtime.dateNow rt w' - Runtime.dateNow rt w
    | Ok None => True
    | Throw error =>
        error = BridgeError "CCIP message monitoring timeout" None
        /\ timeoutMs <= Runtime.dateNow rt w' - Runtime.dateNow rt w
    end.
Proof.
  intros W rt getBlockNumber fuel messageId toChainId timeoutMs w w' r H.
  unfold CCIPService.monitorBridgeTransaction, bind, Runtime.now in H.
  exact (ccip_monitorLoop_outcome rt getBlockNumber _ timeoutMs _ fuel w w' r H).
Qed.

(** With the default timeout of 300 seconds and a chain that answers at
    once, the monitor polls ten times, 30 seconds apart, and times out;
    it cannot report completion. *)
Lemma ccip_monitorBridgeTransaction_timing_witness :
  CCIPService.monitorBridgeTransaction Script.runtime (fun _ => ret 1) 100 "0xmessage" 146
    DeBridgeService.BRIDGE_TIMEOUT (Script.mkWorld 0 [])
  = (Throw (BridgeError "CCIP message monitoring timeout" None), Script.mkWorld 300000 [])
  /\ BridgeError "CCIP message monitoring timeout" None
     = BridgeError "CCIP message monitoring timeout" None
  /\ DeBridgeService.BRIDGE_TIMEOUT <= 300000 - 0.
Proof.
  assert (Hrun :
    CCIPService.monitorBridgeTransaction Script.runtime (fun _ => ret 1) 100 "0xmessage" 146
      DeBridgeService.BRIDGE_TIMEOUT (Script.mkWorld 0 [])
    = (Throw (BridgeError "CCIP message monitoring timeout" None),
       Script.mkWorld 300000 [])) by (vm_compute; reflexivity).
  split; [exact Hrun |].
  exact (ccip_monitorBridgeTransaction_timing Script.World Script.runtime (fun _ => ret 1)
           100 "0xmessage" 146 DeBridgeService.BRIDGE_TIMEOUT (Script.mkWorld 0 [])
           (Script.mkWorld 300000 [])
           (Throw (BridgeError "CCIP message monitoring timeout" None)) Hrun).
Defined.

(** ** Swap coordinator: best quote, cost estimate, health score *)

Lemma sort_insert_elem {A : Type} (compare : A -> A -> float) (x : A) (l : list A) :
  forall y, y ∈ sort_insert compare x l <-> y = x \/ y ∈ l.
Proof.
  induction l as [| z l IH]; intros y; cbn.
  - rewrite list_elem_of_singleton, elem_of_nil. tauto.
  - destruct (PrimFloat.ltb 0 (compare x z)).
    + rewrite !elem_of_cons, IH. tauto.
    + rewrite !elem_of_cons. tauto.
Qed.

Lemma Array_sort_elem {A : Type} (compare : A -> A -> float) (l : list A) :
  forall y, y ∈ Array_sort compare l <-> y ∈ l.
Proof.
  unfold Array_sort. induction l as [| x l IH]; intros y; cbn; [reflexivity |].
  rewrite sort_insert_elem, IH, elem_of_cons. tauto.
Qed.

(** X25: [getBestQuote] picks among the quotes the venues gave: what it
    returns is the quote of the venue it names, and it throws, with
    'No DEX quotes available', exactly when neither venue quoted. *)
Theorem getBestQuote_selects_available :
  forall (W : Type) (pharaohService shadowService : VenueService.t W)
         (tokenIn tokenOut : Token) (amountIn : Z) (networks : option (list Network))
         (w w' : W) (r : Result (SwapQuote.t * DexName)),
    DEXManager.getBestQuote pharaohService shadowService tokenIn tokenOut amountIn
      networks w = (r, w') ->
    exists quotes : gmap string SwapQuote.t,
      DEXManager.getAllQuotes pharaohService shadowService tokenIn tokenOut amountIn
        networks w = (Ok quotes, w')
      /\ match r with
         | Ok (quote, dex) => quotes !! DexName_key dex = Some quote
         | Throw error =>
             error = SwapError "No DEX quotes available" None
             /\ quotes !! "pharaoh" = None /\ quotes !! "shadow" = None
         end.
Proof.
  intros W pharaohService shadowService tokenIn tokenOut amountIn networks w w' r H.
  unfold DEXManager.getBestQuote, bind in H.
  destruct (DEXManager.getAllQuotes pharaohService shadowService tokenIn tokenOut
              amountIn networks w) as [[quotes | error] w1] eqn:Hq.
  2: { exfalso. unfold DEXManager.getAllQuotes in Hq. run_in Hq. }
  match type of H with
  | context [Array_sort ?cmp ?l] =>
      pose proof (Array_sort_elem cmp l) as Hsort;
      assert (Hin : forall quote dex, (quote, dex) ∈ l -> quotes !! DexName_key dex = Some quote);
      [| destruct (Array_sort cmp l) as [| best sorted] eqn:Hsorted ]
  end.
  { intros quote dex Hel.
    destruct (quotes !! "pharaoh") as [p |] eqn:Hp;
      destruct (quotes !! "shadow") as [s |] eqn:Hs; cbn in Hel;
      repeat (apply elem_of_cons in Hel; destruct Hel as [[= -> ->] | Hel]; [assumption |]);
      apply elem_of_nil in Hel; contradiction. }
  - destruct (quotes !! "pharaoh") as [p |] eqn:Hp;
      destruct (quotes !! "shadow") as [s |] eqn:Hs; cbn in H, Hsorted.
    all: try (exfalso; revert Hsorted; cbn; repeat case_match; discriminate).
    unfold throw in H. injection H as <- <-. exists quotes. auto.
  - assert (Hbest : best ∈ best :: sorted) by (apply elem_of_cons; left; reflexivity).
    apply Hsort in Hbest. destruct best as [quote dex].
    specialize (Hin quote dex Hbest).
    destruct (quotes !! "pharaoh") as [p |] eqn:Hp;
      destruct (quotes !! "shadow") as [s |] eqn:Hs; cbn in H.
    all: try (unfold ret in H; injection H as <- <-; exists quotes; split; [reflexivity | exact Hin]).
    exfalso. apply elem_of_nil in Hbest. exact Hbest.
Qed.

(** The better of the two adapters' quotes for one USDC is Pharaoh's, whose
    fee is the lower. *)
Lemma getBestQuote_selects_available_witness :
  exists quotes : gmap string SwapQuote.t,
    DEXManager.getAllQuotes (VenueService.Pharaoh Mock.env (Mock.client 800000))
      (VenueService.Shadow Mock.env (Mock.client 80000)) USDC USDT 1000000 None tt
    = (Ok quotes, tt)
    /\ quotes !! "pharaoh" = Some (Demo.pharaohQuoteFor 1000000 999500).
Proof.
  assert (Hrun :
    DEXManager.getBestQuote (VenueService.Pharaoh Mock.env (Mock.client 800000))
      (VenueService.Shadow Mock.env (Mock.client 80000)) USDC USDT 1000000 None tt
    = (Ok (Demo.pharaohQuoteFor 1000000 999500, pharaoh), tt))
    by (vm_compute; reflexivity).
  exact (getBestQuote_selects_available unit
           (VenueService.Pharaoh Mock.env (Mock.client 800000))
           (VenueService.Shadow Mock.env (Mock.client 80000)) USDC USDT 1000000 None tt tt
           (Ok (Demo.pharaohQuoteFor 1000000 999500, pharaoh)) Hrun).
Defined.

Lemma estimateSwapCostsLoop_spec {W : Type} (pharaohService shadowService : VenueService.t W)
    (swaps : list SwapRequest.t) :
  forall (acc : SwapCosts.t) (w : W),
    exists (costs : SwapCosts.t) (w' : W) (entries : list SwapCostEntry.t),
      DEXManager.estimateSwapCostsLoop pharaohService shadowService swaps acc w
        = (Ok costs, w')
      /\ SwapCosts.breakdown costs = (SwapCosts.breakdown acc ++ entries)%list
      /\ map SwapCostEntry.dex entries = map SwapRequest.dex swaps
      /\ SwapCosts.totalGasCost costs
         = SwapCosts.totalGasCost acc + foldr Z.add 0 (map SwapCostEntry.gasCost entries).
Proof.
  induction swaps as [| swap rest IH]; intros acc w; cbn.
  - exists acc, w, []. rewrite app_nil_r. cbn. repeat split; lia.
  - unfold bind at 1. unfold try_catch, bind, ret.
    match goal with
    | |- context [match (if ?c then ?a else ?b) w with _ => _ end] =>
        destruct ((if c then a else b) w) as [[quote | error] w1]
    end.
    all: match goal with
         | |- context [DEXManager.estimateSwapCostsLoop _ _ _ ?acc1 ?w1] =>
             destruct (IH acc1 w1) as (costs & w' & entries & Hrun & Hb & Hd & Hg)
         end.
    all: rewrite Hrun; cbn in Hb, Hg.
    all: eexists costs, w', (_ :: entries); split; [reflexivity |].
    all: rewrite Hb, <- app_assoc; cbn; split; [reflexivity |].
    all: split; [now rewrite Hd |].
    all: rewrite Hg; cbn [map foldr SwapCostEntry.gasCost]; lia.
Qed.

(** X26: [estimateSwapCosts] never throws, whatever the venues do: a leg
    whose quote fails is booked at the fixed 4000000000000000.  The
    breakdown has one entry per requested swap, in order and under the
    same venue, and the total gas cost is the sum of the entries'. *)
Theorem estimateSwapCosts_total :
  forall (W : Type) (pharaohService shadowService : VenueService.t W)
         (swaps : list SwapRequest.t) (w : W),
  exists (costs : SwapCosts.t) (w' : W),
    DEXManager.estimateSwapCosts pharaohService shadowService swaps w = (Ok costs, w')
    /\ map SwapCostEntry.dex (SwapCosts.breakdown costs) = map SwapRequest.dex swaps
    /\ SwapCosts.totalGasCost costs
       = foldr Z.add 0 (map SwapCostEntry.gasCost (SwapCosts.breakdown costs)).
Proof.
  intros W pharaohService shadowService swaps w. unfold DEXManager.estimateSwapCosts.
  destruct (estimateSwapCostsLoop_spec pharaohService shadowService swaps
              (SwapCosts.mk 0 0%float []) w)
    as (costs & w' & entries & Hrun & Hb & Hd & Hg).
  exists costs, w'. cbn in Hb, Hg. rewrite Hb. auto.
Qed.

(** X27: the health score of a quote is between 50 and 100, whatever its
    price impact and gas estimate (a NaN impact included): the two
    penalties take at most 30 and 20 points, so the final clamp at zero
    never acts. *)
Theorem calculateHealthScore_range :
  forall quote : SwapQuote.t,
    PrimFloat.leb 50 (DEXManager.calculateHealthScore quote) = true
    /\ PrimFloat.leb (DEXManager.calculateHealthScore quote) 100 = true.
Proof.
  intros quote. unfold DEXManager.calculateHealthScore.
  destruct (PrimFloat.ltb 2 (SwapQuote.impact quote));
    [| destruct (PrimFloat.ltb 1 (SwapQuote.impact quote));
       [| destruct (PrimFloat.ltb 0.5 (SwapQuote.impact quote))]].
  all: destruct (PrimFloat.ltb 10 (Number (SwapQuote.gasEstimate quote) * 0.000000001 * 2000));
    [| destruct (PrimFloat.ltb 5 (Number (SwapQuote.gasEstimate quote) * 0.000000001 * 2000))].
  all: split; vm_compute; reflexivity.
Qed.

(** ** The application: opportunities and metrics *)

Lemma usdToTokenAmount_one_dollar :
  ArbitrageCalculator.usdToTokenAmount 1 TOKEN_DECIMALS_USDC = Ok 1000000.
Proof. vm_compute. reflexivity. Qed.

Lemma estimateArbitrageBridgeCosts_total (direction : Direction) :
  BridgeManager.totalCost (BridgeManager.estimateArbitrageBridgeCosts direction)
  = 2000000000000000.
Proof. destruct direction; vm_compute; reflexivity. Qed.

(** The net profit the analysis computes at a spread of at most
    6000000000000000 base units: the gross profit of the one-dollar trade
    is the spread itself, and the costs are 4000000000000000 for gas plus
    2000000000000000 for the bridges. *)
Lemma analysis_netProfit_zero (buyPrice sellPrice : Z) (testingMode : bool) :
  sellPrice - buyPrice <= 6000000000000000 ->
  ArbitrageCalculator.calculateNetProfit
    (let grossProfit :=
       ArbitrageCalculator.calculateArbitrageProfit buyPrice sellPrice 1000000
         TOKEN_DECIMALS_USDC in
     if testingMode && (grossProfit <=? 0) then 50000 else grossProfit)
    4000000000000000 2000000000000000 0 = 0.
Proof.
  intros Hspread. cbv zeta.
  unfold ArbitrageCalculator.calculateArbitrageProfit, TOKEN_DECIMALS_USDC.
  change (10 ^ Z.of_nat 6) with 1000000.
  assert (Hgross : forall g, g <= 6000000000000000 ->
            ArbitrageCalculator.calculateNetProfit g 4000000000000000 2000000000000000 0 = 0).
  { intros g Hg. unfold ArbitrageCalculator.calculateNetProfit.
    destruct (Z.gtb_spec g (4000000000000000 + 2000000000000000 + 0)); [lia | reflexivity]. }
  apply Hgross.
  destruct (Z.leb_spec sellPrice buyPrice) as [Hle | Hlt].
  - cbn. destruct testingMode; cbn; lia.
  - replace (1000000 * (sellPrice - buyPrice)) with ((sellPrice - buyPrice) * 1000000) by lia.
    rewrite Z.quot_mul by lia.
    destruct (testingMode && (sellPrice - buyPrice <=? 0)); lia.
Qed.

(** X28: outside testing mode the analysis yields no opportunity unless
    the two prices differ by more than 6000000000000000 base units: the
    costs it subtracts are in wei (0.004 and 0.002 ETH) while the gross
    profit of its one-dollar trade is in 6-decimal token units.  For any
    two price points within that distance of each other it returns [null],
    in either direction. *)
Theorem analyzeOpportunity_production_threshold :
  forall (W : Type) (rt : Runtime.t W) (direction : Direction)
         (pharaohData shadowData : PriceData.t) (w : W),
    Z.abs (PriceData.price0 pharaohData - PriceData.price0 shadowData)
      <= 6000000000000000 ->
    CrossChainArbitrage.analyzeOpportunityWithDeBridge rt false direction
      (Some pharaohData) (Some shadowData) w = (Ok None, w).
Proof.
  intros W rt direction pharaohData shadowData w Hspread.
  unfold CrossChainArbitrage.analyzeOpportunityWithDeBridge, try_catch.
  rewrite usdToTokenAmount_one_dollar, estimateArbitrageBridgeCosts_total.
  assert (Hnone : forall (buy sell : PriceData.t) (buyNetwork sellNetwork : Network),
    PriceData.price0 sell - PriceData.price0 buy <= 6000000000000000 ->
    bind (lift_result (Ok 1000000))
      (fun tradeAmount =>
         let estimatedGasCost := 4000000000000000 in
         let grossProfit :=
           ArbitrageCalculator.calculateArbitrageProfit (PriceData.price0 buy)
             (PriceData.price0 sell) tradeAmount TOKEN_DECIMALS_USDC in
         let grossProfit := if false && (grossProfit <=? 0) then 50000 else grossProfit in
         let netProfit :=
           ArbitrageCalculator.calculateNetProfit grossProfit estimatedGasCost
             2000000000000000 0 in
         let profitPercentage :=
           ArbitrageCalculator.calculateProfitPercentage netProfit tradeAmount in
         bind (Runtime.now rt) (fun now1 =>
         bind (Runtime.now rt) (fun now2 =>
         let opportunity :=
           ArbitrageOpportunity.mk
             (CrossChainArbitrage.Direction_key direction ++ "-" ++ toString10 now1)
             direction
             (PoolLeg.mk buyNetwork (PriceData.pool buy) (PriceData.price0 buy) USDC)
             (PoolLeg.mk sellNetwork (PriceData.pool sell) (PriceData.price0 sell) USDC)
             tradeAmount estimatedGasCost 2000000000000000
             grossProfit netProfit profitPercentage
             (if false then true else netProfit >? 100000) now2 in
         if false then ret (Some opportunity)
         else if OpportunityValidation.validateOpportunity opportunity then
           ret (Some opportunity)
         else ret None))) w = (Ok None, w)).
  { intros buy sell buyNetwork sellNetwork Hs.
    unfold bind, lift_result, Runtime.now, ret. cbv zeta.
    pose proof (analysis_netProfit_zero (PriceData.price0 buy) (PriceData.price0 sell)
                  false Hs) as Hnet.
    cbv zeta in Hnet.
    unfold OpportunityValidation.validateOpportunity.
    cbn [ArbitrageOpportunity.netProfit]. rewrite Hnet. reflexivity. }
  destruct direction; cbn [bool_decide decide_rel].
  - rewrite (bool_decide_eq_true_2 (avalanche_to_sonic = avalanche_to_sonic)) by reflexivity.
    destruct (Z.geb_spec (PriceData.price0 pharaohData) (PriceData.price0 shadowData));
      [reflexivity |].
    rewrite Hnone by lia. reflexivity.
  - rewrite (bool_decide_eq_false_2 (sonic_to_avalanche = avalanche_to_sonic)) by discriminate.
    destruct (Z.geb_spec (PriceData.price0 shadowData) (PriceData.price0 pharaohData));
      [reflexivity |].
    rewrite Hnone by lia. reflexivity.
Qed.

(** Pharaoh at 0.9992 and Shadow at 0.9998: no opportunity from Avalanche
    to Sonic. *)
Lemma analyzeOpportunity_production_threshold_witness :
  CrossChainArbitrage.analyzeOpportunityWithDeBridge Mock.runtime false avalanche_to_sonic
    (Some DemoPrices.pharaoh) (Some DemoPrices.shadow) tt = (Ok None, tt).
Proof.
  apply (analyzeOpportunity_production_threshold unit Mock.runtime avalanche_to_sonic
           DemoPrices.pharaoh DemoPrices.shadow tt).
  cbn. lia.
Defined.

(** X29: in testing mode the analysis always yields an opportunity when
    both pools have a price, in the direction asked for whichever pool is
    the cheaper: one dollar (1000000 base units), flagged profitable, with
    the prices of the two points; and its net profit is zero whenever the
    prices are within 6000000000000000 of each other. *)
Theorem analyzeOpportunity_testing_mode :
  forall (W : Type) (rt : Runtime.t W) (direction : Direction)
         (pharaohData shadowData : PriceData.t) (w : W),
  exists opportunity : ArbitrageOpportunity.t,
    CrossChainArbitrage.analyzeOpportunityWithDeBridge rt true direction
      (Some pharaohData) (Some shadowData) w = (Ok (Some opportunity), w)
    /\ ArbitrageOpportunity.direction opportunity = direction
    /\ ArbitrageOpportunity.amount opportunity = 1000000
    /\ ArbitrageOpportunity.profitable opportunity = true
    /\ PoolLeg.price (ArbitrageOpportunity.buyPool opportunity)
       = match direction with
         | avalanche_to_sonic => PriceData.price0 pharaohData
         | sonic_to_avalanche => PriceData.price0 shadowData
         end
    /\ PoolLeg.price (ArbitrageOpportunity.sellPool opportunity)
       = match direction with
         | avalanche_to_sonic => PriceData.price0 shadowData
         | sonic_to_avalanche => PriceData.price0 pharaohData
         end
    /\ (Z.abs (PriceData.price0 pharaohData - PriceData.price0 shadowData)
          <= 6000000000000000 ->
        ArbitrageOpportunity.netProfit opportunity = 0).
Proof.
  intros W rt direction pharaohData shadowData w.
  unfold CrossChainArbitrage.analyzeOpportunityWithDeBridge, try_catch.
  rewrite usdToTokenAmount_one_dollar, estimateArbitrageBridgeCosts_total.
  destruct direction.
  - rewrite (bool_decide_eq_true_2 (avalanche_to_sonic = avalanche_to_sonic)) by reflexivity.
    unfold bind, lift_result, Runtime.now, ret. cbv zeta.
    eexists. split; [reflexivity |]. cbn [ArbitrageOpportunity.direction
      ArbitrageOpportunity.amount ArbitrageOpportunity.profitable
      ArbitrageOpportunity.buyPool ArbitrageOpportunity.sellPool
      ArbitrageOpportunity.netProfit PoolLeg.price].
    repeat (split; [reflexivity |]).
    intros Hspread.
    apply (analysis_netProfit_zero (PriceData.price0 pharaohData)
             (PriceData.price0 shadowData) true). lia.
  - rewrite (bool_decide_eq_false_2 (sonic_to_avalanche = avalanche_to_sonic)) by discriminate.
    unfold bind, lift_result, Runtime.now, ret. cbv zeta.
    eexists. split; [reflexivity |]. cbn [ArbitrageOpportunity.direction
      ArbitrageOpportunity.amount ArbitrageOpportunity.profitable
      ArbitrageOpportunity.buyPool ArbitrageOpportunity.sellPool
      ArbitrageOpportunity.netProfit PoolLeg.price].
    repeat (split; [reflexivity |]).
    intros Hspread.
    apply (analysis_netProfit_zero (PriceData.price0 shadowData)
             (PriceData.price0 pharaohData) true). lia.
Qed.

(** When the engine is busy, [executeArbitrage] throws. *)
Lemma executeArbitrage_busy {W : Type} (rt : Runtime.t W)
    (pharaohService shadowService : VenueService.t W) (providers : BridgeProviders.t W)
    (rnd : Q -> Q) (simulationMode : bool) (opportunity : ArbitrageOpportunity.t)
    (e : ArbitrageEngine.State) (w : W) :
  ArbitrageEngine.isExecuting e = true ->
  ArbitrageEngine.executeArbitrage rt pharaohService shadowService providers rnd
    simulationMode opportunity (e, w)
  = (Throw (ArbitrageError "Arbitrage execution already in progress"
              "EXECUTION_IN_PROGRESS"), (e, w)).
Proof.
  intros He. unfold ArbitrageEngine.executeArbitrage, bind, ArbitrageEngine.getLocal.
  rewrite He. reflexivity.
Qed.

(** X30: the metrics of a live run.  [executeRealArbitrageWithDeBridge]
    never throws and counts exactly one more trade, a rejected or throwing
    execution included (as failed).  It keeps the books consistent: trades
    are the successes plus the failures, the net profit is the profit less
    the loss; and since a result that reports failure carries a net profit
    of zero, no loss is ever booked. *)
Theorem executeRealArbitrage_metrics :
  forall (W : Type) (rt : Runtime.t W) (pharaohService shadowService : VenueService.t W)
         (providers : BridgeProviders.t W) (rnd : Q -> Q) (simulationMode : bool)
         (opportunity : ArbitrageOpportunity.t) (m m' : ArbitrageMetrics.t)
         (e e' : ArbitrageEngine.State) (w w' : W) (r : Result unit),
    metrics_consistent m ->
    CrossChainArbitrage.executeRealArbitrageWithDeBridge rt pharaohService shadowService
      providers rnd simulationMode opportunity (m, (e, w)) = (r, (m', (e', w'))) ->
    r = Ok tt
    /\ metrics_consistent m'
    /\ ArbitrageMetrics.totalTrades m' = ArbitrageMetrics.totalTrades m + 1.
Proof.
  intros W rt pharaohService shadowService providers rnd simulationMode opportunity
    m m' e e' w w' r (Ht & Hn & Hl & Hll) H.
  unfold CrossChainArbitrage.executeRealArbitrageWithDeBridge, try_catch, bind,
    ArbitrageEngine.liftW, ArbitrageEngine.modifyLocal in H.
  destruct (ArbitrageEngine.executeArbitrage rt pharaohService shadowService providers rnd
              simulationMode opportunity (e, w)) as [r1 [e1 w1]] eqn:Hrun.
  destruct (ArbitrageEngine.isExecuting e) eqn:He.
  - rewrite (executeArbitrage_busy rt pharaohService shadowService providers rnd
               simulationMode opportunity e w He) in Hrun.
    injection Hrun as <- <- <-. injection H as <- <- <- <-.
    unfold metrics_consistent. cbn. repeat split; lia.
  - destruct (executeArbitrage_outcome rt pharaohService shadowService providers rnd
                simulationMode opportunity e e1 w w1 r1 He Hrun)
      as (result & -> & -> & Hfail).
    destruct (ArbitrageExecutionResult.success result) eqn:Hs;
      injection H as <- <- <- <-; unfold metrics_consistent; cbn.
    + repeat split; lia.
    + rewrite (Hfail eq_refl). cbn. repeat split; lia.
Qed.

(** A run that fails at the first bridge, from fresh metrics: one trade,
    failed, and no loss booked. *)
Lemma executeRealArbitrage_metrics_witness :
  exists (m' : ArbitrageMetrics.t) (e' : ArbitrageEngine.State),
    CrossChainArbitrage.executeRealArbitrageWithDeBridge Mock.runtime
      (VenueService.Pharaoh Mock.env (Mock.client 800000))
      (VenueService.Shadow Mock.env (Mock.client 80000))
      Mock.stuckProviders (fun x => x) false
      (Mock.opportunity avalanche_to_sonic 999200 999800 100000)
      (CrossChainArbitrage.initialMetrics 0, (ArbitrageEngine.mkState false [], tt))
    = (Ok tt, (m', (e', tt)))
    /\ ArbitrageMetrics.failedTrades m' = 1
    /\ metrics_consistent m'
    /\ ArbitrageMetrics.totalTrades m' = 0 + 1.
Proof.
  pose (run := CrossChainArbitrage.executeRealArbitrageWithDeBridge Mock.runtime
      (VenueService.Pharaoh Mock.env (Mock.client 800000))
      (VenueService.Shadow Mock.env (Mock.client 80000))
      Mock.stuckProviders (fun x => x) false
      (Mock.opportunity avalanche_to_sonic 999200 999800 100000)
      (CrossChainArbitrage.initialMetrics 0, (ArbitrageEngine.mkState false [], tt))).
  let r := eval vm_compute in run in
  match r with
  | (_, (?m', (?e', _))) =>
      assert (Hrun : run = (Ok tt, (m', (e', tt)))) by (vm_compute; reflexivity);
      exists m', e';
      exact (conj Hrun (conj eq_refl
               (proj2 (executeRealArbitrage_metrics unit Mock.runtime
                         (VenueService.Pharaoh Mock.env (Mock.client 800000))
                         (VenueService.Shadow Mock.env (Mock.client 80000))
                         Mock.stuckProviders (fun x => x) false
                         (Mock.opportunity avalanche_to_sonic 999200 999800 100000)
                         (CrossChainArbitrage.initialMetrics 0) m'
                         (ArbitrageEngine.mkState false []) e' tt tt (Ok tt)
                         (conj eq_refl (conj eq_refl (conj eq_refl eq_refl)))
                         Hrun))))
  end.
Defined.
